(** * hellodrkey: the DRKey demonstration driver and its C callers

    A shallow embedding of [_examples/hellodrkey/hellodrkey.go] and of the
    two C programs that call its exported entry point.  The external
    packages (the SCION daemon connector, [addr], [drkey], [protocol]) and
    the operating system are taken as an explicit environment. *)

From Stdlib Require Import ZArith Lia Ascii String List Bool.
From stdpp Require Import base option list strings gmap.

Local Open Scope string_scope.
Local Open Scope Z_scope.

(** ** Go's [regexp], restricted to the constructs of [addrRegexp] *)

Module regexp.

(** The syntax tree [regexp.MustCompile] builds for a pattern made of
    one-character classes, greedy [+] over such a class, concatenation,
    numbered capture groups and the text anchors. *)
Inductive Regexp : Type :=
| CharClass (p : ascii -> bool)
| Plus (p : ascii -> bool)
| Concat (r1 r2 : Regexp)
| Capture (i : nat) (r : Regexp)
| BeginText
| EndText.

Definition in_range (lo hi c : ascii) : bool :=
  (N_of_ascii lo <=? N_of_ascii c)%N && (N_of_ascii c <=? N_of_ascii hi)%N.

Definition lit (a : ascii) : Regexp := CharClass (Ascii.eqb a).

(** Greedy [x+]: at least one character of the class, as many as possible
    first, giving characters back one at a time while the rest fails. *)
Fixpoint plus_loop {R : Type} (p : ascii -> bool)
    (k : nat -> string -> option R) (pos : nat) (s : string) : option R :=
  match s with
  | String c s' =>
      if p c then
        match plus_loop p k (S pos) s' with
        | Some r => Some r
        | None => k (S pos) s'
        end
      else None
  | EmptyString => None
  end.

(** Backtracking matcher in continuation style: [pos] is the offset of [s]
    in the text and [caps] holds the capture slots filled so far. *)
Fixpoint run (r : Regexp) (pos : nat) (s : string) (caps : list string)
    (k : nat -> string -> list string -> option (list string))
    : option (list string) :=
  match r with
  | CharClass p =>
      match s with
      | String c s' => if p c then k (S pos) s' caps else None
      | EmptyString => None
      end
  | Plus p => plus_loop p (fun pos' s' => k pos' s' caps) pos s
  | Concat r1 r2 =>
      run r1 pos s caps (fun pos' s' caps' => run r2 pos' s' caps' k)
  | Capture i r' =>
      run r' pos s caps
        (fun pos' s' caps' =>
           k pos' s' (<[i := substring 0 (pos' - pos) s]> caps'))
  | BeginText => match pos with O => k pos s caps | S _ => None end
  | EndText =>
      match s with EmptyString => k pos s caps | String _ _ => None end
  end.

Fixpoint num_groups (r : Regexp) : nat :=
  match r with
  | Concat r1 r2 => Nat.max (num_groups r1) (num_groups r2)
  | Capture i r' => Nat.max i (num_groups r')
  | _ => 0
  end.

(** Leftmost match: start offsets are tried from 0 upwards. *)
Fixpoint find_from (r : Regexp) (pos : nat) (s : string)
    : option (list string) :=
  match run (Capture 0 r) pos s (replicate (S (num_groups r)) EmptyString)
            (fun _ _ caps => Some caps) with
  | Some caps => Some caps
  | None =>
      match s with
      | String _ s' => find_from r (S pos) s'
      | EmptyString => None
      end
  end.

(** [re.FindStringSubmatch(s)]: [None] is Go's nil slice; otherwise the
    whole match followed by the text of each capture group. *)
Definition FindStringSubmatch (r : Regexp) (s : string)
    : option (list string) :=
  find_from r 0 s.

End regexp.

(** ** Values of the external packages *)

(** [error]: built here with [fmt.Errorf] (format and operand kept apart),
    or handed over by an external package. *)
Inductive error : Type :=
| Errorf (format : string) (operand : string)
| ExtError (msg : string).

Module time.

Inductive Location : Type := Local | UTCLoc.

(** An instant as seconds and nanoseconds since the Unix epoch, with the
    location it is presented in. *)
Record Time : Type := mkTime { sec : Z; nsec : Z; loc : Location }.

(** [time.Duration]: a count of nanoseconds. *)
Definition Second : Z := 1000000000.

Definition sint64 (z : Z) : Z := (z + 2 ^ 63) mod 2 ^ 64 - 2 ^ 63.

(** [time.Unix(s, n)] *)
Definition Unix (s n : Z) : Time :=
  mkTime (s + n / Second) (n mod Second) Local.

(** [t.UTC()] *)
Definition Time_UTC (t : Time) : Time := mkTime (sec t) (nsec t) UTCLoc.

(** [t.Unix()], an int64 *)
Definition Time_Unix (t : Time) : Z := sint64 (sec t).

(** [t.Add(d)] *)
Definition Time_Add (t : Time) (d : Z) : Time :=
  let dsec := Z.quot d Second in
  let n := nsec t + Z.rem d Second in
  if Second <=? n then mkTime (sec t + dsec + 1) (n - Second) (loc t)
  else if n <? 0 then mkTime (sec t + dsec - 1) (n + Second) (loc t)
  else mkTime (sec t + dsec) n (loc t).

(** [t.Sub(u)] *)
Definition Time_Sub (t u : Time) : Z :=
  (sec t - sec u) * Second + (nsec t - nsec u).

End time.

Module addr.

(** [addr.IA]: ISD and AS number. *)
Record IA : Type := mkIA { I : Z; A : Z }.

(** The dynamic types behind the [addr.HostAddr] interface. *)
Inductive HostAddr : Type :=
| HostNone
| HostIPv4 (ip : list Z)
| HostIPv6 (ip : list Z)
| HostSVC (svc : Z).

End addr.

Module snet.

(** [snet.SCIONAddress]; [Host] is an interface value, [None] is nil. *)
Record SCIONAddress : Type :=
  mkSCIONAddress { IA : addr.IA; Host : option addr.HostAddr }.

(** [snet.SCIONAddress{}] *)
Definition zero : SCIONAddress := mkSCIONAddress (addr.mkIA 0 0) None.

End snet.

Module drkey.

Inductive Lvl2KeyType : Type := AS2AS | AS2Host | Host2Host.

Record Epoch : Type := mkEpoch { NotBefore : time.Time; NotAfter : time.Time }.

Module Lvl2Meta.
Record t : Type := mk {
  KeyType : Lvl2KeyType;
  Protocol : string;
  SrcIA : addr.IA;
  DstIA : addr.IA;
  SrcHost : option addr.HostAddr;
  DstHost : option addr.HostAddr
}.
End Lvl2Meta.

(** [drkey.Lvl2Key]: the metadata it was issued for, its epoch and the
    key bytes (a Go byte slice, of any length). *)
Module Lvl2Key.
Record t : Type := mk {
  KeyType : Lvl2KeyType;
  Protocol : string;
  Epoch : drkey.Epoch;
  SrcIA : addr.IA;
  DstIA : addr.IA;
  SrcHost : option addr.HostAddr;
  DstHost : option addr.HostAddr;
  Key : list Z
}.
End Lvl2Key.

Module DelegationSecret.
Record t : Type := mk {
  Protocol : string;
  Epoch : drkey.Epoch;
  SrcIA : addr.IA;
  DstIA : addr.IA;
  Key : list Z
}.
End DelegationSecret.

End drkey.

Module protocol.

(** A value of interface [protocol.Derivation]; [DeriveLvl2FromDS] is
    present exactly when its dynamic type also implements
    [protocol.DelegatedDerivation]. *)
Record Derivation : Type := mkDerivation {
  Name : string;
  DeriveLvl2FromDS :
    option (drkey.Lvl2Meta.t -> drkey.DelegationSecret.t ->
            drkey.Lvl2Key.t * option error)
}.

End protocol.

(** The functions of package [addr] the program calls.  Results are Go
    pairs: [None] in the error position is the nil error. *)
Class AddrLib : Type := {
  IAFromString : string -> addr.IA * option error;
  HostSVCFromString : string -> Z;
  SvcNone : Z;
  HostFromIPStr : string -> option addr.HostAddr;
  IAInt_IA : Z -> addr.IA
}.

(** [struct tm], the fields the C programs print. *)
Record tm : Type := mkTm {
  tm_year : Z; tm_mon : Z; tm_mday : Z; tm_hour : Z; tm_min : Z; tm_sec : Z
}.

Inductive ByteOrder : Type := LittleEndian | BigEndian.

(** Everything outside the process: the daemon behind [sciond.Connector],
    the clock, the registry of package [protocol], libc and the byte
    order of the machine.  [ExtState] is the hidden state of that outside
    world; every call may change it. *)
Class Platform : Type := {
  ExtState : Type;
  Connector : Type;
  sciond_Connect :
    ExtState -> string -> ExtState * (option Connector * option error);
  Connector_DRKeyGetLvl2Key :
    ExtState -> Connector -> Z -> drkey.Lvl2Meta.t -> time.Time ->
    ExtState * (drkey.Lvl2Key.t * option error);
  time_Now : ExtState -> ExtState * time.Time;
  KnownDerivations : gmap string protocol.Derivation;
  gettimeofday : ExtState -> ExtState * (Z * Z);
  gmtime : Z -> option tm;
  byte_order : ByteOrder
}.

(** ** The endpoint address parser *)

Definition is_digit (c : ascii) : bool := regexp.in_range "0" "9" c.

(** The class [[\d:A-Fa-f]] *)
Definition is_as_char (c : ascii) : bool :=
  is_digit c || Ascii.eqb ":" c || regexp.in_range "A" "F" c
  || regexp.in_range "a" "f" c.

(** The class [[^\]]] *)
Definition is_not_rbracket (c : ascii) : bool := negb (Ascii.eqb "]" c).

(** The pattern [^(\d+-[\d:A-Fa-f]+),\[([^\]]+)\]$].  Go matches runes of
    the UTF-8 text; every class here is decided by ASCII bytes alone, so
    matching byte by byte selects the same substrings. *)
Definition addrRegexp : regexp.Regexp :=
  let cat := regexp.Concat in
  cat regexp.BeginText
  (cat (regexp.Capture 1
          (cat (regexp.Plus is_digit)
          (cat (regexp.lit "-") (regexp.Plus is_as_char))))
  (cat (regexp.lit ",")
  (cat (regexp.lit "[")
  (cat (regexp.Capture 2 (regexp.Plus is_not_rbracket))
  (cat (regexp.lit "]") regexp.EndText))))).

Definition addrRegexpIaIndex : nat := 1.
Definition addrRegexpL3Index : nat := 2.

Section Parser.
Context {AL : AddrLib}.

(** The result is the Go pair (value, error).  [parts] has three entries
    whenever it is not nil (lemma [FindStringSubmatch_addrRegexp]), so the
    two index expressions are in range. *)
Definition addrFromString (address : string)
    : snet.SCIONAddress * option error :=
  match regexp.FindStringSubmatch addrRegexp address with
  | None => (snet.zero, Some (Errorf "no valid SCION address: %q" address))
  | Some parts =>
      match IAFromString (parts !!! addrRegexpIaIndex) with
      | (_, Some _) =>
          (snet.zero,
           Some (Errorf "invalid IA string: %v" (parts !!! addrRegexpIaIndex)))
      | (ia, None) =>
          let hostSVC := HostSVCFromString (parts !!! addrRegexpL3Index) in
          if negb (Z.eqb hostSVC SvcNone) then
            (snet.mkSCIONAddress ia (Some (addr.HostSVC hostSVC)), None)
          else
            match HostFromIPStr (parts !!! addrRegexpL3Index) with
            | None =>
                (snet.zero,
                 Some (Errorf "invalid IP address string: %v"
                         (parts !!! addrRegexpL3Index)))
            | Some l3 => (snet.mkSCIONAddress ia (Some l3), None)
            end
      end
  end.

End Parser.

(** ** Process memory and machine integers *)

(** Byte-addressed memory; the callers pass addresses of objects they own. *)
Definition Mem : Type := Z -> Z.

Definition store_bytes (m : Mem) (a : Z) (bs : list Z) : Mem :=
  fun x =>
    if (a <=? x) && (x <? a + Z.of_nat (length bs))
    then nth (Z.to_nat (x - a)) bs 0
    else m x.

Fixpoint load_bytes (m : Mem) (a : Z) (n : nat) : list Z :=
  match n with
  | O => []
  | S n' => m a :: load_bytes m (a + 1) n'
  end.

Fixpoint le_split (n : nat) (v : Z) : list Z :=
  match n with
  | O => []
  | S n' => v mod 256 :: le_split n' (v / 256)
  end.

Fixpoint le_combine (bs : list Z) : Z :=
  match bs with
  | [] => 0
  | b :: bs' => b + 256 * le_combine bs'
  end.

(** The eight bytes of an int64 in memory, in the machine's byte order. *)
Definition encode_int64 (bo : ByteOrder) (v : Z) : list Z :=
  match bo with
  | LittleEndian => le_split 8 v
  | BigEndian => rev (le_split 8 v)
  end.

Definition decode_int64 (bo : ByteOrder) (bs : list Z) : Z :=
  time.sint64
    (le_combine match bo with LittleEndian => bs | BigEndian => rev bs end).

(** The effect on memory of Go's builtin [copy(dst, src)], where [dst] is
    the slice of the [dstlen] bytes at address [dst]: it copies
    min(len(dst), len(src)) elements. *)
Definition copy_mem (m : Mem) (dst : Z) (dstlen : nat) (src : list Z) : Mem :=
  store_bytes m dst (take (Nat.min dstlen (length src)) src).

(** ** Observable events, outcomes and the program monad *)

Inductive Arg : Type :=
| ArgHex (bs : list Z)
| ArgEpoch (e : drkey.Epoch)
| ArgDuration (d : Z)
| ArgInt (z : Z).

Inductive Event : Type :=
| EvConnect (sciondAddr : string)
| EvDRKeyGetLvl2Key (timeout : Z) (meta : drkey.Lvl2Meta.t) (valTime : time.Time)
| EvPrintf (format : string) (args : list Arg)
| EvPrintln (e : error)
| EvPrintDefaults.

(** What a panic carries: the string [fmt.Sprintf(format, e)] built by
    [check], a Go runtime error, or a failed C [assert]. *)
Inductive PanicValue : Type :=
| Sprintf (format : string) (e : error)
| RuntimeError (msg : string)
| AssertionFailed (expr : string).

Section Program.
Context {AL : AddrLib} {PF : Platform}.

(** The state a run threads along: the outside world, the network calls
    and output lines so far (oldest first), and the process memory. *)
Record World : Type := mkWorld {
  ext : ExtState;
  events : list Event;
  mem : Mem
}.

Inductive Outcome (A : Type) : Type :=
| Returns (a : A) (w : World)
| Panics (v : PanicValue) (w : World)
| Exits (code : Z) (w : World).
#[global] Arguments Returns {A} a w.
#[global] Arguments Panics {A} v w.
#[global] Arguments Exits {A} code w.

Definition Go (A : Type) : Type := World -> Outcome A.

#[export] Instance Go_ret : MRet Go := fun A a w => Returns a w.

#[export] Instance Go_bind : MBind Go := fun A B f m w =>
  match m w with
  | Returns a w' => f a w'
  | Panics v w' => Panics v w'
  | Exits c w' => Exits c w'
  end.

Definition panic {A : Type} (v : PanicValue) : Go A := fun w => Panics v w.

Definition os_Exit {A : Type} (code : Z) : Go A := fun w => Exits code w.

Definition emit (e : Event) : Go unit :=
  fun w => Returns tt (mkWorld (ext w) (events w ++ [e]) (mem w)).

Definition fmt_Printf (format : string) (args : list Arg) : Go unit :=
  emit (EvPrintf format args).

Definition time_Now_ : Go time.Time :=
  fun w =>
    let '(e', t) := time_Now (ext w) in
    Returns t (mkWorld e' (events w) (mem w)).

(** [time.Since(t0)] is [time.Now().Sub(t0)]. *)
Definition time_Since (t0 : time.Time) : Go Z :=
  now ← time_Now_; mret (time.Time_Sub now t0).

(** [sciond.NewService(sciondAddr).Connect(context.Background())] *)
Definition Connect (sciondAddr : string)
    : Go (option Connector * option error) :=
  fun w =>
    let '(e', r) := sciond_Connect (ext w) sciondAddr in
    Returns r (mkWorld e' (events w ++ [EvConnect sciondAddr]) (mem w)).

(** [sd.DRKeyGetLvl2Key(ctx, meta, valTime)] on an interface value [sd],
    under a context that expires after [timeout].  The deferred
    [cancelF()] only releases the timer and is not modelled. *)
Definition DRKeyGetLvl2Key (sd : option Connector) (timeout : Z)
    (meta : drkey.Lvl2Meta.t) (valTime : time.Time)
    : Go (drkey.Lvl2Key.t * option error) :=
  fun w =>
    match sd with
    | None =>
        Panics (RuntimeError "invalid memory address or nil pointer dereference") w
    | Some c =>
        let '(e', r) := Connector_DRKeyGetLvl2Key (ext w) c timeout meta valTime in
        Returns r
          (mkWorld e' (events w ++ [EvDRKeyGetLvl2Key timeout meta valTime])
             (mem w))
    end.

(** ** hellodrkey.go *)

(** check just ensures the error is nil, or complains and quits *)
Definition check (e : option error) : Go unit :=
  match e with
  | Some e' => panic (Sprintf "Fatal error: %v" e')
  | None => mret tt
  end.

Record Client : Type := mkClient { Client_sciond : option Connector }.

Definition NewClient (sciondAddr : string) : Go Client :=
  '(sciond, err) ← Connect sciondAddr;
  check err;;
  mret (mkClient sciond).

Definition Client_HostKey (c : Client) (meta : drkey.Lvl2Meta.t)
    : Go drkey.Lvl2Key.t :=
  now ← time_Now_;
  '(key, err) ← DRKeyGetLvl2Key (Client_sciond c) (10 * time.Second) meta
                  (time.Time_UTC now);
  check err;;
  mret key.

Definition ThisClientAndMeta (sciondAddr : string)
    (srcIA : addr.IA) (srcHost : option addr.HostAddr)
    (dstIA : addr.IA) (dstHost : option addr.HostAddr)
    : Go (Client * drkey.Lvl2Meta.t) :=
  c ← NewClient sciondAddr;
  let meta :=
    drkey.Lvl2Meta.mk drkey.Host2Host "piskes" srcIA dstIA srcHost dstHost in
  mret (c, meta).

Record Server : Type := mkServer { Server_sciond : option Connector }.

Definition NewServer (sciondAddr : string) : Go Server :=
  '(sciond, err) ← Connect sciondAddr;
  check err;;
  mret (mkServer sciond).

Definition Server_dsForServer (s : Server) (meta : drkey.Lvl2Meta.t)
    : Go drkey.DelegationSecret.t :=
  let dsMeta :=
    drkey.Lvl2Meta.mk drkey.AS2AS (drkey.Lvl2Meta.Protocol meta)
      (drkey.Lvl2Meta.SrcIA meta) (drkey.Lvl2Meta.DstIA meta) None None in
  t ← time_Now_;
  let now := time.Time_UTC t in
  '(lvl2Key, err) ← DRKeyGetLvl2Key (Server_sciond s) (10 * time.Second) dsMeta now;
  check err;;
  fmt_Printf "DS key = %s, epoch = %s\n"
    [ArgHex (drkey.Lvl2Key.Key lvl2Key); ArgEpoch (drkey.Lvl2Key.Epoch lvl2Key)];;
  let ds :=
    drkey.DelegationSecret.mk (drkey.Lvl2Key.Protocol lvl2Key)
      (drkey.Lvl2Key.Epoch lvl2Key) (drkey.Lvl2Key.SrcIA lvl2Key)
      (drkey.Lvl2Key.DstIA lvl2Key) (drkey.Lvl2Key.Key lvl2Key) in
  let next :=
    time.Time_Add (drkey.NotAfter (drkey.Lvl2Key.Epoch lvl2Key))
      (1 * time.Second) in
  '(lvl2KeyNext, err) ← DRKeyGetLvl2Key (Server_sciond s) (10 * time.Second) dsMeta next;
  check err;;
  fmt_Printf "Next DS key = %s, epoch = %s\n"
    [ArgHex (drkey.Lvl2Key.Key lvl2KeyNext);
     ArgEpoch (drkey.Lvl2Key.Epoch lvl2KeyNext)];;
  let prev :=
    time.Time_Add (drkey.NotBefore (drkey.Lvl2Key.Epoch lvl2Key))
      (-1 * time.Second) in
  '(lvl2KeyPrev, err) ← DRKeyGetLvl2Key (Server_sciond s) (10 * time.Second) dsMeta prev;
  check err;;
  fmt_Printf "Prev DS key = %s, epoch = %s\n"
    [ArgHex (drkey.Lvl2Key.Key lvl2KeyPrev);
     ArgEpoch (drkey.Lvl2Key.Epoch lvl2KeyPrev)];;
  mret ds.

(** The single-result type assertion panics on a nil interface value (a
    key missing from the map) and on a dynamic type without the method. *)
Definition Server_HostKeyFromDS (s : Server) (meta : drkey.Lvl2Meta.t)
    (ds : drkey.DelegationSecret.t) : Go drkey.Lvl2Key.t :=
  match KnownDerivations !! "piskes" with
  | None =>
      panic (RuntimeError
        "interface conversion: interface is nil, not protocol.DelegatedDerivation")
  | Some d =>
      match protocol.DeriveLvl2FromDS d with
      | None =>
          panic (RuntimeError
            "interface conversion: missing method DeriveLvl2FromDS")
      | Some piskes =>
          let '(derived, err) := piskes meta ds in
          check err;;
          mret derived
      end
  end.

Definition ThisServerAndMeta (sciondAddr : string)
    (srcIA : addr.IA) (srcHost : option addr.HostAddr)
    (dstIA : addr.IA) (dstHost : option addr.HostAddr)
    : Go (Server * drkey.Lvl2Meta.t) :=
  server ← NewServer sciondAddr;
  let meta :=
    drkey.Lvl2Meta.mk drkey.Host2Host "piskes" srcIA dstIA srcHost dstHost in
  mret (server, meta).

(** [*p = v] for an [*int64] *)
Definition store_int64 (p : Z) (v : Z) : Go unit :=
  fun w =>
    Returns tt
      (mkWorld (ext w) (events w)
         (store_bytes (mem w) p (encode_int64 byte_order v))).

(** [copy(dst, src)] where [dst] is the whole [n]-byte array at [p] *)
Definition copy (p : Z) (n : nat) (src : list Z) : Go unit :=
  fun w =>
    Returns tt (mkWorld (ext w) (events w) (copy_mem (mem w) p n src)).

(** The exported entry point.  [sciondAddr] stands for the Go string
    [C.GoString] makes of the C string; the three pointers are addresses. *)
Definition GetDelegationSecret (sciondAddr : string) (srcIA dstIA : Z)
    (valTime : Z) (validityNotBefore validityNotAfter : Z) (key : Z)
    : Go unit :=
  '(sd, err) ← Connect sciondAddr;
  check err;;
  let dsMeta :=
    drkey.Lvl2Meta.mk drkey.AS2AS "piskes" (IAInt_IA srcIA) (IAInt_IA dstIA)
      None None in
  '(lvl2Key, err) ← DRKeyGetLvl2Key sd (10 * time.Second) dsMeta
                      (time.Time_UTC (time.Unix valTime 0));
  check err;;
  store_int64 validityNotBefore
    (time.Time_Unix (drkey.NotBefore (drkey.Lvl2Key.Epoch lvl2Key)));;
  store_int64 validityNotAfter
    (time.Time_Unix (drkey.NotAfter (drkey.Lvl2Key.Epoch lvl2Key)));;
  copy key 16 (drkey.Lvl2Key.Key lvl2Key).

(** [if !clientRole && !serverRole { clientRole = true; serverRole = true }] *)
Definition default_roles (clientRole serverRole : bool) : bool * bool :=
  if negb clientRole && negb serverRole then (true, true)
  else (clientRole, serverRole).

(** The body of [if clientRole { ... }] in [main]. *)
Definition main_client (sciondAddr : string)
    (srcSCIONAddr dstSCIONAddr : snet.SCIONAddress) : Go unit :=
  '(client, metaClient) ←
    ThisClientAndMeta sciondAddr (snet.IA srcSCIONAddr) (snet.Host srcSCIONAddr)
      (snet.IA dstSCIONAddr) (snet.Host dstSCIONAddr);
  t0 ← time_Now_;
  clientKey ← Client_HostKey client metaClient;
  durationClient ← time_Since t0;
  fmt_Printf "Client: key = %s, epoch = %s, duration = %s\n"
    [ArgHex (drkey.Lvl2Key.Key clientKey);
     ArgEpoch (drkey.Lvl2Key.Epoch clientKey); ArgDuration durationClient].

(** The body of [if serverRole { ... }] in [main]. *)
Definition main_server (sciondAddr : string)
    (srcSCIONAddr dstSCIONAddr : snet.SCIONAddress) : Go unit :=
  '(server, metaServer) ←
    ThisServerAndMeta sciondAddr (snet.IA srcSCIONAddr) (snet.Host srcSCIONAddr)
      (snet.IA dstSCIONAddr) (snet.Host dstSCIONAddr);
  ds ← Server_dsForServer server metaServer;
  t0 ← time_Now_;
  serverKey ← Server_HostKeyFromDS server metaServer ds;
  durationServer ← time_Since t0;
  fmt_Printf "Server: key = %s, epoch = %s, duration = %s\n"
    [ArgHex (drkey.Lvl2Key.Key serverKey);
     ArgEpoch (drkey.DelegationSecret.Epoch ds); ArgDuration durationServer].

(** [fmt.Println(err); flag.PrintDefaults(); os.Exit(1)] when [err] is set *)
Definition exit_on_error (err : option error) : Go unit :=
  match err with
  | Some e => emit (EvPrintln e);; emit EvPrintDefaults;; os_Exit 1
  | None => mret tt
  end.

(** [main], from the values [flag.Parse] leaves in the five flag
    variables ([false] for a role flag that was not given). *)
Definition main (clientRole serverRole : bool)
    (sciondAddr srcAddr dstAddr : string) : Go unit :=
  let '(clientRole, serverRole) := default_roles clientRole serverRole in
  let '(srcSCIONAddr, err) := addrFromString srcAddr in
  exit_on_error err;;
  let '(dstSCIONAddr, err) := addrFromString dstAddr in
  exit_on_error err;;
  (if clientRole then main_client sciondAddr srcSCIONAddr dstSCIONAddr
   else mret tt);;
  (if serverRole then main_server sciondAddr srcSCIONAddr dstSCIONAddr
   else mret tt).

(** ** The C callers *)

Definition printf (format : string) (args : list Z) : Go unit :=
  emit (EvPrintf format (ArgInt <$> args)).

Definition assert (expr : string) (b : bool) : Go unit :=
  if b then mret tt else panic (AssertionFailed expr).

Definition memset (p : Z) (c : Z) (n : nat) : Go unit :=
  fun w =>
    Returns tt
      (mkWorld (ext w) (events w) (store_bytes (mem w) p (replicate n c))).

Definition memcpy (dst src : Z) (n : nat) : Go unit :=
  fun w =>
    Returns tt
      (mkWorld (ext w) (events w)
         (store_bytes (mem w) dst (load_bytes (mem w) src n))).

Definition load_int64 (p : Z) : Go Z :=
  fun w => Returns (decode_int64 byte_order (load_bytes (mem w) p 8)) w.

Definition load_byte (p : Z) : Go Z := fun w => Returns (mem w p) w.

Definition c_gettimeofday : Go (Z * Z) :=
  fun w =>
    let '(e', r) := gettimeofday (ext w) in
    Returns r (mkWorld e' (events w) (mem w)).

Fixpoint for_each (l : list nat) (body : nat -> Go unit) : Go unit :=
  match l with
  | [] => mret tt
  | i :: l' => body i;; for_each l' body
  end.

Definition INT64_MIN : Z := - 2 ^ 63.
Definition INT64_MAX : Z := 2 ^ 63 - 1.
Definition EXIT_FAILURE : Z := 1.

(** Offsets of the fields of [struct delegation_secret]. *)
Definition off_validity_not_before : Z := 0.
Definition off_validity_not_after : Z := 8.
Definition off_key : Z := 16.
Definition sizeof_delegation_secret : nat := 32.

(** Both programs start by reading the clock into [t_now]. *)
Definition read_t_now : Go Z :=
  '(r, tv_sec) ← c_gettimeofday;
  (if negb (r =? 0) then
     assert "r == -1" (r =? -1);;
     printf "Syscall gettimeofday failed.\n" [];;
     os_Exit EXIT_FAILURE
   else mret tt);;
  assert "(INT64_MIN <= tv.tv_sec) && (tv.tv_sec <= INT64_MAX)"
    ((INT64_MIN <=? tv_sec) && (tv_sec <=? INT64_MAX));;
  mret tv_sec.

Definition print_gmtime (p : Z) : Go unit :=
  t ← load_int64 p;
  match gmtime t with
  | Some gmt =>
      printf "%04d-%02d-%02d'T'%02d:%02d:%02d'Z'"
        [1900 + tm_year gmt; 1 + tm_mon gmt; tm_mday gmt;
         tm_hour gmt; tm_min gmt; tm_sec gmt]
  | None => mret tt
  end.

(** Both programs end by printing the struct at address [ds]. *)
Definition print_delegation_secret (ds : Z) : Go unit :=
  printf "DS key = " [];;
  for_each (seq 0 16)
    (fun i => b ← load_byte (ds + off_key + Z.of_nat i); printf "%02x" [b]);;
  printf ", epoch = [" [];;
  print_gmtime (ds + off_validity_not_before);;
  printf ", " [];;
  print_gmtime (ds + off_validity_not_after);;
  printf "]\n" [].

(** [main] of hellolibdrkey.c; [ds] is the address of its local struct. *)
Definition hellolibdrkey_main (ds : Z) : Go Z :=
  t_now ← read_t_now;
  memset ds 0 sizeof_delegation_secret;;
  assert "sizeof ds.validity_not_before == sizeof (GoInt64)" (8 =? 8);;
  assert "sizeof ds.validity_not_after == sizeof (GoInt64)" (8 =? 8);;
  GetDelegationSecret "127.0.0.1:30255" 0x0011ffaa00010d69 0x0011ffaa00010e97
    t_now (ds + off_validity_not_before) (ds + off_validity_not_after)
    (ds + off_key);;
  print_delegation_secret ds;;
  mret 0.

(** Modelled from the spec: the packed-buffer variant of the exported
    entry point, whose Go source is not among the files (only its C caller
    is).  It behaves as [GetDelegationSecret] up to the daemon's answer and
    then fills one 32-byte buffer: not-before in bytes 0..7, not-after in
    bytes 8..15, both in the machine's byte order, and the key in bytes
    16..31. *)
Definition GetDelegationSecretPacked (sciondAddr : string) (srcIA dstIA : Z)
    (valTime : Z) (ds : Z) : Go unit :=
  '(sd, err) ← Connect sciondAddr;
  check err;;
  let dsMeta :=
    drkey.Lvl2Meta.mk drkey.AS2AS "piskes" (IAInt_IA srcIA) (IAInt_IA dstIA)
      None None in
  '(lvl2Key, err) ← DRKeyGetLvl2Key sd (10 * time.Second) dsMeta
                      (time.Time_UTC (time.Unix valTime 0));
  check err;;
  store_int64 ds
    (time.Time_Unix (drkey.NotBefore (drkey.Lvl2Key.Epoch lvl2Key)));;
  store_int64 (ds + 8)
    (time.Time_Unix (drkey.NotAfter (drkey.Lvl2Key.Epoch lvl2Key)));;
  copy (ds + 16) 16 (drkey.Lvl2Key.Key lvl2Key).

(** [main] of the second C program; [ds] and [ds_buf] are the addresses of
    its local struct and of its local 32-byte buffer. *)
Definition packed_main (ds ds_buf : Z) : Go Z :=
  t_now ← read_t_now;
  memset ds_buf 0 (8 + 8 + 16);;
  GetDelegationSecretPacked "127.0.0.1:30255" 0x0011ffaa00010d69
    0x0011ffaa00010e97 t_now ds_buf;;
  let i := 0 in
  memcpy (ds + off_validity_not_before) (ds_buf + i) 8;;
  let i := i + 8 in
  memcpy (ds + off_validity_not_after) (ds_buf + i) 8;;
  let i := i + 8 in
  memcpy (ds + off_key) (ds_buf + i) 16;;
  print_delegation_secret ds;;
  mret 0.

End Program.

(** ** Notions used in the statements *)

(** Longest prefix of characters of a class, and what follows it. *)
Fixpoint span (p : ascii -> bool) (s : string) : string * string :=
  match s with
  | String c s' =>
      if p c then let '(pre, rest) := span p s' in (String c pre, rest)
      else (EmptyString, s)
  | EmptyString => (EmptyString, EmptyString)
  end.

Fixpoint all_chars (p : ascii -> bool) (s : string) : bool :=
  match s with
  | String c s' => p c && all_chars p s'
  | EmptyString => true
  end.

Definition nonempty (s : string) : bool :=
  match s with EmptyString => false | String _ _ => true end.

(** The syntax capture group 1 of [addrRegexp] admits: decimal digits, a
    dash, then digits, colons and hexadecimal letters. *)
Definition ia_syntax (s : string) : Prop :=
  exists d a : string,
    s = d +:+ "-" +:+ a /\
    nonempty d = true /\ all_chars is_digit d = true /\
    nonempty a = true /\ all_chars is_as_char a = true.

(** The syntax capture group 2 admits: anything non-empty without "]". *)
Definition host_syntax (s : string) : Prop :=
  nonempty s = true /\ all_chars is_not_rbracket s = true.

(** [addrRegexp] read as a deterministic scanner: each [+] takes the whole
    run of its class, because the character that must follow is outside
    the class. *)
Definition addr_parse (s : string) : option (list string) :=
  let sd := span is_digit s in
  if nonempty sd.1 then
    match sd.2 with
    | String c1 r2 =>
        if Ascii.eqb "-" c1 then
          let sa := span is_as_char r2 in
          if nonempty sa.1 then
            match sa.2 with
            | String c2 r4 =>
                if Ascii.eqb "," c2 then
                  match r4 with
                  | String c3 r5 =>
                      if Ascii.eqb "[" c3 then
                        let sh := span is_not_rbracket r5 in
                        if nonempty sh.1 then
                          match sh.2 with
                          | String c4 r7 =>
                              if Ascii.eqb "]" c4 then
                                match r7 with
                                | EmptyString =>
                                    Some [s; sd.1 +:+ "-" +:+ sa.1; sh.1]
                                | String _ _ => None
                                end
                              else None
                          | EmptyString => None
                          end
                        else None
                      else None
                  | EmptyString => None
                  end
                else None
            | EmptyString => None
            end
          else None
        else None
    | EmptyString => None
    end
  else None.

Section ParserNotions.
Context {AL : AddrLib}.

Definition valid_IA_string (s : string) : Prop := (IAFromString s).2 = None.

Definition valid_host_string (s : string) : Prop :=
  HostSVCFromString s <> SvcNone \/ HostFromIPStr s <> None.

(** The host a valid host string denotes: the service alias if it is one,
    the IP address otherwise. *)
Definition host_of_string (s : string) : option addr.HostAddr :=
  if negb (Z.eqb (HostSVCFromString s) SvcNone)
  then Some (addr.HostSVC (HostSVCFromString s))
  else HostFromIPStr s.

Definition well_formed (address : string) : Prop :=
  exists id host : string,
    address = id +:+ ",[" +:+ host +:+ "]" /\
    valid_IA_string id /\ valid_host_string host.

(** What package [addr] guarantees about the strings it accepts: an IA
    string is a decimal ISD, a dash and an AS in decimal or colon-separated
    hexadecimal; a service alias or IP literal is not empty and holds no
    closing bracket. *)
Class AddrLibFacts : Prop := {
  IAFromString_syntax : forall s, valid_IA_string s -> ia_syntax s;
  host_string_syntax : forall s, valid_host_string s -> host_syntax s
}.

End ParserNotions.

Definition ranges_disjoint (a : Z) (n : Z) (b : Z) (m : Z) : Prop :=
  a + n <= b \/ b + m <= a.

Inductive Role : Type := RoleClient | RoleServer.

(** The roles that ran to their end, read off the output: each role prints
    its result line as its last step. *)
Fixpoint roles_completed (evs : list Event) : list Role :=
  match evs with
  | [] => []
  | EvPrintf format _ :: evs' =>
      if String.eqb format "Client: key = %s, epoch = %s, duration = %s\n"
      then RoleClient :: roles_completed evs'
      else if String.eqb format "Server: key = %s, epoch = %s, duration = %s\n"
      then RoleServer :: roles_completed evs'
      else roles_completed evs'
  | _ :: evs' => roles_completed evs'
  end.

Definition expected_roles (clientRole serverRole : bool) : list Role :=
  (if clientRole then [RoleClient] else []) ++
  (if serverRole then [RoleServer] else []).

Section Notions.
Context {AL : AddrLib} {PF : Platform}.

Definition final_world {A : Type} (o : Outcome A) : World :=
  match o with
  | Returns _ w => w
  | Panics _ w => w
  | Exits _ w => w
  end.

Definition aborted {A : Type} (o : Outcome A) : Prop :=
  match o with
  | Returns _ _ => False
  | Panics _ _ => True
  | Exits _ _ => False
  end.

Definition delegation_secret_of (k : drkey.Lvl2Key.t)
    : drkey.DelegationSecret.t :=
  drkey.DelegationSecret.mk (drkey.Lvl2Key.Protocol k) (drkey.Lvl2Key.Epoch k)
    (drkey.Lvl2Key.SrcIA k) (drkey.Lvl2Key.DstIA k) (drkey.Lvl2Key.Key k).

(** The AS-to-AS request metadata: the key type fixed, both hosts unset. *)
Definition as2as_meta (proto : string) (srcIA dstIA : addr.IA)
    : drkey.Lvl2Meta.t :=
  drkey.Lvl2Meta.mk drkey.AS2AS proto srcIA dstIA None None.

(** The registry lookup the specification describes for
    [deriveHostKeyFromSecret]: by the protocol name of the metadata. *)
Definition deriveHostKeyFromSecret_by_meta_protocol (meta : drkey.Lvl2Meta.t)
    (ds : drkey.DelegationSecret.t) : Go drkey.Lvl2Key.t :=
  match KnownDerivations !! drkey.Lvl2Meta.Protocol meta with
  | None => panic (RuntimeError "unregistered protocol")
  | Some d =>
      match protocol.DeriveLvl2FromDS d with
      | None => panic (RuntimeError "unregistered protocol")
      | Some derive =>
          let '(derived, err) := derive meta ds in
          check err;;
          mret derived
      end
  end.

(** The request the exported entry point sends, and the world it leaves
    behind when the daemon answers [lvl2Key]. *)
Definition shim_meta (srcIA dstIA : Z) : drkey.Lvl2Meta.t :=
  drkey.Lvl2Meta.mk drkey.AS2AS "piskes" (IAInt_IA srcIA) (IAInt_IA dstIA)
    None None.

Definition shim_time (valTime : Z) : time.Time :=
  time.mkTime valTime 0 time.UTCLoc.

Definition shim_world (w : World) (sciondAddr : string)
    (srcIA dstIA valTime : Z) (validityNotBefore validityNotAfter key : Z)
    (e2 : ExtState) (lvl2Key : drkey.Lvl2Key.t) : World :=
  mkWorld e2
    (events w ++
     [EvConnect sciondAddr;
      EvDRKeyGetLvl2Key 10000000000 (shim_meta srcIA dstIA) (shim_time valTime)])
    (copy_mem
       (store_bytes
          (store_bytes (mem w) validityNotBefore
             (encode_int64 byte_order
                (time.Time_Unix (drkey.NotBefore (drkey.Lvl2Key.Epoch lvl2Key)))))
          validityNotAfter
          (encode_int64 byte_order
             (time.Time_Unix (drkey.NotAfter (drkey.Lvl2Key.Epoch lvl2Key)))))
       key 16 (drkey.Lvl2Key.Key lvl2Key)).

(** The three requests [dsForServer] sends and the three lines it prints,
    when the daemon answers [k1], [k2] and [k3]. *)
Definition ds_request (dsMeta : drkey.Lvl2Meta.t) (t : time.Time) : Event :=
  EvDRKeyGetLvl2Key (10 * time.Second) dsMeta t.

Definition ds_next (k1 : drkey.Lvl2Key.t) : time.Time :=
  time.Time_Add (drkey.NotAfter (drkey.Lvl2Key.Epoch k1)) (1 * time.Second).

Definition ds_prev (k1 : drkey.Lvl2Key.t) : time.Time :=
  time.Time_Add (drkey.NotBefore (drkey.Lvl2Key.Epoch k1)) (-1 * time.Second).

Definition ds_line (format : string) (k : drkey.Lvl2Key.t) : Event :=
  EvPrintf format
    [ArgHex (drkey.Lvl2Key.Key k); ArgEpoch (drkey.Lvl2Key.Epoch k)].

Definition ds_events (dsMeta : drkey.Lvl2Meta.t) (now : time.Time)
    (k1 k2 k3 : drkey.Lvl2Key.t) : list Event :=
  [ds_request dsMeta now; ds_line "DS key = %s, epoch = %s\n" k1;
   ds_request dsMeta (ds_next k1); ds_line "Next DS key = %s, epoch = %s\n" k2;
   ds_request dsMeta (ds_prev k1); ds_line "Prev DS key = %s, epoch = %s\n" k3].

Definition returned {A : Type} (o : Outcome A) : Prop :=
  match o with
  | Returns _ _ => True
  | Panics _ _ => False
  | Exits _ _ => False
  end.

(** [m] brings the roles [rs] to their end, in that order, when it
    returns, and an initial part of them when it is cut short. *)
Definition runs_roles {A : Type} (m : Go A) (rs : list Role) : Prop :=
  forall w : World,
    exists done : list Role,
      roles_completed (events (final_world (m w))) =
        (roles_completed (events w) ++ done)%list /\
      done `prefix_of` rs /\
      (returned (m w) -> done = rs).

(** The 32 bytes a fetch of [lvl2Key] leaves in a buffer that held [old]:
    not-before, not-after, then the key over the first bytes of the key
    field. *)
Definition packed_layout (lvl2Key : drkey.Lvl2Key.t) (old : list Z) : list Z :=
  let n := Nat.min 16 (length (drkey.Lvl2Key.Key lvl2Key)) in
  (encode_int64 byte_order
     (time.Time_Unix (drkey.NotBefore (drkey.Lvl2Key.Epoch lvl2Key))) ++
   encode_int64 byte_order
     (time.Time_Unix (drkey.NotAfter (drkey.Lvl2Key.Epoch lvl2Key))) ++
   take n (drkey.Lvl2Key.Key lvl2Key) ++ drop (16 + n) old)%list.

(** Two outcomes an observer of the process cannot tell apart: the same
    kind of end, the same result, the same output and network calls. *)
Definition same_observation {A : Type} (o1 o2 : Outcome A) : Prop :=
  match o1, o2 with
  | Returns a1 w1, Returns a2 w2 =>
      a1 = a2 /\ ext w1 = ext w2 /\ events w1 = events w2
  | Panics v1 w1, Panics v2 w2 =>
      v1 = v2 /\ ext w1 = ext w2 /\ events w1 = events w2
  | Exits c1 w1, Exits c2 w2 =>
      c1 = c2 /\ ext w1 = ext w2 /\ events w1 = events w2
  | _, _ => False
  end.

(** What [print_gmtime] prints for the eight bytes of a time stamp. *)
Definition gmtime_events (bs : list Z) : list Event :=
  match gmtime (decode_int64 byte_order bs) with
  | Some gmt =>
      [EvPrintf "%04d-%02d-%02d'T'%02d:%02d:%02d'Z'"
         (ArgInt <$>
          [1900 + tm_year gmt; 1 + tm_mon gmt; tm_mday gmt;
           tm_hour gmt; tm_min gmt; tm_sec gmt])]
  | None => []
  end.

(** What [print_delegation_secret] prints for the bytes of the three
    fields of the struct. *)
Definition printed_secret (nb na key : list Z) : list Event :=
  ([EvPrintf "DS key = " []] ++
   ((fun b => EvPrintf "%02x" [ArgInt b]) <$> key) ++
   [EvPrintf ", epoch = [" []] ++ gmtime_events nb ++
   [EvPrintf ", " []] ++ gmtime_events na ++ [EvPrintf "]\n" []])%list.

End Notions.

(** ** A test double of the environment *)

Module demo.

Definition ia_table : gmap string addr.IA :=
  <["1-ff00:0:111" := addr.mkIA 1 0xff0000000111]>
  (<["1-ff00:0:112" := addr.mkIA 1 0xff0000000112]> ∅).

Definition svc_table : gmap string Z :=
  <["CS" := 2]> (<["BS" := 0]> ∅).

Definition ip_table : gmap string addr.HostAddr :=
  <["127.0.0.1" := addr.HostIPv4 [127; 0; 0; 1]]>
  (<["fd00:f00d:cafe::7f00:a" :=
      addr.HostIPv6 [253; 0; 240; 13; 202; 254; 0; 0; 0; 0; 0; 0; 127; 0; 0; 10]]> ∅).

Definition addr_lib : AddrLib := {|
  IAFromString s :=
    match ia_table !! s with
    | Some ia => (ia, None)
    | None => (addr.mkIA 0 0, Some (ExtError "Invalid ISD-AS"))
    end;
  HostSVCFromString s := default 0xffff (svc_table !! s);
  SvcNone := 0xffff;
  HostFromIPStr s := ip_table !! s;
  IAInt_IA x := addr.mkIA (Z.shiftr x 48) (Z.land x (2 ^ 48 - 1))
|}.

Definition day : Z := 86400.

(** The daemon of the double: epochs are days, the key is [keylen] bytes
    numbered from the day. *)
Definition lvl2_key (keylen : nat) (meta : drkey.Lvl2Meta.t) (t : time.Time)
    : drkey.Lvl2Key.t :=
  let d := time.sec t / day in
  drkey.Lvl2Key.mk (drkey.Lvl2Meta.KeyType meta) (drkey.Lvl2Meta.Protocol meta)
    (drkey.mkEpoch (time.mkTime (d * day) 0 time.UTCLoc)
       (time.mkTime ((d + 1) * day) 0 time.UTCLoc))
    (drkey.Lvl2Meta.SrcIA meta) (drkey.Lvl2Meta.DstIA meta)
    (drkey.Lvl2Meta.SrcHost meta) (drkey.Lvl2Meta.DstHost meta)
    ((fun i => (d + Z.of_nat i) mod 256) <$> seq 0 keylen).

Definition derive (meta : drkey.Lvl2Meta.t) (ds : drkey.DelegationSecret.t)
    : drkey.Lvl2Key.t * option error :=
  (drkey.Lvl2Key.mk drkey.Host2Host (drkey.DelegationSecret.Protocol ds)
     (drkey.DelegationSecret.Epoch ds) (drkey.DelegationSecret.SrcIA ds)
     (drkey.DelegationSecret.DstIA ds) (drkey.Lvl2Meta.SrcHost meta)
     (drkey.Lvl2Meta.DstHost meta) (rev (drkey.DelegationSecret.Key ds)),
   None).

(** [up] says whether the daemon accepts connections; the outside state is
    the clock in seconds, which every reading advances by one. *)
Definition platform (up : bool) (keylen : nat) : Platform := {|
  ExtState := Z;
  Connector := unit;
  sciond_Connect e a :=
    if up then (e, (Some tt, None))
    else (e, (None, Some (ExtError "connection refused")));
  Connector_DRKeyGetLvl2Key e c timeout meta t :=
    (e, (lvl2_key keylen meta t, None));
  time_Now e := (e + 1, time.mkTime e 0 time.Local);
  KnownDerivations :=
    <["piskes" := protocol.mkDerivation "piskes" (Some derive)]> ∅;
  gettimeofday e := (e, (0, e));
  gmtime t := None;
  byte_order := LittleEndian
|}.

(** A start of the run: the clock at 1600000000, nothing printed yet,
    every byte of memory holding 170. *)
Definition world (up : bool) (keylen : nat) : @World (platform up keylen) :=
  @mkWorld (platform up keylen) 1600000000 [] (fun _ => 170).

End demo.

(** ** Notions used in the further properties *)

Section NetworkNotions.
Context {AL : AddrLib} {PF : Platform}.

(** The network calls the driver may make for the endpoints [src] and
    [dst]: a connection to the daemon at [sciondAddr], and a request under
    the 10 second timeout for a "piskes" key between the two IAs, either
    host-to-host with the two hosts or AS-to-AS with no host.  Output lines
    are not restricted. *)
Definition allowed_event (sciondAddr : string)
    (src dst : snet.SCIONAddress) (e : Event) : Prop :=
  match e with
  | EvConnect a => a = sciondAddr
  | EvDRKeyGetLvl2Key timeout m t =>
      timeout = 10 * time.Second /\
      drkey.Lvl2Meta.Protocol m = "piskes" /\
      drkey.Lvl2Meta.SrcIA m = snet.IA src /\
      drkey.Lvl2Meta.DstIA m = snet.IA dst /\
      ((drkey.Lvl2Meta.KeyType m = drkey.Host2Host /\
        drkey.Lvl2Meta.SrcHost m = snet.Host src /\
        drkey.Lvl2Meta.DstHost m = snet.Host dst) \/
       (drkey.Lvl2Meta.KeyType m = drkey.AS2AS /\
        drkey.Lvl2Meta.SrcHost m = None /\
        drkey.Lvl2Meta.DstHost m = None))
  | EvPrintf _ _ => True
  | EvPrintln _ => True
  | EvPrintDefaults => True
  end.

(** Every event [m] adds satisfies [P], and a result it returns
    satisfies [Q]. *)
Definition emits {A : Type} (P : Event -> Prop) (m : Go A) (Q : A -> Prop)
    : Prop :=
  forall w : World,
    exists added : list Event,
      events (final_world (m w)) = (events w ++ added)%list /\
      Forall P added /\
      match m w with
      | Returns a _ => Q a
      | Panics _ _ => True
      | Exits _ _ => True
      end.

End NetworkNotions.

(** The key bytes the struct of the C program holds after a fetch: the
    first 16 bytes of the key, followed by the zeros [memset] left. *)
Definition zero_padded_key (key : list Z) : list Z :=
  (take 16 key ++ replicate (16 - length (take 16 key)) 0)%list.

Module demo_clock.

(** The double of the environment with a failing [gettimeofday]. *)
Definition platform : Platform := {|
  ExtState := Z;
  Connector := unit;
  sciond_Connect e a := (e, (Some tt, None));
  Connector_DRKeyGetLvl2Key e c timeout meta t :=
    (e, (demo.lvl2_key 16 meta t, None));
  time_Now e := (e + 1, time.mkTime e 0 time.Local);
  KnownDerivations := ∅;
  gettimeofday e := (e, (-1, 0));
  gmtime t := None;
  byte_order := BigEndian
|}.

Definition world : @World platform := @mkWorld platform 1600000000 [] (fun _ => 170).

End demo_clock.

Module demo_flaky.

(** The double of the environment with a daemon that answers requests
    until the one numbered [fail_at] (counting from 0), which it refuses;
    the outside state counts the requests made. *)
Definition platform (fail_at : Z) : Platform := {|
  ExtState := Z;
  Connector := unit;
  sciond_Connect e a := (e, (Some tt, None));
  Connector_DRKeyGetLvl2Key e c timeout meta t :=
    (e + 1,
     (demo.lvl2_key 16 meta t,
      if e =? fail_at then Some (ExtError "context deadline exceeded")
      else None));
  time_Now e := (e, time.mkTime 1600000000 0 time.Local);
  KnownDerivations := ∅;
  gettimeofday e := (e, (0, 1600000000));
  gmtime t := None;
  byte_order := LittleEndian
|}.

Definition world (fail_at : Z) : @World (platform fail_at) :=
  @mkWorld (platform fail_at) 0 [] (fun _ => 170).

End demo_flaky.

(** ** The steps of the two roles *)

(** What an observer sees of an event without its data: a connection, a
    key request of some type, an output line of some format, or the usage
    output that follows a rejected address. *)
Inductive Step : Type :=
| StepConnect
| StepRequest (keyType : drkey.Lvl2KeyType)
| StepLine (format : string)
| StepUsage.

Definition step_of (e : Event) : Step :=
  match e with
  | EvConnect _ => StepConnect
  | EvDRKeyGetLvl2Key _ meta _ => StepRequest (drkey.Lvl2Meta.KeyType meta)
  | EvPrintf format _ => StepLine format
  | EvPrintln _ => StepUsage
  | EvPrintDefaults => StepUsage
  end.

(** The client role: connect, request the host-to-host key, print. *)
Definition client_steps : list Step :=
  [StepConnect; StepRequest drkey.Host2Host;
   StepLine "Client: key = %s, epoch = %s, duration = %s\n"].

(** The server role: connect, fetch the delegation secret (three AS-to-AS
    requests, each answer printed), derive locally, print. *)
Definition server_steps : list Step :=
  [StepConnect;
   StepRequest drkey.AS2AS; StepLine "DS key = %s, epoch = %s\n";
   StepRequest drkey.AS2AS; StepLine "Next DS key = %s, epoch = %s\n";
   StepRequest drkey.AS2AS; StepLine "Prev DS key = %s, epoch = %s\n";
   StepLine "Server: key = %s, epoch = %s, duration = %s\n"].

Definition expected_steps (clientRole serverRole : bool) : list Step :=
  (if clientRole then client_steps else []) ++
  (if serverRole then server_steps else []).

Section RoleNotions.
Context {AL : AddrLib} {PF : Platform}.

(** The steps [added] to the log, judged by how the run ended: a run that
    returns has made exactly the steps [ks]; a run that panics stopped
    with some step of [ks] still to be made; a run that exits made none of
    them and printed the usage output. *)
Definition steps_by_ending {A : Type} (o : Outcome A) (added : list Event)
    (ks : list Step) : Prop :=
  match o with
  | Returns _ _ => step_of <$> added = ks
  | Panics _ _ =>
      exists rest : list Step,
        rest <> [] /\ ks = ((step_of <$> added) ++ rest)%list
  | Exits _ _ => step_of <$> added = [StepUsage; StepUsage]
  end.

Definition never_exits {A : Type} (m : Go A) : Prop :=
  forall w : World,
    match m w with
    | Exits _ _ => False
    | _ => True
    end.

(** [m] makes the steps [ks], whichever world it starts from. *)
Definition runs_steps {A : Type} (m : Go A) (ks : list Step) : Prop :=
  forall w : World,
    exists added : list Event,
      events (final_world (m w)) = (events w ++ added)%list /\
      steps_by_ending (m w) added ks.

(** The host-to-host metadata of the two endpoints. *)
Definition host_meta (src dst : snet.SCIONAddress) : drkey.Lvl2Meta.t :=
  drkey.Lvl2Meta.mk drkey.Host2Host "piskes" (snet.IA src) (snet.IA dst)
    (snet.Host src) (snet.Host dst).

(** One complete run of the client role from [w] to [w'], told by what
    the outside world answered: the connection, the clock readings for the
    start of the measurement and for the request, the daemon's key, the
    clock reading for the end of the measurement, and the line printed. *)
Definition client_role_run (sciondAddr : string)
    (src dst : snet.SCIONAddress) (w w' : World) : Prop :=
  exists (e1 e2 e3 e4 : ExtState) (c : Connector) (t0 t1 t2 : time.Time)
         (clientKey : drkey.Lvl2Key.t),
    sciond_Connect (ext w) sciondAddr = (e1, (Some c, None)) /\
    time_Now e1 = (e2, t0) /\
    time_Now e2 = (e3, t1) /\
    Connector_DRKeyGetLvl2Key e3 c (10 * time.Second) (host_meta src dst)
      (time.Time_UTC t1) = (e4, (clientKey, None)) /\
    time_Now e4 = (ext w', t2) /\
    events w' =
      (events w ++
       [EvConnect sciondAddr;
        EvDRKeyGetLvl2Key (10 * time.Second) (host_meta src dst)
          (time.Time_UTC t1);
        EvPrintf "Client: key = %s, epoch = %s, duration = %s\n"
          [ArgHex (drkey.Lvl2Key.Key clientKey);
           ArgEpoch (drkey.Lvl2Key.Epoch clientKey);
           ArgDuration (time.Time_Sub t2 t0)]])%list /\
    mem w' = mem w.

(** One complete run of the server role from [w] to [w']: the connection,
    the clock reading and the three answers of the daemon to
    [dsForServer], the local derivation from the first answer between two
    clock readings, and the line printed. *)
Definition server_role_run (sciondAddr : string)
    (src dst : snet.SCIONAddress) (w w' : World) : Prop :=
  exists (e1 e2 e3 e4 e5 e6 : ExtState) (c : Connector)
         (t t0 t1 : time.Time) (k1 k2 k3 : drkey.Lvl2Key.t)
         (d : protocol.Derivation)
         (derive : drkey.Lvl2Meta.t -> drkey.DelegationSecret.t ->
                   drkey.Lvl2Key.t * option error)
         (serverKey : drkey.Lvl2Key.t),
    let dsMeta := as2as_meta "piskes" (snet.IA src) (snet.IA dst) in
    sciond_Connect (ext w) sciondAddr = (e1, (Some c, None)) /\
    time_Now e1 = (e2, t) /\
    Connector_DRKeyGetLvl2Key e2 c (10 * time.Second) dsMeta
      (time.Time_UTC t) = (e3, (k1, None)) /\
    Connector_DRKeyGetLvl2Key e3 c (10 * time.Second) dsMeta (ds_next k1) =
      (e4, (k2, None)) /\
    Connector_DRKeyGetLvl2Key e4 c (10 * time.Second) dsMeta (ds_prev k1) =
      (e5, (k3, None)) /\
    time_Now e5 = (e6, t0) /\
    KnownDerivations !! "piskes" = Some d /\
    protocol.DeriveLvl2FromDS d = Some derive /\
    derive (host_meta src dst) (delegation_secret_of k1) = (serverKey, None) /\
    time_Now e6 = (ext w', t1) /\
    events w' =
      (events w ++
       [EvConnect sciondAddr] ++
       ds_events dsMeta (time.Time_UTC t) k1 k2 k3 ++
       [EvPrintf "Server: key = %s, epoch = %s, duration = %s\n"
          [ArgHex (drkey.Lvl2Key.Key serverKey);
           ArgEpoch (drkey.Lvl2Key.Epoch k1);
           ArgDuration (time.Time_Sub t1 t0)]])%list /\
    mem w' = mem w.

(** What [print_gmtime] prints for the time stamp [t]. *)
Definition gmtime_line (t : Z) : list Event :=
  match gmtime t with
  | Some gmt =>
      [EvPrintf "%04d-%02d-%02d'T'%02d:%02d:%02d'Z'"
         (ArgInt <$>
          [1900 + tm_year gmt; 1 + tm_mon gmt; tm_mday gmt;
           tm_hour gmt; tm_min gmt; tm_sec gmt])]
  | None => []
  end.

(** What [print_delegation_secret] prints for a struct that holds the key
    bytes [key] and the time stamps [notBefore] and [notAfter]. *)
Definition printed_fields (key : list Z) (notBefore notAfter : Z)
    : list Event :=
  ([EvPrintf "DS key = " []] ++
   ((fun b => EvPrintf "%02x" [ArgInt b]) <$> key) ++
   [EvPrintf ", epoch = [" []] ++ gmtime_line notBefore ++
   [EvPrintf ", " []] ++ gmtime_line notAfter ++ [EvPrintf "]\n" []])%list.

End RoleNotions.

(** * Properties *)

(** ** The model at work *)

Example addrRegexp_default_src :
  regexp.FindStringSubmatch addrRegexp "1-ff00:0:111,[127.0.0.1]" =
  Some ["1-ff00:0:111,[127.0.0.1]"; "1-ff00:0:111"; "127.0.0.1"].
Proof. reflexivity. Qed.

Example addrRegexp_default_dst :
  regexp.FindStringSubmatch addrRegexp "1-ff00:0:112,[fd00:f00d:cafe::7f00:a]" =
  Some ["1-ff00:0:112,[fd00:f00d:cafe::7f00:a]"; "1-ff00:0:112";
        "fd00:f00d:cafe::7f00:a"].
Proof. reflexivity. Qed.

Example addrRegexp_no_brackets :
  regexp.FindStringSubmatch addrRegexp "1-ff00:0:111,127.0.0.1" = None.
Proof. reflexivity. Qed.

Example addrRegexp_empty_host :
  regexp.FindStringSubmatch addrRegexp "1-ff00:0:111,[]" = None.
Proof. reflexivity. Qed.

Example addrRegexp_trailing_text :
  regexp.FindStringSubmatch addrRegexp "1-ff00:0:111,[127.0.0.1]x" = None.
Proof. reflexivity. Qed.

Example addrRegexp_leading_text :
  regexp.FindStringSubmatch addrRegexp " 1-ff00:0:111,[127.0.0.1]" = None.
Proof. reflexivity. Qed.

Example addrRegexp_bad_as_character :
  regexp.FindStringSubmatch addrRegexp "1-fg00:0:111,[127.0.0.1]" = None.
Proof. reflexivity. Qed.

Example addrFromString_service_alias :
  @addrFromString demo.addr_lib "1-ff00:0:111,[CS]" =
  (snet.mkSCIONAddress (addr.mkIA 1 0xff0000000111) (Some (addr.HostSVC 2)),
   None).
Proof. reflexivity. Qed.

Example addrFromString_unknown_ia :
  @addrFromString demo.addr_lib "2-ff00:0:111,[127.0.0.1]" =
  (snet.zero, Some (Errorf "invalid IA string: %v" "2-ff00:0:111")).
Proof. reflexivity. Qed.

Example encode_int64_little_endian :
  encode_int64 LittleEndian 1599955200 = [0; 97; 93; 95; 0; 0; 0; 0].
Proof. reflexivity. Qed.

Example encode_int64_big_endian_negative :
  encode_int64 BigEndian (-2) = [255; 255; 255; 255; 255; 255; 255; 254] /\
  decode_int64 BigEndian [255; 255; 255; 255; 255; 255; 255; 254] = -2.
Proof. split; reflexivity. Qed.

Example Time_Add_one_second_back :
  time.Time_Add (time.mkTime 1599955200 0 time.UTCLoc) (-1 * time.Second) =
  time.mkTime 1599955199 0 time.UTCLoc.
Proof. reflexivity. Qed.

Example copy_mem_short_key :
  load_bytes (copy_mem (fun _ => 170) 1016 16 [1; 2; 3]) 1014 6 =
  [170; 170; 1; 2; 3; 170].
Proof. reflexivity. Qed.

(** ** Strings *)

Lemma append_cons (x : ascii) (a b : string) :
  String x a +:+ b = String x (a +:+ b).
Proof. reflexivity. Qed.

Lemma append_nil (b : string) : EmptyString +:+ b = b.
Proof. reflexivity. Qed.

Lemma append_assoc (a b c : string) : (a +:+ b) +:+ c = a +:+ (b +:+ c).
Proof.
  induction a as [|x a IH]; [reflexivity|].
  rewrite !append_cons. now f_equal.
Qed.

Lemma substring_prefix (a b : string) :
  substring 0 (String.length a) (a +:+ b) = a.
Proof.
  induction a as [|x a IH].
  - rewrite append_nil. now destruct b.
  - rewrite append_cons. simpl. now f_equal.
Qed.

Lemma substring_prefix_eq (n : nat) (a b : string) :
  n = String.length a -> substring 0 n (a +:+ b) = a.
Proof. intros ->. apply substring_prefix. Qed.

Lemma substring_whole (n : nat) (a : string) :
  n = String.length a -> substring 0 n a = a.
Proof.
  intros ->. induction a as [|x a IH]; simpl; [reflexivity | now f_equal].
Qed.

Lemma length_append (a b : string) :
  String.length (a +:+ b) = (String.length a + String.length b)%nat.
Proof.
  induction a as [|x a IH]; [reflexivity|].
  rewrite append_cons. simpl. now f_equal.
Qed.

Lemma span_append (p : ascii -> bool) (s : string) :
  (span p s).1 +:+ (span p s).2 = s.
Proof.
  induction s as [|c s IH]; simpl; [reflexivity|].
  destruct (p c); [|reflexivity].
  destruct (span p s) as [pre rest]; simpl in *.
  rewrite append_cons. now f_equal.
Qed.

Lemma span_all (p : ascii -> bool) (s : string) :
  all_chars p (span p s).1 = true.
Proof.
  induction s as [|c s IH]; simpl; [reflexivity|].
  destruct (p c) eqn:E; [|reflexivity].
  destruct (span p s) as [pre rest]; simpl in *. now rewrite E.
Qed.

(** The span of a text that is a run of the class followed by a stop. *)
Lemma span_of_append (p : ascii -> bool) (a r : string) :
  all_chars p a = true ->
  match r with String c _ => p c = false | EmptyString => True end ->
  span p (a +:+ r) = (a, r).
Proof.
  intros Ha Hr. induction a as [|x a IH].
  - rewrite append_nil. destruct r as [|c r]; [reflexivity|].
    simpl. now rewrite Hr.
  - simpl in Ha. apply andb_prop in Ha as [Hx Ha].
    rewrite append_cons. simpl. rewrite Hx, (IH Ha). reflexivity.
Qed.

(** ** The regular expression engine on [addrRegexp] *)

Lemma plus_loop_span {R : Type} (p : ascii -> bool)
    (k : nat -> string -> option R) :
  (forall pos c s', p c = true -> k pos (String c s') = None) ->
  forall s pos,
    regexp.plus_loop p k pos s =
    if nonempty (span p s).1
    then k (pos + String.length (span p s).1)%nat (span p s).2
    else None.
Proof.
  intros Hk. induction s as [|c s IH]; intros pos; simpl; [reflexivity|].
  destruct (p c) eqn:E; [|reflexivity].
  rewrite IH.
  pose proof (span_append p s) as Happ. pose proof (span_all p s) as Hall.
  destruct (span p s) as [pre rest]; simpl in *.
  replace (pos + S (String.length pre))%nat
    with (S pos + String.length pre)%nat by lia.
  destruct pre as [|c' pre]; simpl in *.
  - rewrite append_nil in Happ. subst rest. now rewrite Nat.add_0_r.
  - destruct (k (S (pos + S (String.length pre))) rest) eqn:Ek; [reflexivity|].
    rewrite append_cons in Happ. subst s.
    apply andb_prop in Hall as [Hc' _]. now apply Hk.
Qed.

#[local] Arguments Ascii.eqb : simpl never.
#[local] Arguments substring : simpl never.
#[local] Arguments Nat.sub : simpl never.

Lemma find_from_later (s : string) :
  forall pos, regexp.find_from addrRegexp (S pos) s = None.
Proof. induction s as [|c s IH]; intros pos; simpl; [reflexivity | apply IH]. Qed.

Lemma digit_not_dash c : is_digit c = true -> Ascii.eqb "-" c = false.
Proof. destruct c as [[] [] [] [] [] [] [] []]; vm_compute; congruence. Qed.

Lemma as_char_not_comma c : is_as_char c = true -> Ascii.eqb "," c = false.
Proof. destruct c as [[] [] [] [] [] [] [] []]; vm_compute; congruence. Qed.

Lemma not_rbracket_spec c : is_not_rbracket c = true -> Ascii.eqb "]" c = false.
Proof. unfold is_not_rbracket. now destruct (Ascii.eqb "]" c). Qed.

Lemma FindStringSubmatch_addr_parse (s : string) :
  regexp.FindStringSubmatch addrRegexp s = addr_parse s.
Proof.
  unfold regexp.FindStringSubmatch.
  assert (Hrun : regexp.run (regexp.Capture 0 addrRegexp) 0 s
            (replicate (S (regexp.num_groups addrRegexp)) EmptyString)
            (fun _ _ caps => Some caps) = addr_parse s).
  { unfold addr_parse. simpl.
    rewrite plus_loop_span.
    2:{ intros pos c s' Hc. simpl. now rewrite (digit_not_dash c Hc). }
    pose proof (span_append is_digit s) as Hd.
    destruct (span is_digit s) as [d r1]; simpl in *.
    destruct (nonempty d); [|reflexivity].
    destruct r1 as [|c1 r2]; [reflexivity|].
    destruct (Ascii.eqb "-" c1) eqn:E1; [|reflexivity].
    rewrite plus_loop_span.
    2:{ intros pos c s' Hc. simpl. now rewrite (as_char_not_comma c Hc). }
    pose proof (span_append is_as_char r2) as Ha.
    destruct (span is_as_char r2) as [a r3]; simpl in *.
    destruct (nonempty a); [|reflexivity].
    destruct r3 as [|c2 r4]; [reflexivity|].
    destruct (Ascii.eqb "," c2) eqn:E2; [|reflexivity].
    destruct r4 as [|c3 r5]; [reflexivity|].
    destruct (Ascii.eqb "[" c3) eqn:E3; [|reflexivity].
    simpl.
    rewrite plus_loop_span.
    2:{ intros pos c s' Hc. simpl. now rewrite (not_rbracket_spec c Hc). }
    pose proof (span_append is_not_rbracket r5) as Hh.
    destruct (span is_not_rbracket r5) as [h r6]; simpl in *.
    destruct (nonempty h); [|reflexivity].
    destruct r6 as [|c4 r7]; [reflexivity|].
    destruct (Ascii.eqb "]" c4) eqn:E4; [|reflexivity].
    destruct r7 as [|c5 r8]; [|reflexivity].
    apply Ascii.eqb_eq in E1, E2, E3, E4. subst c1 c2 c3 c4 r5 r2 s.
    f_equal. f_equal; [|f_equal; [|f_equal]].
    - apply substring_whole. repeat (rewrite length_append; simpl). lia.
    - change (String "-" (a +:+ String "," (String "[" (h +:+ "]"))))
        with ("-" +:+ a +:+ ",[" +:+ h +:+ "]").
      rewrite <- (append_assoc "-"), <- (append_assoc d).
      apply substring_prefix_eq. repeat (rewrite length_append; simpl). lia.
    - apply substring_prefix_eq. lia. }
  destruct s as [|c s]; simpl in *.
  - rewrite Hrun. now destruct (addr_parse EmptyString).
  - rewrite Hrun. destruct (addr_parse (String c s)); [reflexivity|].
    apply find_from_later.
Qed.

Lemma addr_parse_sound (s : string) (parts : list string) :
  addr_parse s = Some parts ->
  exists id h : string,
    parts = [s; id; h] /\ s = id +:+ ",[" +:+ h +:+ "]" /\
    ia_syntax id /\ host_syntax h.
Proof.
  unfold addr_parse.
  pose proof (span_append is_digit s) as Hd.
  pose proof (span_all is_digit s) as Hdall.
  destruct (span is_digit s) as [d r1]; simpl in *.
  destruct (nonempty d) eqn:Nd; [|discriminate].
  destruct r1 as [|c1 r2]; [discriminate|].
  destruct (Ascii.eqb "-" c1) eqn:E1; [|discriminate].
  pose proof (span_append is_as_char r2) as Ha.
  pose proof (span_all is_as_char r2) as Haall.
  destruct (span is_as_char r2) as [a r3]; simpl in *.
  destruct (nonempty a) eqn:Na; [|discriminate].
  destruct r3 as [|c2 r4]; [discriminate|].
  destruct (Ascii.eqb "," c2) eqn:E2; [|discriminate].
  destruct r4 as [|c3 r5]; [discriminate|].
  destruct (Ascii.eqb "[" c3) eqn:E3; [|discriminate].
  pose proof (span_append is_not_rbracket r5) as Hh.
  pose proof (span_all is_not_rbracket r5) as Hhall.
  destruct (span is_not_rbracket r5) as [h r6]; simpl in *.
  destruct (nonempty h) eqn:Nh; [|discriminate].
  destruct r6 as [|c4 r7]; [discriminate|].
  destruct (Ascii.eqb "]" c4) eqn:E4; [|discriminate].
  destruct r7 as [|c5 r8]; [|discriminate].
  intros [= <-].
  apply Ascii.eqb_eq in E1, E2, E3, E4. subst c1 c2 c3 c4 r5 r2 s.
  exists (d +:+ "-" +:+ a), h. repeat split; try assumption.
  - rewrite !append_assoc. reflexivity.
  - exists d, a. repeat split; assumption.
Qed.

Lemma addr_parse_complete (id h : string) :
  ia_syntax id -> host_syntax h ->
  addr_parse (id +:+ ",[" +:+ h +:+ "]") =
  Some [id +:+ ",[" +:+ h +:+ "]"; id; h].
Proof.
  intros (d & a & -> & Nd & Hd & Na & Ha) [Nh Hh].
  unfold addr_parse.
  replace ((d +:+ "-" +:+ a) +:+ ",[" +:+ h +:+ "]")
    with (d +:+ String "-" (a +:+ String "," (String "[" (h +:+ String "]" EmptyString))))
    by (rewrite !append_assoc; reflexivity).
  rewrite (span_of_append is_digit d _ Hd) by reflexivity.
  cbn [fst snd]. rewrite Nd.
  change (Ascii.eqb "-" "-") with true. cbn match.
  rewrite (span_of_append is_as_char a _ Ha) by reflexivity.
  cbn [fst snd]. rewrite Na.
  change (Ascii.eqb "," ",") with true. change (Ascii.eqb "[" "[") with true.
  cbn match.
  rewrite (span_of_append is_not_rbracket h _ Hh) by reflexivity.
  cbn [fst snd]. rewrite Nh.
  change (Ascii.eqb "]" "]") with true. cbn match.
  reflexivity.
Qed.

(** [FindStringSubmatch] on [addrRegexp]: a match has exactly the three
    entries whole text, IA text, host text, and it exists exactly for the
    texts of the form IA text, comma, bracketed host text. *)
Lemma FindStringSubmatch_addrRegexp (s : string) (parts : list string) :
  regexp.FindStringSubmatch addrRegexp s = Some parts <->
  exists id h : string,
    parts = [s; id; h] /\ s = id +:+ ",[" +:+ h +:+ "]" /\
    ia_syntax id /\ host_syntax h.
Proof.
  rewrite FindStringSubmatch_addr_parse. split.
  - apply addr_parse_sound.
  - intros (id & h & -> & -> & Hid & Hh). now apply addr_parse_complete.
Qed.

(** The decomposition into IA text and host text is unique. *)
Lemma address_split_unique (id1 h1 id2 h2 : string) :
  ia_syntax id1 -> host_syntax h1 -> ia_syntax id2 -> host_syntax h2 ->
  id1 +:+ ",[" +:+ h1 +:+ "]" = id2 +:+ ",[" +:+ h2 +:+ "]" ->
  id1 = id2 /\ h1 = h2.
Proof.
  intros H1 G1 H2 G2 E.
  pose proof (addr_parse_complete id1 h1 H1 G1) as P1.
  pose proof (addr_parse_complete id2 h2 H2 G2) as P2.
  rewrite E, P2 in P1. now injection P1 as -> ->.
Qed.

(** ** The endpoint address parser *)

Section ParserProperties.
Context {AL : AddrLib}.

Lemma addrFromString_matched (address id h : string) :
  regexp.FindStringSubmatch addrRegexp address = Some [address; id; h] ->
  addrFromString address =
  match IAFromString id with
  | (_, Some _) => (snet.zero, Some (Errorf "invalid IA string: %v" id))
  | (ia, None) =>
      match host_of_string h with
      | Some l3 => (snet.mkSCIONAddress ia (Some l3), None)
      | None => (snet.zero, Some (Errorf "invalid IP address string: %v" h))
      end
  end.
Proof.
  intros Hm. unfold addrFromString, host_of_string. rewrite Hm.
  change ([address; id; h] !!! addrRegexpIaIndex) with id.
  change ([address; id; h] !!! addrRegexpL3Index) with h.
  destruct (IAFromString id) as [ia [e|]]; [reflexivity|].
  destruct (negb (HostSVCFromString h =? SvcNone)); [reflexivity|].
  destruct (HostFromIPStr h); reflexivity.
Qed.

Lemma host_of_string_valid (h : string) :
  valid_host_string h <-> host_of_string h <> None.
Proof.
  unfold valid_host_string, host_of_string.
  destruct (Z.eqb_spec (HostSVCFromString h) SvcNone) as [E|E]; simpl.
  - split; [intros [C|C]; [contradiction | exact C] | intros C; now right].
  - split; [discriminate | intros _; now left].
Qed.

Lemma addrFromString_ok_well_formed (address : string) :
  (addrFromString address).2 = None -> well_formed address.
Proof.
  intros Hok.
  destruct (regexp.FindStringSubmatch addrRegexp address) as [parts|] eqn:Hm.
  - apply FindStringSubmatch_addrRegexp in Hm as Hx.
    destruct Hx as (id & h & -> & Hs & _ & _).
    rewrite (addrFromString_matched _ _ _ Hm) in Hok.
    exists id, h. split; [exact Hs|].
    unfold valid_IA_string.
    destruct (IAFromString id) as [ia [e|]]; [discriminate|].
    split; [reflexivity|]. apply host_of_string_valid.
    destruct (host_of_string h); [discriminate | discriminate].
  - unfold addrFromString in Hok. rewrite Hm in Hok. discriminate.
Qed.

Context {Facts : AddrLibFacts}.

Lemma well_formed_matched (id host : string) :
  valid_IA_string id -> valid_host_string host ->
  regexp.FindStringSubmatch addrRegexp (id +:+ ",[" +:+ host +:+ "]") =
  Some [id +:+ ",[" +:+ host +:+ "]"; id; host].
Proof.
  intros Hid Hh. apply FindStringSubmatch_addrRegexp.
  exists id, host. repeat split; try reflexivity.
  - now apply IAFromString_syntax.
  - now apply (host_string_syntax host).
  - now apply (host_string_syntax host).
Qed.

(** C2: parsing a well-formed endpoint string succeeds, and the address it
    returns carries the IA that [IAFromString] gives for the text before
    the comma and the host that the text between the brackets denotes. *)
Theorem addrFromString_well_formed (id host : string) (ia : addr.IA) :
  IAFromString id = (ia, None) ->
  valid_host_string host ->
  exists l3 : addr.HostAddr,
    host_of_string host = Some l3 /\
    addrFromString (id +:+ ",[" +:+ host +:+ "]") =
    (snet.mkSCIONAddress ia (Some l3), None).
Proof.
  intros Hia Hh.
  assert (Hid : valid_IA_string id) by (unfold valid_IA_string; now rewrite Hia).
  rewrite (addrFromString_matched _ _ _ (well_formed_matched id host Hid Hh)).
  rewrite Hia. apply host_of_string_valid in Hh.
  destruct (host_of_string host) as [l3|]; [|contradiction].
  now exists l3.
Qed.

(** C3: [addrFromString] fails exactly on the strings that are not
    well-formed; a failure is one of three errors with distinct formats
    (wrong overall shape, invalid IA text, invalid host text), each raised
    under its own condition, and it comes with the zero address. *)
Theorem addrFromString_errors (address : string) :
  ((addrFromString address).2 = None <-> well_formed address) /\
  ((addrFromString address).2 <> None ->
   (addrFromString address).1 = snet.zero) /\
  ((addrFromString address).2 =
     Some (Errorf "no valid SCION address: %q" address) <->
   ~ (exists id h : string,
        address = id +:+ ",[" +:+ h +:+ "]" /\ ia_syntax id /\ host_syntax h)) /\
  (forall id h : string,
     address = id +:+ ",[" +:+ h +:+ "]" -> ia_syntax id -> host_syntax h ->
     ((addrFromString address).2 = Some (Errorf "invalid IA string: %v" id) <->
      ~ valid_IA_string id) /\
     ((addrFromString address).2 =
        Some (Errorf "invalid IP address string: %v" h) <->
      valid_IA_string id /\ ~ valid_host_string h)) /\
  ((addrFromString address).2 = None \/
   (addrFromString address).2 =
     Some (Errorf "no valid SCION address: %q" address) \/
   (exists id, (addrFromString address).2 =
                 Some (Errorf "invalid IA string: %v" id)) \/
   (exists h, (addrFromString address).2 =
                Some (Errorf "invalid IP address string: %v" h))) /\
  (forall x y z : string,
     Errorf "no valid SCION address: %q" x <> Errorf "invalid IA string: %v" y /\
     Errorf "no valid SCION address: %q" x <>
       Errorf "invalid IP address string: %v" z /\
     Errorf "invalid IA string: %v" y <>
       Errorf "invalid IP address string: %v" z).
Proof.
  split; [|split; [|split; [|split; [|split]]]].
  - split; [apply addrFromString_ok_well_formed|].
    intros (id & h & -> & Hid & Hh).
    rewrite (addrFromString_matched _ _ _ (well_formed_matched id h Hid Hh)).
    unfold valid_IA_string in Hid.
    destruct (IAFromString id) as [ia e]. simpl in Hid. subst e.
    apply host_of_string_valid in Hh.
    destruct (host_of_string h); [reflexivity | contradiction].
  - unfold addrFromString.
    destruct (regexp.FindStringSubmatch addrRegexp address) as [parts|];
      [|reflexivity].
    destruct (IAFromString _) as [ia [e|]]; [reflexivity|].
    destruct (negb _); [intros C; now contradiction C|].
    destruct (HostFromIPStr _); [intros C; now contradiction C | reflexivity].
  - destruct (regexp.FindStringSubmatch addrRegexp address) as [parts|] eqn:Hm.
    + apply FindStringSubmatch_addrRegexp in Hm as Hx.
      destruct Hx as (id & h & -> & Hs & Hid & Hh).
      rewrite (addrFromString_matched _ _ _ Hm).
      split.
      * destruct (IAFromString id) as [ia [e|]]; [discriminate|].
        destruct (host_of_string h); discriminate.
      * intros C. exfalso. apply C. now exists id, h.
    + unfold addrFromString. rewrite Hm. split; [|reflexivity].
      intros _ (id & h & Hs & Hid & Hh).
      assert (Some [address; id; h] = None) as C; [|discriminate C].
      rewrite <- Hm. symmetry. apply FindStringSubmatch_addrRegexp.
      now exists id, h.
  - intros id h Hs Hid Hh.
    assert (Hm : regexp.FindStringSubmatch addrRegexp address =
                 Some [address; id; h])
      by (apply FindStringSubmatch_addrRegexp; now exists id, h).
    rewrite (addrFromString_matched _ _ _ Hm).
    pose proof (host_of_string_valid h) as Hv. unfold valid_IA_string.
    destruct (IAFromString id) as [ia [e|]]; simpl.
    + split; split; try discriminate; try reflexivity.
      intros [C _]. discriminate C.
    + destruct (host_of_string h) as [l3|]; simpl.
      * split; split; try discriminate.
        -- intros C. now contradiction C.
        -- intros [_ C]. exfalso. apply C, Hv. discriminate.
      * split; split; try discriminate.
        -- intros C. now contradiction C.
        -- intros _. split; [reflexivity|]. intros C. now apply Hv in C.
        -- reflexivity.
  - unfold addrFromString.
    destruct (regexp.FindStringSubmatch addrRegexp address) as [parts|];
      [|right; left; reflexivity].
    destruct (IAFromString _) as [ia [e|]]; [right; right; left; eauto|].
    destruct (negb _); [left; reflexivity|].
    destruct (HostFromIPStr _); [left; reflexivity|].
    right; right; right; eauto.
  - intros x y z. repeat split; discriminate.
Qed.

End ParserProperties.

Lemma demo_addr_lib_facts : @AddrLibFacts demo.addr_lib.
Proof.
  split.
  - intros s Hs. unfold valid_IA_string in Hs. simpl in Hs.
    destruct (demo.ia_table !! s) as [ia|] eqn:E; [|discriminate].
    unfold demo.ia_table in E.
    apply lookup_insert_Some in E as [[<- _]|[_ E]].
    { exists "1", "ff00:0:111". repeat split; reflexivity. }
    apply lookup_insert_Some in E as [[<- _]|[_ E]].
    { exists "1", "ff00:0:112". repeat split; reflexivity. }
    now rewrite lookup_empty in E.
  - intros s [Hs|Hs]; simpl in Hs.
    + destruct (demo.svc_table !! s) as [v|] eqn:E; [|now contradiction Hs].
      unfold demo.svc_table in E.
      apply lookup_insert_Some in E as [[<- _]|[_ E]]; [split; reflexivity|].
      apply lookup_insert_Some in E as [[<- _]|[_ E]]; [split; reflexivity|].
      now rewrite lookup_empty in E.
    + destruct (demo.ip_table !! s) as [v|] eqn:E; [|now contradiction Hs].
      unfold demo.ip_table in E.
      apply lookup_insert_Some in E as [[<- _]|[_ E]]; [split; reflexivity|].
      apply lookup_insert_Some in E as [[<- _]|[_ E]]; [split; reflexivity|].
      now rewrite lookup_empty in E.
Qed.

Lemma addrFromString_well_formed_witness :
  exists l3 : addr.HostAddr,
    @host_of_string demo.addr_lib "127.0.0.1" = Some l3 /\
    @addrFromString demo.addr_lib "1-ff00:0:111,[127.0.0.1]" =
    (snet.mkSCIONAddress (addr.mkIA 1 0xff0000000111) (Some l3), None).
Proof.
  apply (@addrFromString_well_formed demo.addr_lib demo_addr_lib_facts
           "1-ff00:0:111" "127.0.0.1" (addr.mkIA 1 0xff0000000111)).
  - reflexivity.
  - right. discriminate.
Defined.

Lemma addrFromString_errors_witness :
  (@addrFromString demo.addr_lib "1-ff00:0:111,[127.0.0.2]").2 =
    Some (Errorf "invalid IP address string: %v" "127.0.0.2") /\
  (@addrFromString demo.addr_lib "1-ff00:0:111,[127.0.0.2]").1 = snet.zero /\
  ~ @well_formed demo.addr_lib "1-ff00:0:111,[127.0.0.2]".
Proof.
  pose proof (@addrFromString_errors demo.addr_lib demo_addr_lib_facts
                "1-ff00:0:111,[127.0.0.2]") as (Hwf & Hzero & _).
  split; [reflexivity|]. split.
  - apply Hzero. discriminate.
  - intros C. apply Hwf in C. discriminate C.
Defined.

(** ** Memory and machine integers *)

Lemma length_load_bytes (m : Mem) (n : nat) :
  forall a, length (load_bytes m a n) = n.
Proof. induction n as [|n IH]; intros a; simpl; [reflexivity | now rewrite IH]. Qed.

Lemma lookup_load_bytes (m : Mem) (n : nat) :
  forall a i, (i < n)%nat ->
    load_bytes m a n !! i = Some (m (a + Z.of_nat i)).
Proof.
  induction n as [|n IH]; intros a i Hi; [lia|].
  destruct i as [|i]; simpl.
  - now rewrite Z.add_0_r.
  - rewrite IH by lia. do 2 f_equal. lia.
Qed.

(** Two windows hold the same bytes exactly when they agree offset by
    offset. *)
Lemma load_bytes_eq (m1 m2 : Mem) (a b : Z) (n : nat) :
  load_bytes m1 a n = load_bytes m2 b n <->
  forall i, (i < n)%nat -> m1 (a + Z.of_nat i) = m2 (b + Z.of_nat i).
Proof.
  split.
  - intros E i Hi.
    pose proof (lookup_load_bytes m1 n a i Hi) as H1.
    rewrite E, (lookup_load_bytes m2 n b i Hi) in H1. congruence.
  - intros E. apply (list_eq_same_length _ _ n); try apply length_load_bytes.
    intros i x y Hi. rewrite !lookup_load_bytes by exact Hi.
    rewrite (E i Hi). congruence.
Qed.

Lemma store_bytes_inside (m : Mem) (a : Z) (bs : list Z) (i : nat) :
  (i < length bs)%nat ->
  store_bytes m a bs (a + Z.of_nat i) = nth i bs 0.
Proof.
  intros Hi. unfold store_bytes.
  destruct (Z.leb_spec a (a + Z.of_nat i)); [|lia].
  destruct (Z.ltb_spec (a + Z.of_nat i) (a + Z.of_nat (length bs))); [|lia].
  simpl. f_equal. lia.
Qed.

Lemma store_bytes_outside (m : Mem) (a : Z) (bs : list Z) (x : Z) :
  x < a \/ a + Z.of_nat (length bs) <= x ->
  store_bytes m a bs x = m x.
Proof.
  intros Hx. unfold store_bytes.
  destruct (Z.leb_spec a x); [|reflexivity].
  destruct (Z.ltb_spec x (a + Z.of_nat (length bs))); [lia | reflexivity].
Qed.

Lemma load_store_same (m : Mem) (a : Z) (bs : list Z) :
  load_bytes (store_bytes m a bs) a (length bs) = bs.
Proof.
  apply (list_eq_same_length _ _ (length bs));
    [reflexivity | apply length_load_bytes |].
  intros i x y Hi. rewrite lookup_load_bytes by exact Hi.
  rewrite store_bytes_inside by exact Hi.
  intros [= <-] Hy. now rewrite (nth_lookup_Some _ _ _ _ Hy).
Qed.

Lemma load_store_same_n (m : Mem) (a : Z) (bs : list Z) (n : nat) :
  length bs = n -> load_bytes (store_bytes m a bs) a n = bs.
Proof. intros <-. apply load_store_same. Qed.

Lemma load_store_other (m : Mem) (a b : Z) (n : nat) (bs : list Z) :
  ranges_disjoint a (Z.of_nat n) b (Z.of_nat (length bs)) ->
  load_bytes (store_bytes m b bs) a n = load_bytes m a n.
Proof.
  intros Hd. apply load_bytes_eq. intros i Hi.
  apply store_bytes_outside. unfold ranges_disjoint in Hd. lia.
Qed.

Lemma length_le_split (n : nat) : forall v, length (le_split n v) = n.
Proof. induction n as [|n IH]; intros v; simpl; [reflexivity | now rewrite IH]. Qed.

Lemma le_combine_split (n : nat) :
  forall v, le_combine (le_split n v) = v mod 2 ^ (8 * Z.of_nat n).
Proof.
  induction n as [|n IH]; intros v.
  - simpl. now rewrite Z.mod_1_r.
  - cbn [le_split le_combine]. rewrite IH.
    replace (8 * Z.of_nat (S n)) with (8 + 8 * Z.of_nat n) by lia.
    rewrite Z.pow_add_r by lia. change (2 ^ 8) with 256.
    rewrite Z.rem_mul_r by lia. reflexivity.
Qed.

Lemma length_encode_int64 (bo : ByteOrder) (v : Z) :
  length (encode_int64 bo v) = 8%nat.
Proof. destruct bo; reflexivity. Qed.

Lemma sint64_mod (v : Z) : time.sint64 (v mod 2 ^ 64) = time.sint64 v.
Proof.
  unfold time.sint64. f_equal.
  rewrite Zplus_mod_idemp_l. reflexivity.
Qed.

Lemma sint64_range (v : Z) : - 2 ^ 63 <= time.sint64 v <= 2 ^ 63 - 1.
Proof.
  unfold time.sint64.
  pose proof (Z.mod_pos_bound (v + 2 ^ 63) (2 ^ 64) ltac:(lia)). lia.
Qed.

Lemma sint64_small (v : Z) : - 2 ^ 63 <= v <= 2 ^ 63 - 1 -> time.sint64 v = v.
Proof.
  intros Hv. unfold time.sint64. rewrite Z.mod_small by lia. lia.
Qed.

Lemma sint64_idem (v : Z) : time.sint64 (time.sint64 v) = time.sint64 v.
Proof. apply sint64_small, sint64_range. Qed.

(** What is stored as an int64 reads back as the same number, wrapped to
    64 bits, whatever the byte order. *)
Lemma decode_encode_int64 (bo : ByteOrder) (v : Z) :
  decode_int64 bo (encode_int64 bo v) = time.sint64 v.
Proof.
  unfold decode_int64, encode_int64.
  destruct bo; [|rewrite rev_involutive];
    rewrite le_combine_split; apply sint64_mod.
Qed.

(** ** The exported entry point *)

Section ShimProperties.
Context {AL : AddrLib} {PF : Platform}.

Lemma Time_UTC_Unix (valTime : Z) :
  time.Time_UTC (time.Unix valTime 0) = shim_time valTime.
Proof.
  unfold time.Time_UTC, time.Unix, shim_time. simpl.
  now rewrite Z.add_0_r.
Qed.

Lemma GetDelegationSecret_cases (sciondAddr : string) (srcIA dstIA valTime : Z)
    (validityNotBefore validityNotAfter key : Z) (w : World) :
  match sciond_Connect (ext w) sciondAddr with
  | (e1, (_, Some e)) =>
      GetDelegationSecret sciondAddr srcIA dstIA valTime validityNotBefore
        validityNotAfter key w
      = Panics (Sprintf "Fatal error: %v" e)
          (mkWorld e1 (events w ++ [EvConnect sciondAddr]) (mem w))
  | (e1, (None, None)) =>
      GetDelegationSecret sciondAddr srcIA dstIA valTime validityNotBefore
        validityNotAfter key w
      = Panics (RuntimeError "invalid memory address or nil pointer dereference")
          (mkWorld e1 (events w ++ [EvConnect sciondAddr]) (mem w))
  | (e1, (Some c, None)) =>
      match Connector_DRKeyGetLvl2Key e1 c 10000000000
              (shim_meta srcIA dstIA) (shim_time valTime) with
      | (e2, (lvl2Key, Some e)) =>
          GetDelegationSecret sciondAddr srcIA dstIA valTime validityNotBefore
            validityNotAfter key w
          = Panics (Sprintf "Fatal error: %v" e)
              (mkWorld e2
                 (events w ++
                  [EvConnect sciondAddr;
                   EvDRKeyGetLvl2Key 10000000000 (shim_meta srcIA dstIA)
                     (shim_time valTime)])
                 (mem w))
      | (e2, (lvl2Key, None)) =>
          GetDelegationSecret sciondAddr srcIA dstIA valTime validityNotBefore
            validityNotAfter key w
          = Returns tt
              (mkWorld e2
                 (events w ++
                  [EvConnect sciondAddr;
                   EvDRKeyGetLvl2Key 10000000000 (shim_meta srcIA dstIA)
                     (shim_time valTime)])
                 (copy_mem
                    (store_bytes
                       (store_bytes (mem w) validityNotBefore
                          (encode_int64 byte_order
                             (time.Time_Unix
                                (drkey.NotBefore (drkey.Lvl2Key.Epoch lvl2Key)))))
                       validityNotAfter
                       (encode_int64 byte_order
                          (time.Time_Unix
                             (drkey.NotAfter (drkey.Lvl2Key.Epoch lvl2Key)))))
                    key 16 (drkey.Lvl2Key.Key lvl2Key)))
      end
  end.
Proof.
  unfold GetDelegationSecret, Connect, DRKeyGetLvl2Key, check, store_int64,
    copy, panic, mbind, Go_bind, mret, Go_ret.
  rewrite Time_UTC_Unix. fold (shim_meta srcIA dstIA).
  change (10 * time.Second) with 10000000000.
  destruct (sciond_Connect (ext w) sciondAddr) as [e1 [[c|] [e|]]];
    try reflexivity.
  cbn [ext events mem].
  destruct (Connector_DRKeyGetLvl2Key e1 c 10000000000 _ _)
    as [e2 [lvl2Key [e|]]]; cbn [ext events mem];
    rewrite <- app_assoc; reflexivity.
Qed.


(** The world a successful call leaves behind. *)
Lemma GetDelegationSecret_returns (sciondAddr : string) (srcIA dstIA valTime : Z)
    (validityNotBefore validityNotAfter key : Z) (w w' : World) (u : unit) :
  GetDelegationSecret sciondAddr srcIA dstIA valTime validityNotBefore
    validityNotAfter key w = Returns u w' ->
  exists (e1 : ExtState) (c : Connector) (e2 : ExtState)
         (lvl2Key : drkey.Lvl2Key.t),
    sciond_Connect (ext w) sciondAddr = (e1, (Some c, None)) /\
    Connector_DRKeyGetLvl2Key e1 c 10000000000 (shim_meta srcIA dstIA)
      (shim_time valTime) = (e2, (lvl2Key, None)) /\
    w' = shim_world w sciondAddr srcIA dstIA valTime validityNotBefore
           validityNotAfter key e2 lvl2Key.
Proof.
  intros Hrun.
  pose proof (GetDelegationSecret_cases sciondAddr srcIA dstIA valTime
                validityNotBefore validityNotAfter key w) as Hc.
  destruct (sciond_Connect (ext w) sciondAddr) as [e1 [[c|] [e|]]] eqn:Hconn;
    try (rewrite Hc in Hrun; discriminate Hrun).
  destruct (Connector_DRKeyGetLvl2Key e1 c 10000000000 _ _)
    as [e2 [lvl2Key [e|]]] eqn:Hrpc; rewrite Hc in Hrun; [discriminate Hrun|].
  injection Hrun as _ <-. exists e1, c, e2, lvl2Key.
  repeat split; [exact Hrpc].
Qed.

(** C1: a successful call connected to the daemon at [sciondAddr], sent one
    request for the AS-to-AS key of protocol "piskes" between the decoded
    IAs, valid at [valTime] seconds (UTC), under a 10 second timeout, and
    wrote the answer's two epoch bounds as int64 Unix seconds and its key
    through the three pointers. *)
Theorem GetDelegationSecret_success (sciondAddr : string)
    (srcIA dstIA valTime : Z) (validityNotBefore validityNotAfter key : Z)
    (w w' : World) (u : unit) :
  GetDelegationSecret sciondAddr srcIA dstIA valTime validityNotBefore
    validityNotAfter key w = Returns u w' ->
  exists (e1 : ExtState) (c : Connector) (lvl2Key : drkey.Lvl2Key.t),
    let dsMeta :=
      drkey.Lvl2Meta.mk drkey.AS2AS "piskes" (IAInt_IA srcIA) (IAInt_IA dstIA)
        None None in
    let t := time.mkTime valTime 0 time.UTCLoc in
    let notBefore :=
      time.Time_Unix (drkey.NotBefore (drkey.Lvl2Key.Epoch lvl2Key)) in
    let notAfter :=
      time.Time_Unix (drkey.NotAfter (drkey.Lvl2Key.Epoch lvl2Key)) in
    sciond_Connect (ext w) sciondAddr = (e1, (Some c, None)) /\
    Connector_DRKeyGetLvl2Key e1 c (10 * time.Second) dsMeta t =
      (ext w', (lvl2Key, None)) /\
    events w' =
      (events w ++
       [EvConnect sciondAddr; EvDRKeyGetLvl2Key (10 * time.Second) dsMeta t])%list /\
    mem w' =
      copy_mem
        (store_bytes
           (store_bytes (mem w) validityNotBefore
              (encode_int64 byte_order notBefore))
           validityNotAfter (encode_int64 byte_order notAfter))
        key 16 (drkey.Lvl2Key.Key lvl2Key) /\
    (INT64_MIN <= notBefore <= INT64_MAX /\
     INT64_MIN <= notAfter <= INT64_MAX) /\
    (ranges_disjoint validityNotBefore 8 validityNotAfter 8 ->
     ranges_disjoint validityNotBefore 8 key 16 ->
     decode_int64 byte_order (load_bytes (mem w') validityNotBefore 8) =
       notBefore) /\
    (ranges_disjoint validityNotAfter 8 key 16 ->
     decode_int64 byte_order (load_bytes (mem w') validityNotAfter 8) =
       notAfter) /\
    (length (drkey.Lvl2Key.Key lvl2Key) = 16%nat ->
     load_bytes (mem w') key 16 = drkey.Lvl2Key.Key lvl2Key).
Proof.
  intros Hrun.
  destruct (GetDelegationSecret_returns _ _ _ _ _ _ _ _ _ _ Hrun)
    as (e1 & c & e2 & k & Hconn & Hrpc & ->).
  exists e1, c, k. cbv zeta.
  change (10 * time.Second) with 10000000000.
  split; [exact Hconn|]. split; [exact Hrpc|].
  cbn [events mem shim_world].
  split; [reflexivity|]. split; [reflexivity|].
  split; [split; apply sint64_range|].
  unfold copy_mem. split; [|split].
  - intros D1 D2.
    rewrite load_store_other.
    2:{ rewrite length_take. unfold ranges_disjoint in *. lia. }
    rewrite load_store_other.
    2:{ rewrite length_encode_int64. exact D1. }
    rewrite load_store_same_n by apply length_encode_int64.
    rewrite decode_encode_int64. apply sint64_idem.
  - intros D.
    rewrite load_store_other.
    2:{ rewrite length_take. unfold ranges_disjoint in *. lia. }
    rewrite load_store_same_n by apply length_encode_int64.
    rewrite decode_encode_int64. apply sint64_idem.
  - intros Hlen. rewrite Hlen. change (Nat.min 16 16) with 16%nat.
    rewrite take_ge by lia. now apply load_store_same_n.
Qed.


(** C6: the entry point has no error result.  A failed connection and a
    failed request (a timeout is such a failure) each make it panic with
    the error, after that single attempt and with memory untouched; it
    never exits quietly; and a successful call leaves memory changed
    nowhere but in the three output locations and prints nothing. *)
Theorem GetDelegationSecret_fail_fast (sciondAddr : string)
    (srcIA dstIA valTime : Z) (validityNotBefore validityNotAfter key : Z)
    (w : World) :
  let run :=
    GetDelegationSecret sciondAddr srcIA dstIA valTime validityNotBefore
      validityNotAfter key w in
  let dsMeta :=
    drkey.Lvl2Meta.mk drkey.AS2AS "piskes" (IAInt_IA srcIA) (IAInt_IA dstIA)
      None None in
  let t := time.mkTime valTime 0 time.UTCLoc in
  (forall e1 sd e,
     sciond_Connect (ext w) sciondAddr = (e1, (sd, Some e)) ->
     run = Panics (Sprintf "Fatal error: %v" e)
             (mkWorld e1 (events w ++ [EvConnect sciondAddr]) (mem w))) /\
  (forall e1 c e2 k e,
     sciond_Connect (ext w) sciondAddr = (e1, (Some c, None)) ->
     Connector_DRKeyGetLvl2Key e1 c (10 * time.Second) dsMeta t =
       (e2, (k, Some e)) ->
     run = Panics (Sprintf "Fatal error: %v" e)
             (mkWorld e2
                (events w ++
                 [EvConnect sciondAddr;
                  EvDRKeyGetLvl2Key (10 * time.Second) dsMeta t])
                (mem w))) /\
  (forall code w', run <> Exits code w') /\
  (forall v w',
     run = Panics v w' ->
     mem w' = mem w /\
     (events w' = (events w ++ [EvConnect sciondAddr])%list \/
      events w' =
        (events w ++
         [EvConnect sciondAddr;
          EvDRKeyGetLvl2Key (10 * time.Second) dsMeta t])%list)) /\
  (forall u w',
     run = Returns u w' ->
     events w' =
       (events w ++
        [EvConnect sciondAddr; EvDRKeyGetLvl2Key (10 * time.Second) dsMeta t])%list /\
     forall x,
       ~ (validityNotBefore <= x < validityNotBefore + 8) ->
       ~ (validityNotAfter <= x < validityNotAfter + 8) ->
       ~ (key <= x < key + 16) ->
       mem w' x = mem w x).
Proof.
  cbv zeta. change (10 * time.Second) with 10000000000.
  pose proof (GetDelegationSecret_cases sciondAddr srcIA dstIA valTime
                validityNotBefore validityNotAfter key w) as Hc.
  fold (shim_meta srcIA dstIA). fold (shim_time valTime).
  split; [|split; [|split; [|split; [|intros u w' H1; split]]]].
  - intros e1 sd e Hconn. rewrite Hconn in Hc. destruct sd; exact Hc.
  - intros e1 c e2 k e Hconn Hrpc. rewrite Hconn, Hrpc in Hc. exact Hc.
  - intros code w' Hrun.
    destruct (sciond_Connect (ext w) sciondAddr) as [e1 [[c|] [e|]]];
      try (rewrite Hc in Hrun; discriminate Hrun).
    destruct (Connector_DRKeyGetLvl2Key e1 c 10000000000 _ _)
      as [e2 [lvl2Key [e|]]]; rewrite Hc in Hrun; discriminate Hrun.
  - intros v w' Hrun.
    destruct (sciond_Connect (ext w) sciondAddr) as [e1 [[c|] [e|]]];
      try (rewrite Hc in Hrun; injection Hrun as _ <-;
           split; [reflexivity | left; reflexivity]).
    destruct (Connector_DRKeyGetLvl2Key e1 c 10000000000 _ _)
      as [e2 [lvl2Key [e|]]]; rewrite Hc in Hrun; [|discriminate Hrun].
    injection Hrun as _ <-. split; [reflexivity | right; reflexivity].
  - destruct (GetDelegationSecret_returns _ _ _ _ _ _ _ _ _ _ H1)
      as (e1 & c & e2 & k & _ & _ & ->). reflexivity.
  - intros x Hnb Hna Hkey.
    destruct (GetDelegationSecret_returns _ _ _ _ _ _ _ _ _ _ H1)
      as (e1 & c & e2 & k & _ & _ & ->).
    cbn [mem shim_world]. unfold copy_mem.
    rewrite store_bytes_outside
      by (rewrite length_take; lia).
    rewrite store_bytes_outside by (rewrite length_encode_int64; lia).
    rewrite store_bytes_outside by (rewrite length_encode_int64; lia).
    reflexivity.
Qed.

(** C10: a successful call copies min(16, len) bytes of the returned key,
    never more than 16, to [key]; a longer key is cut to its first 16
    bytes, and behind a shorter one the rest of the 16-byte buffer keeps
    what it held. *)
Theorem GetDelegationSecret_key_copy (sciondAddr : string)
    (srcIA dstIA valTime : Z) (validityNotBefore validityNotAfter key : Z)
    (w w' : World) (u : unit) :
  GetDelegationSecret sciondAddr srcIA dstIA valTime validityNotBefore
    validityNotAfter key w = Returns u w' ->
  exists (e1 : ExtState) (c : Connector) (lvl2Key : drkey.Lvl2Key.t),
    let dsMeta :=
      drkey.Lvl2Meta.mk drkey.AS2AS "piskes" (IAInt_IA srcIA) (IAInt_IA dstIA)
        None None in
    let t := time.mkTime valTime 0 time.UTCLoc in
    let n := Nat.min 16 (length (drkey.Lvl2Key.Key lvl2Key)) in
    let before_copy :=
      store_bytes
        (store_bytes (mem w) validityNotBefore
           (encode_int64 byte_order
              (time.Time_Unix (drkey.NotBefore (drkey.Lvl2Key.Epoch lvl2Key)))))
        validityNotAfter
        (encode_int64 byte_order
           (time.Time_Unix (drkey.NotAfter (drkey.Lvl2Key.Epoch lvl2Key)))) in
    sciond_Connect (ext w) sciondAddr = (e1, (Some c, None)) /\
    Connector_DRKeyGetLvl2Key e1 c (10 * time.Second) dsMeta t =
      (ext w', (lvl2Key, None)) /\
    (n <= 16)%nat /\
    (forall i, (i < n)%nat ->
       mem w' (key + Z.of_nat i) = nth i (drkey.Lvl2Key.Key lvl2Key) 0) /\
    (forall x, ~ (key <= x < key + Z.of_nat n) -> mem w' x = before_copy x) /\
    (forall i, (n <= i < 16)%nat ->
       ranges_disjoint key 16 validityNotBefore 8 ->
       ranges_disjoint key 16 validityNotAfter 8 ->
       mem w' (key + Z.of_nat i) = mem w (key + Z.of_nat i)).
Proof.
  intros Hrun.
  destruct (GetDelegationSecret_returns _ _ _ _ _ _ _ _ _ _ Hrun)
    as (e1 & c & e2 & k & Hconn & Hrpc & ->).
  exists e1, c, k. cbv zeta. change (10 * time.Second) with 10000000000.
  split; [exact Hconn|]. split; [exact Hrpc|]. split; [lia|].
  cbn [mem shim_world]. unfold copy_mem.
  split; [|split].
  - intros i Hi. rewrite store_bytes_inside by (rewrite length_take; lia).
    rewrite !nth_lookup, lookup_take.
    destruct (decide (i < Nat.min 16 (length (drkey.Lvl2Key.Key k)))%nat);
      [reflexivity | contradiction].
  - intros x Hx. apply store_bytes_outside. rewrite length_take. lia.
  - intros i Hi D1 D2. unfold ranges_disjoint in *.
    rewrite store_bytes_outside by (rewrite length_take; lia).
    rewrite store_bytes_outside by (rewrite length_encode_int64; lia).
    rewrite store_bytes_outside by (rewrite length_encode_int64; lia).
    reflexivity.
Qed.

End ShimProperties.

Lemma GetDelegationSecret_success_witness :
  let w := demo.world true 16 in
  let w' :=
    @shim_world demo.addr_lib (demo.platform true 16) w "127.0.0.1:30255"
      0x0011ffaa00010d69 0x0011ffaa00010e97 1600000000 1000 1008 1016
      1600000000
      (demo.lvl2_key 16
         (@shim_meta demo.addr_lib 0x0011ffaa00010d69 0x0011ffaa00010e97)
         (shim_time 1600000000)) in
  @GetDelegationSecret demo.addr_lib (demo.platform true 16) "127.0.0.1:30255"
    0x0011ffaa00010d69 0x0011ffaa00010e97 1600000000 1000 1008 1016 w
  = Returns tt w' /\
  decode_int64 LittleEndian (load_bytes (mem w') 1000 8) = 1599955200 /\
  decode_int64 LittleEndian (load_bytes (mem w') 1008 8) = 1600041600 /\
  load_bytes (mem w') 1016 16 =
    [86; 87; 88; 89; 90; 91; 92; 93; 94; 95; 96; 97; 98; 99; 100; 101].
Proof.
  intros w w'. split; [reflexivity|].
  destruct (@GetDelegationSecret_success demo.addr_lib (demo.platform true 16)
              "127.0.0.1:30255" 0x0011ffaa00010d69 0x0011ffaa00010e97
              1600000000 1000 1008 1016 w w' tt eq_refl)
    as (e1 & c & k & _ & Hrpc & _ & _ & _ & Hnb & Hna & Hkey).
  injection Hrpc as _ <-.
  split; [|split].
  - apply Hnb; unfold ranges_disjoint; lia.
  - apply Hna; unfold ranges_disjoint; lia.
  - apply Hkey. reflexivity.
Defined.

Lemma GetDelegationSecret_fail_fast_witness :
  let w := demo.world false 16 in
  @sciond_Connect (demo.platform false 16) (ext w) "127.0.0.1:30255" =
    (ext w, (None, Some (ExtError "connection refused"))) /\
  @GetDelegationSecret demo.addr_lib (demo.platform false 16) "127.0.0.1:30255"
    0x0011ffaa00010d69 0x0011ffaa00010e97 1600000000 1000 1008 1016 w
  = Panics (Sprintf "Fatal error: %v" (ExtError "connection refused"))
      (mkWorld (ext w) [EvConnect "127.0.0.1:30255"] (mem w)).
Proof.
  intros w. split; [reflexivity|].
  destruct (@GetDelegationSecret_fail_fast demo.addr_lib (demo.platform false 16)
              "127.0.0.1:30255" 0x0011ffaa00010d69 0x0011ffaa00010e97
              1600000000 1000 1008 1016 w) as (Hconn & _).
  exact (Hconn (ext w) None (ExtError "connection refused") eq_refl).
Defined.

Lemma GetDelegationSecret_key_copy_witness :
  let w := demo.world true 4 in
  let w' :=
    @shim_world demo.addr_lib (demo.platform true 4) w "127.0.0.1:30255"
      0x0011ffaa00010d69 0x0011ffaa00010e97 1600000000 1000 1008 1016
      1600000000
      (demo.lvl2_key 4
         (@shim_meta demo.addr_lib 0x0011ffaa00010d69 0x0011ffaa00010e97)
         (shim_time 1600000000)) in
  @GetDelegationSecret demo.addr_lib (demo.platform true 4) "127.0.0.1:30255"
    0x0011ffaa00010d69 0x0011ffaa00010e97 1600000000 1000 1008 1016 w
  = Returns tt w' /\
  mem w' (1016 + 3) = 89 /\ mem w' (1016 + 4) = mem w (1016 + 4).
Proof.
  intros w w'. split; [reflexivity|].
  destruct (@GetDelegationSecret_key_copy demo.addr_lib (demo.platform true 4)
              "127.0.0.1:30255" 0x0011ffaa00010d69 0x0011ffaa00010e97
              1600000000 1000 1008 1016 w w' tt eq_refl)
    as (e1 & c & k & _ & Hrpc & _ & Hin & _ & Hkeep).
  injection Hrpc as _ <-.
  split.
  - apply (Hin 3%nat). simpl. lia.
  - apply (Hkeep 4%nat); [simpl; lia | |]; unfold ranges_disjoint; lia.
Defined.

(** ** The key server *)

Section ServerProperties.
Context {PF : Platform}.

Lemma dsForServer_cases (s : Server) (meta : drkey.Lvl2Meta.t) (w : World) :
  let dsMeta :=
    as2as_meta (drkey.Lvl2Meta.Protocol meta) (drkey.Lvl2Meta.SrcIA meta)
      (drkey.Lvl2Meta.DstIA meta) in
  let run := Server_dsForServer s meta w in
  let now := time.Time_UTC (time_Now (ext w)).2 in
  let e0 := (time_Now (ext w)).1 in
  match Server_sciond s with
  | None => aborted run /\ events (final_world run) = events w
  | Some c =>
      match Connector_DRKeyGetLvl2Key e0 c (10 * time.Second) dsMeta now with
      | (e1, (k1, Some e)) =>
          run = Panics (Sprintf "Fatal error: %v" e)
                  (mkWorld e1 (events w ++ take 1 (ds_events dsMeta now k1 k1 k1))
                     (mem w))
      | (e1, (k1, None)) =>
          match Connector_DRKeyGetLvl2Key e1 c (10 * time.Second) dsMeta
                  (ds_next k1) with
          | (e2, (k2, Some e)) =>
              run = Panics (Sprintf "Fatal error: %v" e)
                      (mkWorld e2
                         (events w ++ take 3 (ds_events dsMeta now k1 k2 k2))
                         (mem w))
          | (e2, (k2, None)) =>
              match Connector_DRKeyGetLvl2Key e2 c (10 * time.Second) dsMeta
                      (ds_prev k1) with
              | (e3, (k3, Some e)) =>
                  run = Panics (Sprintf "Fatal error: %v" e)
                          (mkWorld e3
                             (events w ++ take 5 (ds_events dsMeta now k1 k2 k3))
                             (mem w))
              | (e3, (k3, None)) =>
                  run = Returns (delegation_secret_of k1)
                          (mkWorld e3 (events w ++ ds_events dsMeta now k1 k2 k3)
                             (mem w))
              end
          end
      end
  end.
Proof.
  cbv zeta.
  unfold Server_dsForServer, time_Now_, DRKeyGetLvl2Key, check, fmt_Printf,
    emit, panic, mbind, Go_bind, mret, Go_ret, as2as_meta.
  destruct (time_Now (ext w)) as [e0 t]. cbn [fst snd ext events mem].
  destruct (Server_sciond s) as [c|]; [|split; [exact Logic.I | reflexivity]].
  destruct (Connector_DRKeyGetLvl2Key e0 c _ _ _) as [e1 [k1 [e|]]];
    cbn [ext events mem]; [reflexivity|].
  fold (ds_next k1). fold (ds_prev k1).
  destruct (Connector_DRKeyGetLvl2Key e1 c _ _ _) as [e2 [k2 [e|]]];
    cbn [ext events mem].
  { rewrite <- !app_assoc. reflexivity. }
  destruct (Connector_DRKeyGetLvl2Key e2 c _ _ _) as [e3 [k3 [e|]]];
    cbn [ext events mem]; rewrite <- !app_assoc; reflexivity.
Qed.


(** C5: the delegation secret [dsForServer] returns is the first answer
    (to the request for the current time), field by field; the answers to
    the re-requests one second past the epoch's end and one second before
    its start, whatever they are, do not enter it. *)
Theorem dsForServer_from_first_response (s : Server)
    (meta : drkey.Lvl2Meta.t) (w : World) :
  let dsMeta :=
    drkey.Lvl2Meta.mk drkey.AS2AS (drkey.Lvl2Meta.Protocol meta)
      (drkey.Lvl2Meta.SrcIA meta) (drkey.Lvl2Meta.DstIA meta) None None in
  forall (c : Connector) (e0 : ExtState) (t : time.Time)
         (e1 : ExtState) (k1 : drkey.Lvl2Key.t) (err1 : option error),
    Server_sciond s = Some c ->
    time_Now (ext w) = (e0, t) ->
    Connector_DRKeyGetLvl2Key e0 c (10 * time.Second) dsMeta (time.Time_UTC t) =
      (e1, (k1, err1)) ->
    forall (e2 e3 : ExtState) (r2 r3 : drkey.Lvl2Key.t * option error),
      Connector_DRKeyGetLvl2Key e1 c (10 * time.Second) dsMeta
        (time.Time_Add (drkey.NotAfter (drkey.Lvl2Key.Epoch k1))
           (1 * time.Second)) = (e2, r2) ->
      Connector_DRKeyGetLvl2Key e2 c (10 * time.Second) dsMeta
        (time.Time_Add (drkey.NotBefore (drkey.Lvl2Key.Epoch k1))
           (-1 * time.Second)) = (e3, r3) ->
      forall (ds : drkey.DelegationSecret.t) (w' : World),
        Server_dsForServer s meta w = Returns ds w' ->
        err1 = None /\
        drkey.DelegationSecret.Protocol ds = drkey.Lvl2Key.Protocol k1 /\
        drkey.DelegationSecret.Epoch ds = drkey.Lvl2Key.Epoch k1 /\
        drkey.DelegationSecret.SrcIA ds = drkey.Lvl2Key.SrcIA k1 /\
        drkey.DelegationSecret.DstIA ds = drkey.Lvl2Key.DstIA k1 /\
        drkey.DelegationSecret.Key ds = drkey.Lvl2Key.Key k1.
Proof.
  cbv zeta. intros c e0 t e1 k1 err1 Hs Hnow H1 e2 e3 r2 r3 H2 H3 ds w' Hrun.
  pose proof (dsForServer_cases s meta w) as Hc. cbv zeta in Hc.
  unfold as2as_meta, ds_next, ds_prev in Hc.
  rewrite Hs, Hnow in Hc. cbn [fst snd] in Hc. rewrite H1 in Hc.
  destruct err1 as [e|]; [rewrite Hc in Hrun; discriminate Hrun|].
  rewrite H2 in Hc. destruct r2 as [k2 [e|]];
    [rewrite Hc in Hrun; discriminate Hrun|].
  rewrite H3 in Hc. destruct r3 as [k3 [e|]];
    [rewrite Hc in Hrun; discriminate Hrun|].
  rewrite Hc in Hrun. injection Hrun as <- _.
  repeat split; reflexivity.
Qed.

(** C9: the requests of [dsForServer], and with them its whole run,
    depend on the metadata only through Protocol, SrcIA and DstIA: every
    request it sends asks for the AS-to-AS key with both hosts unset, and
    two metadata values that agree on those three fields give the same
    run against the same daemon. *)
Theorem dsForServer_depends_on_AS_pair (s : Server)
    (meta1 meta2 : drkey.Lvl2Meta.t) (w : World) :
  drkey.Lvl2Meta.Protocol meta1 = drkey.Lvl2Meta.Protocol meta2 ->
  drkey.Lvl2Meta.SrcIA meta1 = drkey.Lvl2Meta.SrcIA meta2 ->
  drkey.Lvl2Meta.DstIA meta1 = drkey.Lvl2Meta.DstIA meta2 ->
  Server_dsForServer s meta1 w = Server_dsForServer s meta2 w /\
  exists sent : list Event,
    events (final_world (Server_dsForServer s meta1 w)) = (events w ++ sent)%list /\
    forall timeout m t,
      In (EvDRKeyGetLvl2Key timeout m t) sent ->
      m = drkey.Lvl2Meta.mk drkey.AS2AS (drkey.Lvl2Meta.Protocol meta1)
            (drkey.Lvl2Meta.SrcIA meta1) (drkey.Lvl2Meta.DstIA meta1) None None.
Proof.
  intros Hp Hs Hd. split.
  - unfold Server_dsForServer. rewrite Hp, Hs, Hd. reflexivity.
  - pose proof (dsForServer_cases s meta1 w) as Hc. cbv zeta in Hc.
    set (dsMeta := as2as_meta _ _ _) in *.
    set (now := time.Time_UTC _) in *.
    assert (Hsent : forall k1 k2 k3 n timeout m t,
              In (EvDRKeyGetLvl2Key timeout m t)
                 (take n (ds_events dsMeta now k1 k2 k3)) -> m = dsMeta).
    { intros k1 k2 k3 n timeout m t Hin.
      apply list_elem_of_In, (subseteq_take n), list_elem_of_In in Hin.
      simpl in Hin.
      unfold ds_request, ds_line in Hin.
      intuition congruence. }
    destruct (Server_sciond s) as [c|].
    2:{ exists []. rewrite app_nil_r. split; [apply Hc | intros ? ? ? []]. }
    destruct (Connector_DRKeyGetLvl2Key _ c _ _ _) as [e1 [k1 [e|]]].
    { rewrite Hc. eexists. split; [reflexivity | apply Hsent]. }
    destruct (Connector_DRKeyGetLvl2Key e1 c _ _ _) as [e2 [k2 [e|]]].
    { rewrite Hc. eexists. split; [reflexivity | apply Hsent]. }
    destruct (Connector_DRKeyGetLvl2Key e2 c _ _ _) as [e3 [k3 [e|]]].
    { rewrite Hc. eexists. split; [reflexivity | apply Hsent]. }
    rewrite Hc. eexists. split; [reflexivity|].
    intros timeout m t Hin. apply (Hsent k1 k2 k3 6%nat timeout m t).
    exact Hin.
Qed.

(** C4, as the code has it: [HostKeyFromDS] looks up the fixed name
    "piskes" in the registry, whatever protocol the metadata names, and
    calls that derivation with the metadata and the secret; it panics when
    "piskes" is missing or is not a delegated derivation, and when the
    derivation returns an error. *)
Theorem HostKeyFromDS_piskes (s : Server) (meta : drkey.Lvl2Meta.t)
    (ds : drkey.DelegationSecret.t) (w : World) :
  (KnownDerivations !! "piskes" = None ->
   exists msg, Server_HostKeyFromDS s meta ds w = Panics (RuntimeError msg) w) /\
  (forall d,
     KnownDerivations !! "piskes" = Some d ->
     protocol.DeriveLvl2FromDS d = None ->
     exists msg, Server_HostKeyFromDS s meta ds w = Panics (RuntimeError msg) w) /\
  (forall d derive,
     KnownDerivations !! "piskes" = Some d ->
     protocol.DeriveLvl2FromDS d = Some derive ->
     (forall derived,
        derive meta ds = (derived, None) ->
        Server_HostKeyFromDS s meta ds w = Returns derived w) /\
     (forall derived e,
        derive meta ds = (derived, Some e) ->
        Server_HostKeyFromDS s meta ds w =
        Panics (Sprintf "Fatal error: %v" e) w)).
Proof.
  unfold Server_HostKeyFromDS. split; [|split].
  - intros ->. eauto.
  - intros d -> ->. eauto.
  - intros d derive -> ->. split.
    + intros derived ->. reflexivity.
    + intros derived e ->. reflexivity.
Qed.

End ServerProperties.

Lemma dsForServer_from_first_response_witness :
  let w := demo.world true 16 in
  let s := @mkServer (demo.platform true 16) (Some tt) in
  let meta :=
    drkey.Lvl2Meta.mk drkey.Host2Host "piskes" (addr.mkIA 1 0xff0000000111)
      (addr.mkIA 1 0xff0000000112) (Some (addr.HostIPv4 [127; 0; 0; 1])) None in
  exists ds w',
    Server_dsForServer s meta w = Returns ds w' /\
    drkey.DelegationSecret.Key ds =
      [86; 87; 88; 89; 90; 91; 92; 93; 94; 95; 96; 97; 98; 99; 100; 101].
Proof.
  intros w s meta.
  destruct (Server_dsForServer s meta w) as [ds w'| |] eqn:Hrun;
    try discriminate Hrun.
  exists ds, w'. split; [reflexivity|].
  destruct (@dsForServer_from_first_response (demo.platform true 16) s meta w
              tt _ _ _ _ None eq_refl eq_refl eq_refl _ _ _ _ eq_refl eq_refl
              ds w' Hrun) as (_ & _ & _ & _ & _ & ->).
  reflexivity.
Defined.

Lemma dsForServer_depends_on_AS_pair_witness :
  let w := demo.world true 16 in
  let s := @mkServer (demo.platform true 16) (Some tt) in
  let meta1 :=
    drkey.Lvl2Meta.mk drkey.Host2Host "piskes" (addr.mkIA 1 0xff0000000111)
      (addr.mkIA 1 0xff0000000112) (Some (addr.HostIPv4 [127; 0; 0; 1])) None in
  let meta2 :=
    drkey.Lvl2Meta.mk drkey.AS2Host "piskes" (addr.mkIA 1 0xff0000000111)
      (addr.mkIA 1 0xff0000000112) None (Some (addr.HostSVC 2)) in
  Server_dsForServer s meta1 w = Server_dsForServer s meta2 w.
Proof.
  intros w s meta1 meta2.
  exact (proj1 (@dsForServer_depends_on_AS_pair (demo.platform true 16) s
                  meta1 meta2 w eq_refl eq_refl eq_refl)).
Defined.

Lemma HostKeyFromDS_piskes_witness :
  let w := demo.world true 16 in
  let s := @mkServer (demo.platform true 16) (Some tt) in
  let meta :=
    drkey.Lvl2Meta.mk drkey.Host2Host "piskes" (addr.mkIA 1 0xff0000000111)
      (addr.mkIA 1 0xff0000000112) None None in
  let ds :=
    drkey.DelegationSecret.mk "piskes"
      (drkey.mkEpoch (time.mkTime 0 0 time.UTCLoc)
         (time.mkTime 86400 0 time.UTCLoc))
      (addr.mkIA 1 0xff0000000111) (addr.mkIA 1 0xff0000000112) [1; 2; 3] in
  Server_HostKeyFromDS s meta ds w = Returns (demo.derive meta ds).1 w.
Proof.
  intros w s meta ds.
  destruct (@HostKeyFromDS_piskes (demo.platform true 16) s meta ds w)
    as (_ & _ & Hreg).
  destruct (Hreg (protocol.mkDerivation "piskes" (Some demo.derive)) demo.derive
              eq_refl eq_refl) as [Hok _].
  exact (Hok (demo.derive meta ds).1 eq_refl).
Defined.

(** The metadata names a protocol the registry does not hold, and the
    derivation succeeds all the same; a lookup by that name would fail. *)
Lemma HostKeyFromDS_ignores_meta_protocol :
  let w := demo.world true 16 in
  let s := @mkServer (demo.platform true 16) (Some tt) in
  let meta :=
    drkey.Lvl2Meta.mk drkey.Host2Host "scmp" (addr.mkIA 1 0xff0000000111)
      (addr.mkIA 1 0xff0000000112) None None in
  let ds :=
    drkey.DelegationSecret.mk "scmp"
      (drkey.mkEpoch (time.mkTime 0 0 time.UTCLoc)
         (time.mkTime 86400 0 time.UTCLoc))
      (addr.mkIA 1 0xff0000000111) (addr.mkIA 1 0xff0000000112) [1; 2; 3] in
  @KnownDerivations (demo.platform true 16) !! drkey.Lvl2Meta.Protocol meta = None /\
  Server_HostKeyFromDS s meta ds w = Returns (demo.derive meta ds).1 w /\
  deriveHostKeyFromSecret_by_meta_protocol meta ds w =
    Panics (RuntimeError "unregistered protocol") w /\
  Server_HostKeyFromDS s meta ds w <>
    deriveHostKeyFromSecret_by_meta_protocol meta ds w.
Proof.
  intros w s meta ds.
  assert (Hreg : @KnownDerivations (demo.platform true 16) !! "scmp" = None).
  { cbn [KnownDerivations demo.platform].
    rewrite lookup_insert_ne by discriminate. apply lookup_empty. }
  assert (Hpiskes : @KnownDerivations (demo.platform true 16) !! "piskes" =
                    Some (protocol.mkDerivation "piskes" (Some demo.derive))).
  { cbn [KnownDerivations demo.platform]. apply lookup_insert_eq. }
  assert (Hspec : deriveHostKeyFromSecret_by_meta_protocol meta ds w =
                  Panics (RuntimeError "unregistered protocol") w).
  { unfold deriveHostKeyFromSecret_by_meta_protocol.
    change (drkey.Lvl2Meta.Protocol meta) with "scmp". now rewrite Hreg. }
  assert (Hcode : Server_HostKeyFromDS s meta ds w =
                  Returns (demo.derive meta ds).1 w).
  { unfold Server_HostKeyFromDS. rewrite Hpiskes. reflexivity. }
  split; [exact Hreg|]. split; [exact Hcode|]. split; [exact Hspec|].
  rewrite Hspec, Hcode. discriminate.
Qed.

(** ** The driver *)

Lemma roles_completed_app (l1 l2 : list Event) :
  roles_completed (l1 ++ l2) = (roles_completed l1 ++ roles_completed l2)%list.
Proof.
  induction l1 as [|e l1 IH]; [reflexivity|].
  destruct e; simpl; try exact IH.
  repeat match goal with |- context [String.eqb ?a ?b] =>
    destruct (String.eqb a b) end; simpl; now rewrite ?IH.
Qed.

Section DriverProperties.
Context {AL : AddrLib} {PF : Platform}.

Lemma runs_roles_bind {A B : Type} (m : Go A) (f : A -> Go B)
    (r1 r2 : list Role) :
  runs_roles m r1 -> (forall a, runs_roles (f a) r2) ->
  runs_roles (m ≫= f) (r1 ++ r2).
Proof.
  intros Hm Hf w. destruct (Hm w) as (d1 & E1 & P1 & R1).
  unfold mbind, Go_bind. destruct (m w) as [a w1|v w1|c w1]; simpl in *.
  - rewrite (R1 Logic.I) in E1.
    destruct (Hf a w1) as (d2 & E2 & P2 & R2).
    exists (r1 ++ d2)%list. split; [|split].
    + rewrite E2, E1. now rewrite app_assoc.
    + now apply prefix_app.
    + intros Hr. now rewrite (R2 Hr).
  - exists d1. split; [exact E1|]. split; [|contradiction].
    now apply prefix_app_r.
  - exists d1. split; [exact E1|]. split; [|contradiction].
    now apply prefix_app_r.
Qed.

(** A step that leaves the event log alone, or adds events that are not
    the result line of a role, completes no role. *)
Lemma runs_roles_quiet {A : Type} (m : Go A) :
  (forall w, roles_completed (events (final_world (m w))) =
             roles_completed (events w)) ->
  runs_roles m [].
Proof.
  intros Hq w. exists []. rewrite app_nil_r. split; [apply Hq|].
  split; [reflexivity | reflexivity].
Qed.

Lemma runs_roles_seq {A B : Type} (m : Go A) (f : A -> Go B) (r : list Role) :
  runs_roles m [] -> (forall a, runs_roles (f a) r) -> runs_roles (m ≫= f) r.
Proof. intros Hm Hf. exact (runs_roles_bind m f [] r Hm Hf). Qed.

Lemma runs_roles_ret {A : Type} (a : A) : runs_roles (mret a : Go A) [].
Proof. apply runs_roles_quiet. reflexivity. Qed.

Lemma runs_roles_panic {A : Type} (v : PanicValue) :
  runs_roles (panic v : Go A) [].
Proof. apply runs_roles_quiet. reflexivity. Qed.

Lemma runs_roles_check (e : option error) : runs_roles (check e) [].
Proof. destruct e; [apply runs_roles_panic | apply runs_roles_ret]. Qed.

Lemma runs_roles_Connect (a : string) : runs_roles (Connect a) [].
Proof.
  apply runs_roles_quiet. intros w. unfold Connect.
  destruct (sciond_Connect (ext w) a) as [e' r]. simpl.
  rewrite roles_completed_app. simpl. now rewrite app_nil_r.
Qed.

Lemma runs_roles_DRKeyGetLvl2Key sd timeout meta t :
  runs_roles (DRKeyGetLvl2Key sd timeout meta t) [].
Proof.
  apply runs_roles_quiet. intros w. unfold DRKeyGetLvl2Key.
  destruct sd as [c|]; [|reflexivity].
  destruct (Connector_DRKeyGetLvl2Key (ext w) c timeout meta t) as [e' r].
  simpl. rewrite roles_completed_app. simpl. now rewrite app_nil_r.
Qed.

Lemma runs_roles_Now : runs_roles time_Now_ [].
Proof.
  apply runs_roles_quiet. intros w. unfold time_Now_.
  now destruct (time_Now (ext w)).
Qed.

Lemma runs_roles_Since t0 : runs_roles (time_Since t0) [].
Proof.
  apply runs_roles_seq; [apply runs_roles_Now | intros; apply runs_roles_ret].
Qed.

Lemma runs_roles_emit (e : Event) :
  roles_completed [e] = [] -> runs_roles (emit e) [].
Proof.
  intros He. apply runs_roles_quiet. intros w. simpl.
  rewrite roles_completed_app, He. now rewrite app_nil_r.
Qed.

Lemma runs_roles_result_line (format : string) (args : list Arg) (r : Role) :
  roles_completed [EvPrintf format args] = [r] ->
  runs_roles (fmt_Printf format args) [r].
Proof.
  intros He w. exists [r]. simpl. rewrite roles_completed_app, He.
  split; [reflexivity|]. split; reflexivity.
Qed.

Lemma runs_roles_dsForServer s meta : runs_roles (Server_dsForServer s meta) [].
Proof.
  unfold Server_dsForServer, fmt_Printf.
  repeat first
    [ apply runs_roles_ret
    | apply runs_roles_emit; reflexivity
    | apply runs_roles_Now
    | apply runs_roles_DRKeyGetLvl2Key
    | apply runs_roles_check
    | apply runs_roles_seq; [|intros]
    | match goal with p : _ * _ |- _ => destruct p end ].
Qed.

Lemma runs_roles_HostKeyFromDS s meta ds :
  runs_roles (Server_HostKeyFromDS s meta ds) [].
Proof.
  unfold Server_HostKeyFromDS.
  destruct (KnownDerivations !! "piskes") as [d|]; [|apply runs_roles_panic].
  destruct (protocol.DeriveLvl2FromDS d) as [f|]; [|apply runs_roles_panic].
  destruct (f meta ds) as [derived err].
  apply runs_roles_seq; [apply runs_roles_check | intros; apply runs_roles_ret].
Qed.

(** One step through a role: a known step, or else the next bind. *)
Ltac roles_step :=
  first
    [ apply runs_roles_ret
    | apply runs_roles_result_line; reflexivity
    | apply runs_roles_emit; reflexivity
    | apply runs_roles_Now
    | apply runs_roles_Since
    | apply runs_roles_Connect
    | apply runs_roles_DRKeyGetLvl2Key
    | apply runs_roles_check
    | apply runs_roles_dsForServer
    | apply runs_roles_HostKeyFromDS
    | apply runs_roles_seq; [|intros]
    | match goal with p : _ * _ |- _ => destruct p end ].

Lemma runs_roles_main_client sciondAddr src dst :
  runs_roles (main_client sciondAddr src dst) [RoleClient].
Proof.
  unfold main_client, ThisClientAndMeta, NewClient, Client_HostKey.
  repeat roles_step.
Qed.

Lemma runs_roles_main_server sciondAddr src dst :
  runs_roles (main_server sciondAddr src dst) [RoleServer].
Proof.
  unfold main_server, ThisServerAndMeta, NewServer.
  repeat roles_step.
Qed.

Lemma runs_roles_exit_on_error err : runs_roles (exit_on_error err) [].
Proof.
  destruct err as [e|]; [|apply runs_roles_ret]. simpl.
  apply runs_roles_quiet. intros w. simpl.
  rewrite !roles_completed_app. simpl. now rewrite !app_nil_r.
Qed.

Lemma runs_roles_main clientRole serverRole sciondAddr srcAddr dstAddr :
  runs_roles (main clientRole serverRole sciondAddr srcAddr dstAddr)
    (expected_roles (default_roles clientRole serverRole).1
       (default_roles clientRole serverRole).2).
Proof.
  unfold main. destruct (default_roles clientRole serverRole) as [c s].
  destruct (addrFromString srcAddr) as [src e1].
  destruct (addrFromString dstAddr) as [dst e2]. cbn [fst snd].
  apply runs_roles_seq; [apply runs_roles_exit_on_error | intros _].
  apply runs_roles_seq; [apply runs_roles_exit_on_error | intros _].
  unfold expected_roles. apply runs_roles_bind.
  - destruct c; [apply runs_roles_main_client | apply runs_roles_ret].
  - intros _. destruct s; [apply runs_roles_main_server | apply runs_roles_ret].
Qed.


(** *** The steps of a run *)

Lemma runs_steps_skip : runs_steps (mret tt : Go unit) [].
Proof. intros w. exists []. split; [now rewrite app_nil_r | reflexivity]. Qed.

Lemma never_exits_skip : never_exits (mret tt : Go unit).
Proof. intros w. exact Logic.I. Qed.

Lemma runs_steps_then (m1 m2 : Go unit) (ks1 ks2 : list Step) :
  runs_steps m1 ks1 -> never_exits m1 ->
  runs_steps m2 ks2 -> never_exits m2 ->
  runs_steps (m1;; m2) (ks1 ++ ks2) /\ never_exits (m1;; m2).
Proof.
  intros H1 N1 H2 N2. split.
  - intros w. unfold mbind, Go_bind.
    destruct (H1 w) as (a1 & E1 & S1). pose proof (N1 w) as X1.
    destruct (m1 w) as [u w1|v w1|c w1]; [| |contradiction];
      cbn [final_world steps_by_ending] in E1, S1.
    + destruct (H2 w1) as (a2 & E2 & S2). pose proof (N2 w1) as X2.
      exists (a1 ++ a2)%list. split; [now rewrite E2, E1, app_assoc|].
      destruct (m2 w1) as [u2 w2|v w2|c w2]; [| |contradiction];
        cbn [final_world steps_by_ending] in S2 |- *.
      * now rewrite fmap_app, S1, S2.
      * destruct S2 as (rest & Hne & ->). exists rest.
        split; [exact Hne|]. now rewrite fmap_app, S1, app_assoc.
    + exists a1. split; [exact E1|]. cbn [steps_by_ending].
      destruct S1 as (rest & Hne & ->). exists (rest ++ ks2)%list.
      split; [|now rewrite app_assoc].
      destruct rest; [contradiction|discriminate].
  - intros w. unfold mbind, Go_bind. pose proof (N1 w) as X1.
    destruct (m1 w) as [u w1|v w1|c w1];
      [apply N2 | exact Logic.I | contradiction].
Qed.

(** A run stopped by a panic with the steps of [added] made: what remains
    of [ks] is found by computation. *)
Ltac steps_done :=
  eexists; split; [rewrite <- ?app_assoc; reflexivity|];
  cbn [steps_by_ending fmap list_fmap step_of app drkey.Lvl2Meta.KeyType];
  first [ reflexivity
        | eexists; split; [|reflexivity]; discriminate ].

Lemma runs_steps_main_client sciondAddr src dst :
  runs_steps (main_client sciondAddr src dst) client_steps /\
  never_exits (main_client sciondAddr src dst).
Proof.
  split; intros w;
    unfold main_client, ThisClientAndMeta, NewClient, Client_HostKey, Connect,
      DRKeyGetLvl2Key, check, panic, time_Since, time_Now_, fmt_Printf, emit,
      mbind, Go_bind, mret, Go_ret, client_steps;
    destruct (sciond_Connect (ext w) sciondAddr) as [e1 [sd [e|]]];
    cbn [ext events mem final_world Client_sciond]; try exact Logic.I;
    try steps_done;
    destruct (time_Now e1) as [e2 t0]; cbn [ext events mem];
    destruct (time_Now e2) as [e3 t1]; cbn [ext events mem];
    (destruct sd as [c|]; [|first [exact Logic.I | steps_done]]);
    destruct (Connector_DRKeyGetLvl2Key e3 c _ _ _) as [e4 [clientKey [e|]]];
    cbn [ext events mem final_world]; try exact Logic.I; try steps_done;
    destruct (time_Now e4) as [e5 t2]; cbn [ext events mem final_world];
    first [exact Logic.I | steps_done].
Qed.

Lemma main_client_returns sciondAddr src dst (w w' : World) (u : unit) :
  main_client sciondAddr src dst w = Returns u w' ->
  client_role_run sciondAddr src dst w w'.
Proof.
  unfold main_client, ThisClientAndMeta, NewClient, Client_HostKey, Connect,
    DRKeyGetLvl2Key, check, panic, time_Since, time_Now_, fmt_Printf, emit,
    mbind, Go_bind, mret, Go_ret, client_role_run, host_meta.
  destruct (sciond_Connect (ext w) sciondAddr) as [e1 [sd [e|]]] eqn:Hc;
    [discriminate|]. cbn [ext events mem Client_sciond].
  destruct (time_Now e1) as [e2 t0] eqn:Hn0. cbn [ext events mem].
  destruct (time_Now e2) as [e3 t1] eqn:Hn1. cbn [ext events mem].
  destruct sd as [c|]; [|discriminate].
  destruct (Connector_DRKeyGetLvl2Key e3 c _ _ _) as [e4 [clientKey [e|]]]
    eqn:Hk; [discriminate|]. cbn [ext events mem].
  destruct (time_Now e4) as [e5 t2] eqn:Hn2. cbn [ext events mem].
  intros [= <- <-].
  exists e1, e2, e3, e4, c, t0, t1, t2, clientKey. cbn [ext events mem].
  rewrite <- !app_assoc. repeat split; try assumption; reflexivity.
Qed.

Lemma HostKeyFromDS_quiet (s : Server) (meta : drkey.Lvl2Meta.t)
    (ds : drkey.DelegationSecret.t) (w : World) :
  match Server_HostKeyFromDS s meta ds w with
  | Returns k w' =>
      w' = w /\
      exists d derive,
        KnownDerivations !! "piskes" = Some d /\
        protocol.DeriveLvl2FromDS d = Some derive /\
        derive meta ds = (k, None)
  | Panics _ w' => w' = w
  | Exits _ _ => False
  end.
Proof.
  unfold Server_HostKeyFromDS, check, panic, mbind, Go_bind, mret, Go_ret.
  destruct (KnownDerivations !! "piskes") as [d|] eqn:Hreg; [|reflexivity].
  destruct (protocol.DeriveLvl2FromDS d) as [derive|] eqn:Hdel; [|reflexivity].
  destruct (derive meta ds) as [derived [e|]] eqn:Hder; [reflexivity|].
  split; [reflexivity|]. exists d, derive. repeat split; assumption.
Qed.

Lemma main_server_run sciondAddr src dst (w : World) :
  main_server sciondAddr src dst w =
  match sciond_Connect (ext w) sciondAddr with
  | (e1, (sd, Some e)) =>
      Panics (Sprintf "Fatal error: %v" e)
        (mkWorld e1 (events w ++ [EvConnect sciondAddr]) (mem w))
  | (e1, (sd, None)) =>
      match
        Server_dsForServer (mkServer sd) (host_meta src dst)
          (mkWorld e1 (events w ++ [EvConnect sciondAddr]) (mem w))
      with
      | Returns ds w2 =>
          match Server_HostKeyFromDS (mkServer sd) (host_meta src dst) ds
                  (mkWorld (time_Now (ext w2)).1 (events w2) (mem w2))
          with
          | Returns serverKey w3 =>
              Returns tt
                (mkWorld (time_Now (ext w3)).1
                   (events w3 ++
                    [EvPrintf "Server: key = %s, epoch = %s, duration = %s\n"
                       [ArgHex (drkey.Lvl2Key.Key serverKey);
                        ArgEpoch (drkey.DelegationSecret.Epoch ds);
                        ArgDuration
                          (time.Time_Sub (time_Now (ext w3)).2
                             (time_Now (ext w2)).2)]])
                   (mem w3))
          | Panics v w3 => Panics v w3
          | Exits c w3 => Exits c w3
          end
      | Panics v w2 => Panics v w2
      | Exits c w2 => Exits c w2
      end
  end.
Proof.
  unfold main_server, ThisServerAndMeta, NewServer, Connect, check, panic,
    time_Since, time_Now_, fmt_Printf, emit, mbind, Go_bind, mret, Go_ret,
    host_meta.
  destruct (sciond_Connect (ext w) sciondAddr) as [e1 [sd [e|]]];
    [reflexivity|].
  destruct (Server_dsForServer _ _ _) as [ds w2|v w2|c w2];
    [|reflexivity|reflexivity].
  destruct (time_Now (ext w2)) as [e0 t0]. cbn [fst snd].
  destruct (Server_HostKeyFromDS _ _ _ _) as [k w3|v w3|c w3];
    [|reflexivity|reflexivity].
  destruct (time_Now (ext w3)) as [e3 t1]. reflexivity.
Qed.

Lemma runs_steps_main_server sciondAddr src dst :
  runs_steps (main_server sciondAddr src dst) server_steps /\
  never_exits (main_server sciondAddr src dst).
Proof.
  split; intros w; rewrite main_server_run; unfold server_steps;
    (destruct (sciond_Connect (ext w) sciondAddr) as [e1 [sd [e|]]];
     [cbn [final_world events]; first [exact Logic.I | steps_done]|]);
    match goal with
    | |- context [Server_dsForServer ?s ?m ?w0] =>
        pose proof (dsForServer_cases s m w0) as Hc
    end;
    cbv zeta in Hc; unfold host_meta at 1 2 3 in Hc;
    cbn [Server_sciond ext events mem drkey.Lvl2Meta.Protocol
         drkey.Lvl2Meta.SrcIA drkey.Lvl2Meta.DstIA] in Hc.
  all: destruct sd as [c|].
  all: try (destruct Hc as [Ha He];
            destruct (Server_dsForServer _ _ _) as [ds w2|v w2|c2 w2];
            try contradiction; cbn [final_world] in He |- *;
            first [ exact Logic.I
                  | rewrite He; steps_done ]).
  all: destruct (Connector_DRKeyGetLvl2Key _ c _ _ _) as [e3 [k1 [e|]]];
    try (rewrite Hc; cbn [final_world events take ds_events ds_request ds_line];
         first [exact Logic.I | steps_done]).
  all: destruct (Connector_DRKeyGetLvl2Key e3 c _ _ _) as [e4 [k2 [e|]]];
    try (rewrite Hc; cbn [final_world events take ds_events ds_request ds_line];
         first [exact Logic.I | steps_done]).
  all: destruct (Connector_DRKeyGetLvl2Key e4 c _ _ _) as [e5 [k3 [e|]]];
    try (rewrite Hc; cbn [final_world events take ds_events ds_request ds_line];
         first [exact Logic.I | steps_done]).
  all: rewrite Hc; cbn [ext events mem].
  all: match goal with
       | |- context [Server_HostKeyFromDS ?s ?m ?ds ?w0] =>
           pose proof (HostKeyFromDS_quiet s m ds w0) as Hq;
           destruct (Server_HostKeyFromDS s m ds w0) as [k w3|v w3|c3 w3]
       end; try contradiction.
  all: match type of Hq with
       | _ /\ _ => destruct Hq as [Hq _]
       | _ => idtac
       end; try rewrite Hq;
    cbn [final_world ext events mem ds_events ds_request ds_line];
    first [exact Logic.I | steps_done].
Qed.

Lemma main_server_returns sciondAddr src dst (w w' : World) (u : unit) :
  main_server sciondAddr src dst w = Returns u w' ->
  server_role_run sciondAddr src dst w w'.
Proof.
  rewrite main_server_run.
  destruct (sciond_Connect (ext w) sciondAddr) as [e1 [sd [e|]]] eqn:Hconn;
    [discriminate|].
  match goal with
  | |- context [Server_dsForServer ?s ?m ?w0] =>
      pose proof (dsForServer_cases s m w0) as Hc
  end.
  cbv zeta in Hc. unfold host_meta at 1 2 3 in Hc.
  cbn [Server_sciond ext events mem drkey.Lvl2Meta.Protocol
       drkey.Lvl2Meta.SrcIA drkey.Lvl2Meta.DstIA] in Hc.
  destruct sd as [c|].
  2:{ destruct Hc as [Ha _].
      destruct (Server_dsForServer _ _ _); [contradiction|discriminate..]. }
  destruct (time_Now e1) as [e2 t] eqn:Hn. cbn [fst snd] in Hc.
  destruct (Connector_DRKeyGetLvl2Key e2 c _ _ _) as [e3 [k1 [e|]]] eqn:H1;
    [rewrite Hc; discriminate|].
  destruct (Connector_DRKeyGetLvl2Key e3 c _ _ _) as [e4 [k2 [e|]]] eqn:H2;
    [rewrite Hc; discriminate|].
  destruct (Connector_DRKeyGetLvl2Key e4 c _ _ _) as [e5 [k3 [e|]]] eqn:H3;
    [rewrite Hc; discriminate|].
  rewrite Hc. cbn [ext events mem].
  destruct (time_Now e5) as [e6 t0] eqn:Hn0. cbn [fst snd].
  match goal with
  | |- context [Server_HostKeyFromDS ?s ?m ?ds ?w0] =>
      pose proof (HostKeyFromDS_quiet s m ds w0) as Hq;
      destruct (Server_HostKeyFromDS s m ds w0) as [k w3|v w3|c3 w3]
  end; [|discriminate|contradiction].
  destruct Hq as (-> & d & derive & Hreg & Hdel & Hder).
  cbn [ext events mem].
  destruct (time_Now e6) as [e7 t1] eqn:Hn1. cbn [fst snd].
  intros [= <- <-].
  exists e1, e2, e3, e4, e5, e6, c, t, t0, t1, k1, k2, k3, d, derive, k.
  cbv zeta. cbn [ext events mem drkey.DelegationSecret.Epoch delegation_secret_of].
  rewrite <- !app_assoc.
  repeat split; try assumption; reflexivity.
Qed.

Lemma runs_steps_roles (c s : bool) sciondAddr src dst :
  runs_steps
    ((if c then main_client sciondAddr src dst else mret tt);;
     (if s then main_server sciondAddr src dst else mret tt))
    (expected_steps c s).
Proof.
  unfold expected_steps. apply runs_steps_then.
  - destruct c; [apply runs_steps_main_client | apply runs_steps_skip].
  - destruct c; [apply runs_steps_main_client | apply never_exits_skip].
  - destruct s; [apply runs_steps_main_server | apply runs_steps_skip].
  - destruct s; [apply runs_steps_main_server | apply never_exits_skip].
Qed.

Lemma main_steps (clientRole serverRole : bool)
    (sciondAddr srcAddr dstAddr : string) (w : World) :
  let run := main clientRole serverRole sciondAddr srcAddr dstAddr w in
  exists added : list Event,
    events (final_world run) = (events w ++ added)%list /\
    steps_by_ending run added
      (expected_steps (default_roles clientRole serverRole).1
         (default_roles clientRole serverRole).2).
Proof.
  cbv zeta. unfold main.
  destruct (default_roles clientRole serverRole) as [c s].
  destruct (addrFromString srcAddr) as [src [e|]]; cbn [fst snd].
  { exists [EvPrintln e; EvPrintDefaults]. unfold exit_on_error, emit, os_Exit,
      mbind, Go_bind. cbn [ext events mem final_world steps_by_ending].
    split; [now rewrite <- app_assoc | reflexivity]. }
  destruct (addrFromString dstAddr) as [dst [e|]].
  { exists [EvPrintln e; EvPrintDefaults]. unfold exit_on_error, emit, os_Exit,
      mbind, Go_bind, mret, Go_ret.
    cbn [ext events mem final_world steps_by_ending].
    split; [now rewrite <- app_assoc | reflexivity]. }
  exact (runs_steps_roles c s sciondAddr src dst w).
Qed.

Lemma main_returns (clientRole serverRole : bool)
    (sciondAddr srcAddr dstAddr : string) (w : World) :
  let run := main clientRole serverRole sciondAddr srcAddr dstAddr w in
  returned run ->
  exists (src dst : snet.SCIONAddress) (w1 : World),
    addrFromString srcAddr = (src, None) /\
    addrFromString dstAddr = (dst, None) /\
    (if (default_roles clientRole serverRole).1
     then client_role_run sciondAddr src dst w w1 else w1 = w) /\
    (if (default_roles clientRole serverRole).2
     then server_role_run sciondAddr src dst w1 (final_world run)
     else final_world run = w1).
Proof.
  cbv zeta. unfold main.
  destruct (default_roles clientRole serverRole) as [c s].
  destruct (addrFromString srcAddr) as [src [e|]]; cbn [fst snd];
    [intros []|].
  destruct (addrFromString dstAddr) as [dst [e|]]; [intros []|].
  unfold exit_on_error, mbind, Go_bind, mret, Go_ret.
  intros Hret. exists src, dst.
  destruct c.
  - destruct (main_client sciondAddr src dst w) as [u w1|v w1|x w1] eqn:Hcl;
      [|destruct Hret..].
    exists w1. repeat split. { exact (main_client_returns _ _ _ _ _ _ Hcl). }
    destruct s; [|reflexivity].
    destruct (main_server sciondAddr src dst w1) as [u2 w2|v w2|x w2] eqn:Hsv;
      [|destruct Hret..].
    exact (main_server_returns _ _ _ _ _ _ Hsv).
  - exists w. repeat split.
    destruct s; [|reflexivity].
    destruct (main_server sciondAddr src dst w) as [u2 w2|v w2|x w2] eqn:Hsv;
      [|destruct Hret..].
    exact (main_server_returns _ _ _ _ _ _ Hsv).
Qed.

(** C8, as the code has it: with neither flag both roles are enabled, with
    one flag only that role.  A run that reaches its end has made exactly
    the steps of the enabled roles, each role once, the client before the
    server, and nothing else: from the world the client role left (or
    from the start, if it is not enabled) the server role leads to the
    final world (or nothing happens, if it is not enabled).  A run that a
    panic cuts short stopped inside an enabled role, with an initial part
    of these steps made and at least one still to come; a run that exits
    over a rejected address made none of them. *)
Theorem main_roles (clientRole serverRole : bool)
    (sciondAddr srcAddr dstAddr : string) (w : World) :
  let run := main clientRole serverRole sciondAddr srcAddr dstAddr w in
  let client := (default_roles clientRole serverRole).1 in
  let server := (default_roles clientRole serverRole).2 in
  let completed (rs : list Role) :=
    roles_completed (events (final_world run)) =
    (roles_completed (events w) ++ rs)%list in
  (default_roles false false = (true, true) /\
   default_roles true false = (true, false) /\
   default_roles false true = (false, true)) /\
  (returned run ->
   (clientRole = false -> serverRole = false ->
    completed [RoleClient; RoleServer]) /\
   (clientRole = true -> serverRole = false -> completed [RoleClient]) /\
   (clientRole = false -> serverRole = true -> completed [RoleServer])) /\
  (exists done : list Role,
     completed done /\ done `prefix_of` expected_roles client server) /\
  (exists added : list Event,
     events (final_world run) = (events w ++ added)%list /\
     steps_by_ending run added (expected_steps client server)) /\
  (returned run ->
   exists (src dst : snet.SCIONAddress) (w1 : World),
     addrFromString srcAddr = (src, None) /\
     addrFromString dstAddr = (dst, None) /\
     (if client then client_role_run sciondAddr src dst w w1 else w1 = w) /\
     (if server then server_role_run sciondAddr src dst w1 (final_world run)
      else final_world run = w1)).
Proof.
  cbv zeta. split; [repeat split|].
  destruct (runs_roles_main clientRole serverRole sciondAddr srcAddr dstAddr w)
    as (done & E & P & R).
  split; [|split; [|split]].
  - intros Hret. rewrite E, (R Hret).
    repeat split; intros -> ->; reflexivity.
  - exists done. split; assumption.
  - apply main_steps.
  - apply main_returns.
Qed.

End DriverProperties.

Lemma main_roles_witness :
  let run :=
    @main demo.addr_lib (demo.platform true 16) false false "127.0.0.1:30255"
      "1-ff00:0:111,[127.0.0.1]" "1-ff00:0:112,[fd00:f00d:cafe::7f00:a]"
      (demo.world true 16) in
  returned run /\
  roles_completed (events (final_world run)) = [RoleClient; RoleServer] /\
  step_of <$> events (final_world run) = (client_steps ++ server_steps)%list.
Proof.
  intros run.
  assert (Hret : returned run) by (vm_compute; exact Logic.I).
  split; [exact Hret|].
  destruct (@main_roles demo.addr_lib (demo.platform true 16) false false
              "127.0.0.1:30255" "1-ff00:0:111,[127.0.0.1]"
              "1-ff00:0:112,[fd00:f00d:cafe::7f00:a]" (demo.world true 16))
    as (_ & Hdone & _ & (added & Hev & Hsteps) & _).
  split.
  - destruct (Hdone Hret) as (Hboth & _). exact (Hboth eq_refl eq_refl).
  - fold run in Hev, Hsteps. rewrite Hev.
    destruct run; [|destruct Hret..]. exact Hsteps.
Defined.

(** With neither flag given and the daemon refusing the connection, the
    client role panics in its first step and the server role never
    starts: the only event of the run is the client's connection attempt. *)
Lemma main_default_roles_daemon_down :
  let run :=
    @main demo.addr_lib (demo.platform false 16) false false "127.0.0.1:30255"
      "1-ff00:0:111,[127.0.0.1]" "1-ff00:0:112,[fd00:f00d:cafe::7f00:a]"
      (demo.world false 16) in
  run = Panics (Sprintf "Fatal error: %v" (ExtError "connection refused"))
          (mkWorld (ext (demo.world false 16)) [EvConnect "127.0.0.1:30255"]
             (mem (demo.world false 16))) /\
  roles_completed (events (final_world run)) <> [RoleClient; RoleServer].
Proof.
  intros run.
  assert (Hrun : run =
            Panics (Sprintf "Fatal error: %v" (ExtError "connection refused"))
              (mkWorld (ext (demo.world false 16)) [EvConnect "127.0.0.1:30255"]
                 (mem (demo.world false 16)))) by reflexivity.
  split; [exact Hrun|]. rewrite Hrun. simpl. discriminate.
Qed.

(** ** The two C callers *)

Lemma load_bytes_app (m : Mem) (n1 n2 : nat) :
  forall a,
    load_bytes m a (n1 + n2) =
    (load_bytes m a n1 ++ load_bytes m (a + Z.of_nat n1) n2)%list.
Proof.
  induction n1 as [|n1 IH]; intros a.
  - simpl. now rewrite Z.add_0_r.
  - cbn [Nat.add load_bytes app]. rewrite IH. do 3 f_equal. lia.
Qed.

Lemma nth_load_bytes (m : Mem) (a : Z) (n i : nat) :
  (i < n)%nat -> nth i (load_bytes m a n) 0 = m (a + Z.of_nat i).
Proof.
  intros Hi. apply nth_lookup_Some with (d := 0), lookup_load_bytes, Hi.
Qed.

(** Storing fewer bytes than the window holds leaves the tail of the
    window as it was. *)
Lemma load_store_prefix (m : Mem) (a : Z) (bs : list Z) (n : nat) :
  (length bs <= n)%nat ->
  load_bytes (store_bytes m a bs) a n =
  (bs ++ drop (length bs) (load_bytes m a n))%list.
Proof.
  intros Hn. replace n with (length bs + (n - length bs))%nat by lia.
  rewrite !load_bytes_app, load_store_same.
  rewrite drop_app_length'. 2:{ now rewrite length_load_bytes. }
  f_equal. apply load_store_other. unfold ranges_disjoint. lia.
Qed.

Section CallerProperties.
Context {AL : AddrLib} {PF : Platform}.

Lemma GetDelegationSecretPacked_discrete (sciondAddr : string)
    (srcIA dstIA valTime : Z) (ds : Z) :
  GetDelegationSecretPacked sciondAddr srcIA dstIA valTime ds =
  GetDelegationSecret sciondAddr srcIA dstIA valTime ds (ds + 8) (ds + 16).
Proof. reflexivity. Qed.

(** The struct, or the buffer, after a successful fetch. *)
Lemma shim_world_layout (w : World) (sciondAddr : string)
    (srcIA dstIA valTime : Z) (p : Z) (e2 : ExtState) (k : drkey.Lvl2Key.t) :
  load_bytes
    (mem (shim_world w sciondAddr srcIA dstIA valTime p (p + 8) (p + 16) e2 k))
    p 32 =
  packed_layout k (load_bytes (mem w) p 32).
Proof.
  unfold shim_world, packed_layout, copy_mem. cbn [mem].
  set (n := Nat.min 16 (length (drkey.Lvl2Key.Key k))).
  set (E1 := encode_int64 byte_order _). set (E2 := encode_int64 byte_order _).
  assert (L1 : length E1 = 8%nat) by apply length_encode_int64.
  assert (L2 : length E2 = 8%nat) by apply length_encode_int64.
  assert (Ln : length (take n (drkey.Lvl2Key.Key k)) = n)
    by (rewrite length_take; unfold n; lia).
  change 32%nat with (8 + (8 + 16))%nat.
  rewrite !load_bytes_app. change (Z.of_nat 8) with 8.
  replace (p + 8 + 8) with (p + 16) by lia.
  f_equal; [|f_equal].
  - rewrite !load_store_other by (unfold ranges_disjoint; lia).
    now apply load_store_same_n.
  - rewrite load_store_other by (unfold ranges_disjoint; lia).
    now apply load_store_same_n.
  - rewrite load_store_prefix by (rewrite Ln; unfold n; lia).
    rewrite Ln. f_equal.
    rewrite !load_store_other by (unfold ranges_disjoint; lia).
    rewrite <- (drop_drop _ n 16), app_assoc.
    rewrite drop_app_length'
      by (now rewrite length_app, !length_load_bytes). reflexivity.
Qed.


Lemma read_t_now_cases (w : World) :
  read_t_now w =
  let w' := mkWorld (gettimeofday (ext w)).1 (events w) (mem w) in
  let r := (gettimeofday (ext w)).2.1 in
  let tv_sec := (gettimeofday (ext w)).2.2 in
  if negb (r =? 0) then
    if r =? -1 then
      Exits EXIT_FAILURE
        (mkWorld (ext w')
           (events w ++ [EvPrintf "Syscall gettimeofday failed.\n" []]) (mem w))
    else Panics (AssertionFailed "r == -1") w'
  else if (INT64_MIN <=? tv_sec) && (tv_sec <=? INT64_MAX) then
    Returns tv_sec w'
  else
    Panics
      (AssertionFailed "(INT64_MIN <= tv.tv_sec) && (tv.tv_sec <= INT64_MAX)") w'.
Proof.
  unfold read_t_now, c_gettimeofday, assert, printf, emit, os_Exit, panic,
    mbind, Go_bind, mret, Go_ret.
  destruct (gettimeofday (ext w)) as [e' [r tv_sec]]. cbn [fst snd].
  destruct (negb (r =? 0)).
  - destruct (r =? -1); reflexivity.
  - destruct ((INT64_MIN <=? tv_sec) && (tv_sec <=? INT64_MAX)); reflexivity.
Qed.

Lemma for_each_print_bytes (p : Z) (n : nat) :
  forall (i : nat) (w : World),
    for_each (seq i n)
      (fun i => b ← load_byte (p + Z.of_nat i); printf "%02x" [b]) w =
    Returns tt
      (mkWorld (ext w)
         (events w ++
          ((fun b => EvPrintf "%02x" [ArgInt b]) <$>
           load_bytes (mem w) (p + Z.of_nat i) n))
         (mem w)).
Proof.
  induction n as [|n IH]; intros i w.
  - simpl. rewrite app_nil_r. now destruct w.
  - cbn [seq for_each]. unfold mbind at 1, Go_bind at 1.
    unfold mbind at 1, Go_bind at 1, load_byte at 1, printf at 1, emit at 1.
    rewrite IH. cbn [ext events mem load_bytes fmap list_fmap].
    rewrite <- app_assoc. cbn [app].
    replace (p + Z.of_nat i + 1) with (p + Z.of_nat (S i)) by lia.
    reflexivity.
Qed.

Lemma print_delegation_secret_run (ds : Z) (w : World) :
  print_delegation_secret ds w =
  Returns tt
    (mkWorld (ext w)
       (events w ++
        printed_secret (load_bytes (mem w) ds 8) (load_bytes (mem w) (ds + 8) 8)
          (load_bytes (mem w) (ds + 16) 16))
       (mem w)).
Proof.
  unfold print_delegation_secret, print_gmtime, printed_secret, gmtime_events,
    off_key, off_validity_not_before, off_validity_not_after.
  unfold mbind at 1, Go_bind at 1, printf at 1, emit at 1.
  unfold mbind at 1, Go_bind at 1. rewrite for_each_print_bytes.
  unfold load_int64, printf, emit, mbind, Go_bind, mret, Go_ret.
  cbn [ext events mem]. rewrite !Z.add_0_r.
  destruct (gmtime (decode_int64 byte_order (load_bytes (mem w) ds 8)));
    cbn [ext events mem];
    destruct (gmtime (decode_int64 byte_order (load_bytes (mem w) (ds + 8) 8)));
    cbn [ext events mem]; rewrite <- ?app_assoc; reflexivity.
Qed.


Lemma load_bytes_fields (m1 m2 : Mem) (p q : Z) :
  load_bytes m1 p 32 = load_bytes m2 q 32 ->
  load_bytes m1 p 8 = load_bytes m2 q 8 /\
  load_bytes m1 (p + 8) 8 = load_bytes m2 (q + 8) 8 /\
  load_bytes m1 (p + 16) 16 = load_bytes m2 (q + 16) 16.
Proof.
  intros E. pose proof (proj1 (load_bytes_eq m1 m2 p q 32) E) as Hp.
  repeat split; apply load_bytes_eq; intros i Hi.
  - apply Hp. lia.
  - specialize (Hp (8 + i)%nat ltac:(lia)).
    rewrite Nat2Z.inj_add, !Z.add_assoc in Hp. exact Hp.
  - specialize (Hp (16 + i)%nat ltac:(lia)).
    rewrite Nat2Z.inj_add, !Z.add_assoc in Hp. exact Hp.
Qed.

Lemma hellolibdrkey_main_run (ds : Z) (w : World) :
  hellolibdrkey_main ds w =
  match read_t_now w with
  | Returns t_now w0 =>
      match
        GetDelegationSecret "127.0.0.1:30255" 0x0011ffaa00010d69
          0x0011ffaa00010e97 t_now ds (ds + 8) (ds + 16)
          (mkWorld (ext w0) (events w0)
             (store_bytes (mem w0) ds (replicate 32 0)))
      with
      | Returns _ w1 =>
          Returns 0
            (mkWorld (ext w1)
               (events w1 ++
                printed_secret (load_bytes (mem w1) ds 8)
                  (load_bytes (mem w1) (ds + 8) 8)
                  (load_bytes (mem w1) (ds + 16) 16))
               (mem w1))
      | Panics v w1 => Panics v w1
      | Exits c w1 => Exits c w1
      end
  | Panics v w0 => Panics v w0
  | Exits c w0 => Exits c w0
  end.
Proof.
  unfold hellolibdrkey_main, off_validity_not_before, off_validity_not_after,
    off_key, sizeof_delegation_secret.
  unfold mbind at 1, Go_bind at 1.
  destruct (read_t_now w) as [t_now w0| |]; [|reflexivity|reflexivity].
  unfold mbind at 1, Go_bind at 1, memset at 1.
  unfold mbind at 1, Go_bind at 1, assert at 1. cbn [Z.eqb Pos.eqb].
  unfold mbind at 1, Go_bind at 1, assert at 1. cbn [Z.eqb Pos.eqb].
  unfold mret at 1 2, Go_ret at 1 2.
  unfold mbind at 1, Go_bind at 1. rewrite Z.add_0_r.
  destruct (GetDelegationSecret _ _ _ _ _ _ _ _) as [u w1| |];
    [|reflexivity|reflexivity].
  unfold mbind at 1, Go_bind at 1. rewrite print_delegation_secret_run.
  reflexivity.
Qed.

Lemma packed_main_run (ds ds_buf : Z) (w : World) :
  packed_main ds ds_buf w =
  match read_t_now w with
  | Returns t_now w0 =>
      match
        GetDelegationSecret "127.0.0.1:30255" 0x0011ffaa00010d69
          0x0011ffaa00010e97 t_now ds_buf (ds_buf + 8) (ds_buf + 16)
          (mkWorld (ext w0) (events w0)
             (store_bytes (mem w0) ds_buf (replicate 32 0)))
      with
      | Returns _ w1 =>
          let m1 := store_bytes (mem w1) ds (load_bytes (mem w1) ds_buf 8) in
          let m2 :=
            store_bytes m1 (ds + 8) (load_bytes m1 (ds_buf + 8) 8) in
          let m3 :=
            store_bytes m2 (ds + 16) (load_bytes m2 (ds_buf + 16) 16) in
          Returns 0
            (mkWorld (ext w1)
               (events w1 ++
                printed_secret (load_bytes m3 ds 8) (load_bytes m3 (ds + 8) 8)
                  (load_bytes m3 (ds + 16) 16))
               m3)
      | Panics v w1 => Panics v w1
      | Exits c w1 => Exits c w1
      end
  | Panics v w0 => Panics v w0
  | Exits c w0 => Exits c w0
  end.
Proof.
  unfold packed_main, off_validity_not_before, off_validity_not_after, off_key.
  unfold mbind at 1, Go_bind at 1.
  destruct (read_t_now w) as [t_now w0| |]; [|reflexivity|reflexivity].
  unfold mbind at 1, Go_bind at 1, memset at 1.
  rewrite GetDelegationSecretPacked_discrete.
  unfold mbind at 1, Go_bind at 1. change (8 + 8 + 16)%nat with 32%nat.
  destruct (GetDelegationSecret _ _ _ _ _ _ _ _) as [u w1| |];
    [|reflexivity|reflexivity].
  cbv zeta.
  unfold mbind at 1, Go_bind at 1, memcpy at 1.
  unfold mbind at 1, Go_bind at 1, memcpy at 1.
  unfold mbind at 1, Go_bind at 1, memcpy at 1.
  unfold mbind at 1, Go_bind at 1. rewrite print_delegation_secret_run.
  cbn [ext events mem]. rewrite !Z.add_0_r.
  change (0 + 8) with 8. change (8 + 8) with 16. reflexivity.
Qed.


(** The three [memcpy] calls move the buffer into the struct unchanged. *)
Lemma memcpy_fields (m : Mem) (ds ds_buf : Z) :
  ranges_disjoint ds 32 ds_buf 32 ->
  let m1 := store_bytes m ds (load_bytes m ds_buf 8) in
  let m2 := store_bytes m1 (ds + 8) (load_bytes m1 (ds_buf + 8) 8) in
  let m3 := store_bytes m2 (ds + 16) (load_bytes m2 (ds_buf + 16) 16) in
  load_bytes m3 ds 32 = load_bytes m ds_buf 32 /\
  load_bytes m3 ds_buf 32 = load_bytes m ds_buf 32.
Proof.
  intros D m1 m2 m3. unfold ranges_disjoint in D. split.
  - change 32%nat with (8 + (8 + 16))%nat.
    rewrite !load_bytes_app. change (Z.of_nat 8) with 8.
    replace (ds + 8 + 8) with (ds + 16) by lia.
    replace (ds_buf + 8 + 8) with (ds_buf + 16) by lia.
    subst m3 m2 m1. f_equal; [|f_equal].
    + rewrite !load_store_other
        by (rewrite length_load_bytes; unfold ranges_disjoint; lia).
      apply load_store_same_n, length_load_bytes.
    + rewrite load_store_other
        by (rewrite length_load_bytes; unfold ranges_disjoint; lia).
      rewrite load_store_same_n by apply length_load_bytes.
      apply load_store_other.
      rewrite length_load_bytes; unfold ranges_disjoint; lia.
    + rewrite load_store_same_n by apply length_load_bytes.
      rewrite !load_store_other
        by (rewrite length_load_bytes; unfold ranges_disjoint; lia).
      reflexivity.
  - subst m3 m2 m1.
    rewrite !load_store_other
      by (rewrite length_load_bytes; unfold ranges_disjoint; lia).
    reflexivity.
Qed.

Lemma shim_variants_agree (sciondAddr : string) (srcIA dstIA valTime : Z)
    (p q : Z) (w1 w2 : World) :
  ext w1 = ext w2 -> events w1 = events w2 ->
  load_bytes (mem w1) p 32 = load_bytes (mem w2) q 32 ->
  match
    GetDelegationSecret sciondAddr srcIA dstIA valTime p (p + 8) (p + 16) w1,
    GetDelegationSecretPacked sciondAddr srcIA dstIA valTime q w2
  with
  | Returns _ w1', Returns _ w2' =>
      ext w1' = ext w2' /\ events w1' = events w2' /\
      load_bytes (mem w2') q 32 = load_bytes (mem w1') p 32
  | Panics v1 w1', Panics v2 w2' =>
      v1 = v2 /\ ext w1' = ext w2' /\ events w1' = events w2'
  | _, _ => False
  end.
Proof.
  intros Hext Hev Hmem. rewrite GetDelegationSecretPacked_discrete.
  pose proof (GetDelegationSecret_cases sciondAddr srcIA dstIA valTime
                p (p + 8) (p + 16) w1) as H1.
  pose proof (GetDelegationSecret_cases sciondAddr srcIA dstIA valTime
                q (q + 8) (q + 16) w2) as H2.
  rewrite <- Hext, <- Hev in H2.
  destruct (sciond_Connect (ext w1) sciondAddr) as [e1 [[c|] [e|]]];
    try (rewrite H1, H2; repeat split; reflexivity).
  destruct (Connector_DRKeyGetLvl2Key e1 c 10000000000 _ _)
    as [e2 [k [e|]]]; rewrite H1, H2; [repeat split; reflexivity|].
  split; [reflexivity|]. split; [reflexivity|].
  fold (shim_world w1 sciondAddr srcIA dstIA valTime p (p + 8) (p + 16) e2 k).
  rewrite Hev.
  fold (shim_world w2 sciondAddr srcIA dstIA valTime q (q + 8) (q + 16) e2 k).
  rewrite !shim_world_layout. now rewrite Hmem.
Qed.

(** C7: run against the same daemon, from the same prior buffer contents,
    the discrete-pointer entry point (called with the addresses of the
    three fields of a struct) and the packed-buffer entry point end the
    same way and leave the same 32 bytes, hence the same three field
    values; and the two C programs built on them end the same way, print
    the same lines, and hold the same struct. *)
Theorem packed_and_discrete_agree :
  (forall (sciondAddr : string) (srcIA dstIA valTime : Z) (p q : Z)
          (w1 w2 : World),
     ext w1 = ext w2 -> events w1 = events w2 ->
     load_bytes (mem w1) p 32 = load_bytes (mem w2) q 32 ->
     let o1 :=
       GetDelegationSecret sciondAddr srcIA dstIA valTime p (p + 8) (p + 16) w1 in
     let o2 := GetDelegationSecretPacked sciondAddr srcIA dstIA valTime q w2 in
     same_observation o1 o2 /\
     (returned o1 ->
      load_bytes (mem (final_world o2)) q 32 =
        load_bytes (mem (final_world o1)) p 32 /\
      decode_int64 byte_order (load_bytes (mem (final_world o2)) q 8) =
        decode_int64 byte_order (load_bytes (mem (final_world o1)) p 8) /\
      decode_int64 byte_order (load_bytes (mem (final_world o2)) (q + 8) 8) =
        decode_int64 byte_order (load_bytes (mem (final_world o1)) (p + 8) 8) /\
      load_bytes (mem (final_world o2)) (q + 16) 16 =
        load_bytes (mem (final_world o1)) (p + 16) 16)) /\
  (forall (ds1 ds2 ds_buf : Z) (w1 w2 : World),
     ext w1 = ext w2 -> events w1 = events w2 ->
     ranges_disjoint ds2 32 ds_buf 32 ->
     let o1 := hellolibdrkey_main ds1 w1 in
     let o2 := packed_main ds2 ds_buf w2 in
     same_observation o1 o2 /\
     (returned o1 ->
      load_bytes (mem (final_world o2)) ds2 32 =
        load_bytes (mem (final_world o1)) ds1 32 /\
      load_bytes (mem (final_world o2)) ds_buf 32 =
        load_bytes (mem (final_world o1)) ds1 32)).
Proof.
  split.
  - intros sciondAddr srcIA dstIA valTime p q w1 w2 Hext Hev Hmem o1 o2.
    pose proof (shim_variants_agree sciondAddr srcIA dstIA valTime p q w1 w2
                  Hext Hev Hmem) as Hs.
    fold o1 o2 in Hs.
    destruct o1 as [u1 w1'|v1 w1'|c1 w1'], o2 as [u2 w2'|v2 w2'|c2 w2'];
      try contradiction.
    + destruct Hs as (He & Hv & Hb). split.
      * repeat split; [now destruct u1, u2 | assumption | assumption].
      * intros _. cbn [final_world].
        destruct (load_bytes_fields _ _ _ _ Hb) as (F1 & F2 & F3).
        rewrite F1, F2, F3. repeat split; assumption.
    + split; [exact Hs | intros []].
  - intros ds1 ds2 ds_buf w1 w2 Hext Hev D o1 o2. subst o1 o2.
    rewrite hellolibdrkey_main_run, packed_main_run, !read_t_now_cases.
    rewrite <- Hext, <- Hev. cbv zeta.
    destruct (gettimeofday (ext w1)) as [e' [r tv_sec]]. cbn [fst snd ext].
    destruct (negb (r =? 0)).
    { destruct (r =? -1); (split; [repeat split | intros []]). }
    destruct ((INT64_MIN <=? tv_sec) && (tv_sec <=? INT64_MAX));
      [|split; [repeat split | intros []]].
    cbn [ext events mem].
    pose proof (shim_variants_agree "127.0.0.1:30255" 0x0011ffaa00010d69
                  0x0011ffaa00010e97 tv_sec ds1 ds_buf
                  (mkWorld e' (events w1)
                     (store_bytes (mem w1) ds1 (replicate 32 0)))
                  (mkWorld e' (events w1)
                     (store_bytes (mem w2) ds_buf (replicate 32 0)))
                  eq_refl eq_refl) as Hs.
    cbn [mem] in Hs.
    rewrite !load_store_same_n in Hs by reflexivity.
    specialize (Hs eq_refl).
    rewrite GetDelegationSecretPacked_discrete in Hs.
    destruct (GetDelegationSecret _ _ _ _ ds1 _ _ _) as [u1 w1'|v1 w1'|c1 w1'];
      destruct (GetDelegationSecret _ _ _ _ ds_buf _ _ _)
        as [u2 w2'|v2 w2'|c2 w2']; try contradiction.
    + destruct Hs as (He & Hv & Hb). cbv zeta.
      destruct (memcpy_fields (mem w2') ds2 ds_buf D) as (M1 & M2).
      cbv zeta in M1, M2. cbn [final_world mem same_observation ext events].
      rewrite M1, M2.
      rewrite Hb in M1.
      destruct (load_bytes_fields _ _ _ _ M1) as (F1 & F2 & F3).
      rewrite F1, F2, F3, He, Hv. repeat split; assumption.
    + split; [exact Hs | intros []].
Qed.

End CallerProperties.

Lemma packed_and_discrete_agree_witness :
  let w := demo.world true 16 in
  let o1 := @hellolibdrkey_main demo.addr_lib (demo.platform true 16) 1000 w in
  let o2 := @packed_main demo.addr_lib (demo.platform true 16) 1000 2000 w in
  ranges_disjoint 1000 32 2000 32 /\
  returned o1 /\
  same_observation o1 o2 /\
  load_bytes (mem (final_world o2)) 1000 32 =
    load_bytes (mem (final_world o1)) 1000 32.
Proof.
  intros w o1 o2.
  assert (D : ranges_disjoint 1000 32 2000 32) by (left; lia).
  assert (R : returned o1) by exact Logic.I.
  destruct (@packed_and_discrete_agree demo.addr_lib (demo.platform true 16))
    as (_ & Hprog).
  destruct (Hprog 1000 1000 2000 w w eq_refl eq_refl D) as (Hobs & Hbytes).
  split; [exact D|]. split; [exact R|]. split; [exact Hobs|].
  exact (proj1 (Hbytes R)).
Defined.

(** * Further properties *)

(** ** The regular expression and the parser *)

(** X1: a match of [addrRegexp] has exactly three entries, so the two
    index expressions of [addrFromString] are in range; entry 0 is the
    whole input (the pattern is anchored at both ends), and putting a
    comma and brackets back around entries 1 and 2 gives the input again. *)
Theorem addrRegexp_submatch_parts (s : string) (parts : list string) :
  regexp.FindStringSubmatch addrRegexp s = Some parts ->
  length parts = 3%nat /\
  (addrRegexpIaIndex < length parts)%nat /\
  (addrRegexpL3Index < length parts)%nat /\
  parts !! 0%nat = Some s /\
  s = (parts !!! addrRegexpIaIndex) +:+ ",[" +:+
      (parts !!! addrRegexpL3Index) +:+ "]" /\
  ia_syntax (parts !!! addrRegexpIaIndex) /\
  host_syntax (parts !!! addrRegexpL3Index).
Proof.
  intros Hm. apply FindStringSubmatch_addrRegexp in Hm.
  destruct Hm as (id & h & -> & Hs & Hid & Hh).
  unfold addrRegexpIaIndex, addrRegexpL3Index. cbn [length].
  change ([s; id; h] !!! 1%nat) with id. change ([s; id; h] !!! 2%nat) with h.
  repeat split; try lia; try assumption; try reflexivity; apply Hh.
Qed.

Lemma addrRegexp_submatch_parts_witness :
  regexp.FindStringSubmatch addrRegexp "1-ff00:0:111,[127.0.0.1]" =
    Some ["1-ff00:0:111,[127.0.0.1]"; "1-ff00:0:111"; "127.0.0.1"] /\
  length ["1-ff00:0:111,[127.0.0.1]"; "1-ff00:0:111"; "127.0.0.1"] = 3%nat.
Proof.
  split; [reflexivity|].
  exact (proj1 (addrRegexp_submatch_parts "1-ff00:0:111,[127.0.0.1]"
                  ["1-ff00:0:111,[127.0.0.1]"; "1-ff00:0:111"; "127.0.0.1"]
                  eq_refl)).
Defined.

Section MoreParserProperties.
Context {AL : AddrLib}.

(** X2: whatever package [addr] accepts, an address [addrFromString]
    returns without error comes from an input of the form IA text, comma,
    bracketed host text; its IA is what [IAFromString] made of the IA
    text, and its host is never nil. *)
Theorem addrFromString_success (address : string) (a : snet.SCIONAddress) :
  addrFromString address = (a, None) ->
  exists (id h : string) (l3 : addr.HostAddr),
    address = id +:+ ",[" +:+ h +:+ "]" /\
    ia_syntax id /\ host_syntax h /\
    IAFromString id = (snet.IA a, None) /\
    snet.Host a = Some l3 /\
    host_of_string h = Some l3.
Proof.
  intros Hok.
  destruct (regexp.FindStringSubmatch addrRegexp address) as [parts|] eqn:Hm.
  - apply FindStringSubmatch_addrRegexp in Hm as Hx.
    destruct Hx as (id & h & -> & Hs & Hid & Hh).
    rewrite (addrFromString_matched _ _ _ Hm) in Hok.
    destruct (IAFromString id) as [ia [e|]] eqn:Hia; [discriminate Hok|].
    destruct (host_of_string h) as [l3|] eqn:Hl3; [|discriminate Hok].
    injection Hok as <-. exists id, h, l3. repeat split; try assumption;
      apply Hh.
  - unfold addrFromString in Hok. rewrite Hm in Hok. discriminate Hok.
Qed.

(** X3: a host text that names a service is taken as that service; the
    IP parser is not asked, whatever it would say. *)
Theorem addrFromString_service_alias_first (id h : string) (ia : addr.IA) :
  ia_syntax id -> host_syntax h ->
  IAFromString id = (ia, None) ->
  HostSVCFromString h <> SvcNone ->
  addrFromString (id +:+ ",[" +:+ h +:+ "]") =
  (snet.mkSCIONAddress ia (Some (addr.HostSVC (HostSVCFromString h))), None).
Proof.
  intros Hid Hh Hia Hsvc.
  assert (Hm : regexp.FindStringSubmatch addrRegexp (id +:+ ",[" +:+ h +:+ "]")
               = Some [id +:+ ",[" +:+ h +:+ "]"; id; h])
    by (apply FindStringSubmatch_addrRegexp; now exists id, h).
  rewrite (addrFromString_matched _ _ _ Hm), Hia. unfold host_of_string.
  destruct (Z.eqb_spec (HostSVCFromString h) SvcNone) as [E|E];
    [contradiction | reflexivity].
Qed.

End MoreParserProperties.

Lemma addrFromString_success_witness :
  exists (id h : string) (l3 : addr.HostAddr),
    "1-ff00:0:112,[fd00:f00d:cafe::7f00:a]" = id +:+ ",[" +:+ h +:+ "]" /\
    @host_of_string demo.addr_lib h = Some l3.
Proof.
  destruct (@addrFromString_success demo.addr_lib
              "1-ff00:0:112,[fd00:f00d:cafe::7f00:a]"
              (@addrFromString demo.addr_lib
                 "1-ff00:0:112,[fd00:f00d:cafe::7f00:a]").1 eq_refl)
    as (id & h & l3 & Hs & _ & _ & _ & _ & Hl3).
  exists id, h, l3. split; assumption.
Defined.

Lemma addrFromString_service_alias_first_witness :
  @addrFromString demo.addr_lib "1-ff00:0:111,[CS]" =
  (snet.mkSCIONAddress (addr.mkIA 1 0xff0000000111) (Some (addr.HostSVC 2)),
   None).
Proof.
  apply (@addrFromString_service_alias_first demo.addr_lib "1-ff00:0:111" "CS"
           (addr.mkIA 1 0xff0000000111)).
  - exists "1", "ff00:0:111". repeat split; reflexivity.
  - split; reflexivity.
  - reflexivity.
  - discriminate.
Defined.

(** ** The driver and its two roles *)

Section MoreDriverProperties.
Context {AL : AddrLib} {PF : Platform}.

(** X4: a malformed source address, or else a malformed destination
    address, ends [main] with exit status 1 after it printed the error and
    the flag defaults; nothing else is printed, no role starts and the
    daemon is not contacted.  The source address is examined first. *)
Theorem main_malformed_address (clientRole serverRole : bool)
    (sciondAddr srcAddr dstAddr : string) (w : World) :
  (forall e,
     (addrFromString srcAddr).2 = Some e ->
     main clientRole serverRole sciondAddr srcAddr dstAddr w =
     Exits 1
       (mkWorld (ext w) (events w ++ [EvPrintln e; EvPrintDefaults]) (mem w))) /\
  (forall e,
     (addrFromString srcAddr).2 = None ->
     (addrFromString dstAddr).2 = Some e ->
     main clientRole serverRole sciondAddr srcAddr dstAddr w =
     Exits 1
       (mkWorld (ext w) (events w ++ [EvPrintln e; EvPrintDefaults]) (mem w))).
Proof.
  unfold main. destruct (default_roles clientRole serverRole) as [c s].
  destruct (addrFromString srcAddr) as [src e1].
  destruct (addrFromString dstAddr) as [dst e2]. cbn [fst snd].
  split.
  - intros e ->. unfold exit_on_error, emit, os_Exit, mbind, Go_bind.
    cbn [ext events mem]. now rewrite <- app_assoc.
  - intros e -> ->. unfold exit_on_error, emit, os_Exit, mbind, Go_bind, mret,
      Go_ret. cbn [ext events mem]. now rewrite <- app_assoc.
Qed.

(** X5: [HostKey] asks the daemon once, for exactly the metadata it was
    given, valid at the current time in UTC, under the 10 second timeout;
    it returns the daemon's key as it is, and panics with the daemon's
    error if there is one. *)
Theorem HostKey_passes_through (c : Client) (meta : drkey.Lvl2Meta.t)
    (w : World) :
  forall (conn : Connector) (e0 e1 : ExtState) (now : time.Time)
         (key : drkey.Lvl2Key.t) (err : option error),
    Client_sciond c = Some conn ->
    time_Now (ext w) = (e0, now) ->
    Connector_DRKeyGetLvl2Key e0 conn (10 * time.Second) meta
      (time.Time_UTC now) = (e1, (key, err)) ->
    let w' :=
      mkWorld e1
        (events w ++
         [EvDRKeyGetLvl2Key (10 * time.Second) meta (time.Time_UTC now)])
        (mem w) in
    Client_HostKey c meta w =
    match err with
    | None => Returns key w'
    | Some e => Panics (Sprintf "Fatal error: %v" e) w'
    end.
Proof.
  intros conn e0 e1 now key err Hc Hnow Hrpc. cbv zeta.
  unfold Client_HostKey, time_Now_, DRKeyGetLvl2Key, check, panic, mbind,
    Go_bind, mret, Go_ret.
  rewrite Hnow, Hc. cbn [ext events mem]. rewrite Hrpc.
  destruct err; reflexivity.
Qed.

(** X6: [ThisClientAndMeta] and [ThisServerAndMeta] each make one
    connection attempt to [sciondAddr].  If the daemon library reports an
    error, both panic with "Fatal error: " and that error, right after the
    attempt.  Otherwise both return, a client and a server around the
    connector the library gave, each paired with the same metadata:
    host-to-host, protocol "piskes", the given IAs and hosts.  Either way
    the attempt is the only event added and memory is as it was. *)
Theorem client_and_server_share_metadata (sciondAddr : string)
    (srcIA : addr.IA) (srcHost : option addr.HostAddr)
    (dstIA : addr.IA) (dstHost : option addr.HostAddr) (w : World) :
  forall (e1 : ExtState) (sd : option Connector) (err : option error),
    sciond_Connect (ext w) sciondAddr = (e1, (sd, err)) ->
    let w' := mkWorld e1 (events w ++ [EvConnect sciondAddr]) (mem w) in
    let meta :=
      drkey.Lvl2Meta.mk drkey.Host2Host "piskes" srcIA dstIA srcHost dstHost in
    ThisClientAndMeta sciondAddr srcIA srcHost dstIA dstHost w =
      match err with
      | Some e => Panics (Sprintf "Fatal error: %v" e) w'
      | None => Returns (mkClient sd, meta) w'
      end /\
    ThisServerAndMeta sciondAddr srcIA srcHost dstIA dstHost w =
      match err with
      | Some e => Panics (Sprintf "Fatal error: %v" e) w'
      | None => Returns (mkServer sd, meta) w'
      end.
Proof.
  intros e1 sd err Hconn. cbv zeta.
  unfold ThisClientAndMeta, ThisServerAndMeta, NewClient, NewServer, Connect,
    check, panic, mbind, Go_bind, mret, Go_ret.
  rewrite Hconn. destruct err as [e|]; split; reflexivity.
Qed.

(** X7: [dsForServer] returns only if all three of its requests succeed.
    When the first succeeded, an error on the re-request past the end of
    the epoch, or else on the re-request before its start, makes it panic
    with that error: the secret already fetched is not returned. *)
Theorem dsForServer_rerequest_failure (s : Server) (meta : drkey.Lvl2Meta.t)
    (w : World) :
  let dsMeta :=
    drkey.Lvl2Meta.mk drkey.AS2AS (drkey.Lvl2Meta.Protocol meta)
      (drkey.Lvl2Meta.SrcIA meta) (drkey.Lvl2Meta.DstIA meta) None None in
  forall (c : Connector) (e0 e1 e2 : ExtState) (t : time.Time)
         (k1 k2 : drkey.Lvl2Key.t) (err2 : option error),
    Server_sciond s = Some c ->
    time_Now (ext w) = (e0, t) ->
    Connector_DRKeyGetLvl2Key e0 c (10 * time.Second) dsMeta (time.Time_UTC t) =
      (e1, (k1, None)) ->
    Connector_DRKeyGetLvl2Key e1 c (10 * time.Second) dsMeta
      (time.Time_Add (drkey.NotAfter (drkey.Lvl2Key.Epoch k1))
         (1 * time.Second)) = (e2, (k2, err2)) ->
    (forall e,
       err2 = Some e ->
       exists w',
         Server_dsForServer s meta w = Panics (Sprintf "Fatal error: %v" e) w') /\
    (forall e3 k3 e,
       err2 = None ->
       Connector_DRKeyGetLvl2Key e2 c (10 * time.Second) dsMeta
         (time.Time_Add (drkey.NotBefore (drkey.Lvl2Key.Epoch k1))
            (-1 * time.Second)) = (e3, (k3, Some e)) ->
       exists w',
         Server_dsForServer s meta w = Panics (Sprintf "Fatal error: %v" e) w').
Proof.
  cbv zeta. intros c e0 e1 e2 t k1 k2 err2 Hs Hnow H1 H2.
  pose proof (dsForServer_cases s meta w) as Hc. cbv zeta in Hc.
  unfold as2as_meta, ds_next, ds_prev in Hc.
  rewrite Hs, Hnow in Hc. cbn [fst snd] in Hc. rewrite H1, H2 in Hc.
  split.
  - intros e ->. eauto.
  - intros e3 k3 e -> H3. rewrite H3 in Hc. eauto.
Qed.

(** X8: a run of [dsForServer] that returns has read the clock once and
    sent exactly three requests over its connection, all with the same
    AS-to-AS metadata: for the current time, for one second past the end
    of the epoch the daemon answered first, and for one second before its
    start, in that order.  After each request it printed the key and epoch
    of the daemon's answer to that very request, and what it returns is
    made of the first answer.  Memory is as it was. *)
Theorem dsForServer_trace (s : Server) (meta : drkey.Lvl2Meta.t)
    (w w' : World) (ds : drkey.DelegationSecret.t) :
  Server_dsForServer s meta w = Returns ds w' ->
  exists (c : Connector) (e0 e1 e2 : ExtState) (t : time.Time)
         (k1 k2 k3 : drkey.Lvl2Key.t),
    let dsMeta :=
      drkey.Lvl2Meta.mk drkey.AS2AS (drkey.Lvl2Meta.Protocol meta)
        (drkey.Lvl2Meta.SrcIA meta) (drkey.Lvl2Meta.DstIA meta) None None in
    let next :=
      time.Time_Add (drkey.NotAfter (drkey.Lvl2Key.Epoch k1))
        (1 * time.Second) in
    let prev :=
      time.Time_Add (drkey.NotBefore (drkey.Lvl2Key.Epoch k1))
        (-1 * time.Second) in
    let line format k :=
      EvPrintf format
        [ArgHex (drkey.Lvl2Key.Key k); ArgEpoch (drkey.Lvl2Key.Epoch k)] in
    Server_sciond s = Some c /\
    time_Now (ext w) = (e0, t) /\
    Connector_DRKeyGetLvl2Key e0 c (10 * time.Second) dsMeta
      (time.Time_UTC t) = (e1, (k1, None)) /\
    Connector_DRKeyGetLvl2Key e1 c (10 * time.Second) dsMeta next =
      (e2, (k2, None)) /\
    Connector_DRKeyGetLvl2Key e2 c (10 * time.Second) dsMeta prev =
      (ext w', (k3, None)) /\
    ds =
      drkey.DelegationSecret.mk (drkey.Lvl2Key.Protocol k1)
        (drkey.Lvl2Key.Epoch k1) (drkey.Lvl2Key.SrcIA k1)
        (drkey.Lvl2Key.DstIA k1) (drkey.Lvl2Key.Key k1) /\
    events w' =
      (events w ++
       [EvDRKeyGetLvl2Key (10 * time.Second) dsMeta (time.Time_UTC t);
        line "DS key = %s, epoch = %s\n" k1;
        EvDRKeyGetLvl2Key (10 * time.Second) dsMeta next;
        line "Next DS key = %s, epoch = %s\n" k2;
        EvDRKeyGetLvl2Key (10 * time.Second) dsMeta prev;
        line "Prev DS key = %s, epoch = %s\n" k3])%list /\
    mem w' = mem w.
Proof.
  intros Hrun.
  pose proof (dsForServer_cases s meta w) as Hc. cbv zeta in Hc.
  destruct (Server_sciond s) as [c|].
  2:{ destruct Hc as [Ha _]. rewrite Hrun in Ha. contradiction. }
  destruct (time_Now (ext w)) as [e0 t] eqn:Hnow. cbn [fst snd] in Hc.
  destruct (Connector_DRKeyGetLvl2Key e0 c _ _ _) as [e1 [k1 [e|]]] eqn:H1;
    [rewrite Hc in Hrun; discriminate Hrun|].
  destruct (Connector_DRKeyGetLvl2Key e1 c _ _ _) as [e2 [k2 [e|]]] eqn:H2;
    [rewrite Hc in Hrun; discriminate Hrun|].
  destruct (Connector_DRKeyGetLvl2Key e2 c _ _ _) as [e3 [k3 [e|]]] eqn:H3;
    [rewrite Hc in Hrun; discriminate Hrun|].
  rewrite Hc in Hrun. injection Hrun as <- <-.
  exists c, e0, e1, e2, t, k1, k2, k3. cbv zeta. cbn [ext events mem].
  repeat split; first [assumption | reflexivity].
Qed.

(** X9: [HostKeyFromDS] works locally: however it ends, it has made no
    network call, read no clock, printed nothing and written no memory,
    and it never exits the process; the receiver plays no part. *)
Theorem HostKeyFromDS_local (s s' : Server) (meta : drkey.Lvl2Meta.t)
    (ds : drkey.DelegationSecret.t) (w : World) :
  final_world (Server_HostKeyFromDS s meta ds w) = w /\
  (forall code w', Server_HostKeyFromDS s meta ds w <> Exits code w') /\
  Server_HostKeyFromDS s meta ds w = Server_HostKeyFromDS s' meta ds w.
Proof.
  unfold Server_HostKeyFromDS.
  destruct (KnownDerivations !! "piskes") as [d|];
    [|repeat split; discriminate].
  destruct (protocol.DeriveLvl2FromDS d) as [f|];
    [|repeat split; discriminate].
  destruct (f meta ds) as [derived [e|]]; repeat split; discriminate.
Qed.

End MoreDriverProperties.

Lemma main_malformed_address_witness :
  @main demo.addr_lib (demo.platform true 16) false false "127.0.0.1:30255"
    "1-ff00:0:111,127.0.0.1" "1-ff00:0:112,[fd00:f00d:cafe::7f00:a]"
    (demo.world true 16) =
  Exits 1
    (mkWorld (ext (demo.world true 16))
       [EvPrintln (Errorf "no valid SCION address: %q" "1-ff00:0:111,127.0.0.1");
        EvPrintDefaults]
       (mem (demo.world true 16))).
Proof.
  exact (proj1 (@main_malformed_address demo.addr_lib (demo.platform true 16)
                  false false "127.0.0.1:30255" "1-ff00:0:111,127.0.0.1"
                  "1-ff00:0:112,[fd00:f00d:cafe::7f00:a]" (demo.world true 16))
           (Errorf "no valid SCION address: %q" "1-ff00:0:111,127.0.0.1")
           eq_refl).
Defined.

Lemma HostKey_passes_through_witness :
  let meta :=
    drkey.Lvl2Meta.mk drkey.Host2Host "piskes" (addr.mkIA 1 0xff0000000111)
      (addr.mkIA 1 0xff0000000112) (Some (addr.HostIPv4 [127; 0; 0; 1])) None in
  let now := time.mkTime 1600000000 0 time.Local in
  @Client_HostKey (demo.platform true 16) (@mkClient (demo.platform true 16) (Some tt)) meta
    (demo.world true 16) =
  Returns (demo.lvl2_key 16 meta (time.Time_UTC now))
    (mkWorld (1600000001 : @ExtState (demo.platform true 16))
       [EvDRKeyGetLvl2Key (10 * time.Second) meta (time.Time_UTC now)]
       (mem (demo.world true 16))).
Proof.
  intros meta now.
  exact (@HostKey_passes_through (demo.platform true 16) (@mkClient (demo.platform true 16) (Some tt))
           meta (demo.world true 16) tt _ _ now _ None eq_refl eq_refl eq_refl).
Defined.

Lemma client_and_server_share_metadata_witness :
  let w := demo.world false 16 in
  let w' :=
    mkWorld (ext w) [EvConnect "127.0.0.1:30255"] (mem w) in
  @ThisClientAndMeta (demo.platform false 16) "127.0.0.1:30255"
    (addr.mkIA 1 0xff0000000111) (Some (addr.HostIPv4 [127; 0; 0; 1]))
    (addr.mkIA 1 0xff0000000112) None w =
  Panics (Sprintf "Fatal error: %v" (ExtError "connection refused")) w' /\
  @ThisServerAndMeta (demo.platform false 16) "127.0.0.1:30255"
    (addr.mkIA 1 0xff0000000111) (Some (addr.HostIPv4 [127; 0; 0; 1]))
    (addr.mkIA 1 0xff0000000112) None w =
  Panics (Sprintf "Fatal error: %v" (ExtError "connection refused")) w'.
Proof.
  intros w w'.
  exact (@client_and_server_share_metadata (demo.platform false 16)
           "127.0.0.1:30255" (addr.mkIA 1 0xff0000000111)
           (Some (addr.HostIPv4 [127; 0; 0; 1]))
           (addr.mkIA 1 0xff0000000112) None w
           (ext w) None (Some (ExtError "connection refused")) eq_refl).
Defined.

Lemma dsForServer_rerequest_failure_witness :
  let meta :=
    drkey.Lvl2Meta.mk drkey.Host2Host "piskes" (addr.mkIA 1 0xff0000000111)
      (addr.mkIA 1 0xff0000000112) None None in
  exists w',
    @Server_dsForServer (demo_flaky.platform 1) (@mkServer (demo_flaky.platform 1) (Some tt)) meta
      (demo_flaky.world 1) =
    Panics (Sprintf "Fatal error: %v" (ExtError "context deadline exceeded")) w'.
Proof.
  intros meta.
  destruct (@dsForServer_rerequest_failure (demo_flaky.platform 1)
              (@mkServer (demo_flaky.platform 1) (Some tt)) meta (demo_flaky.world 1) tt _ _ _ _ _ _ _
              eq_refl eq_refl eq_refl eq_refl) as (Hsecond & _).
  exact (Hsecond (ExtError "context deadline exceeded") eq_refl).
Defined.

Lemma dsForServer_trace_witness :
  let meta :=
    drkey.Lvl2Meta.mk drkey.Host2Host "piskes" (addr.mkIA 1 0xff0000000111)
      (addr.mkIA 1 0xff0000000112) None None in
  let run :=
    @Server_dsForServer (demo.platform true 16) (@mkServer (demo.platform true 16) (Some tt)) meta
      (demo.world true 16) in
  returned run /\ length (events (final_world run)) = 6%nat.
Proof.
  intros meta run.
  destruct run as [ds w'| |] eqn:Hrun; try discriminate Hrun.
  split; [exact Logic.I|].
  destruct (@dsForServer_trace (demo.platform true 16) (@mkServer (demo.platform true 16) (Some tt)) meta
              (demo.world true 16) w' ds Hrun)
    as (c & e0 & e1 & e2 & t & k1 & k2 & k3 & _ & _ & _ & _ & _ & _ & Hev & _).
  cbn [final_world]. rewrite Hev. reflexivity.
Defined.

(** ** The exported entry point and its C caller *)

Lemma take_min_length {A : Type} (n : nat) (l : list A) :
  take (Nat.min n (length l)) l = take n l.
Proof.
  destruct (Nat.le_ge_cases n (length l)) as [Hle|Hge].
  - now rewrite Nat.min_l.
  - rewrite Nat.min_r by exact Hge. now rewrite !take_ge by lia.
Qed.

Section MoreShimProperties.
Context {AL : AddrLib} {PF : Platform}.

Lemma Returns_inj {A : Type} (a a' : A) (w w' : World) :
  Returns a w = Returns a' w' -> a = a' /\ w = w'.
Proof. intros [= -> ->]. split; reflexivity. Qed.

(** X10: the three outputs are written in the order not-before,
    not-after, key.  Given one and the same location for both time stamps,
    a successful call leaves the not-after value there. *)
Theorem GetDelegationSecret_same_pointer (sciondAddr : string)
    (srcIA dstIA valTime : Z) (p key : Z) (w w' : World) (u : unit) :
  GetDelegationSecret sciondAddr srcIA dstIA valTime p p key w = Returns u w' ->
  ranges_disjoint p 8 key 16 ->
  exists (e1 : ExtState) (c : Connector) (lvl2Key : drkey.Lvl2Key.t),
    sciond_Connect (ext w) sciondAddr = (e1, (Some c, None)) /\
    Connector_DRKeyGetLvl2Key e1 c (10 * time.Second)
      (drkey.Lvl2Meta.mk drkey.AS2AS "piskes" (IAInt_IA srcIA) (IAInt_IA dstIA)
         None None)
      (time.mkTime valTime 0 time.UTCLoc) = (ext w', (lvl2Key, None)) /\
    decode_int64 byte_order (load_bytes (mem w') p 8) =
      time.Time_Unix (drkey.NotAfter (drkey.Lvl2Key.Epoch lvl2Key)).
Proof.
  intros Hrun D.
  destruct (GetDelegationSecret_returns _ _ _ _ _ _ _ _ _ _ Hrun)
    as (e1 & c & e2 & k & Hconn & Hrpc & ->).
  exists e1, c, k. change (10 * time.Second) with 10000000000.
  split; [exact Hconn|]. split; [exact Hrpc|].
  cbn [mem shim_world]. unfold copy_mem.
  rewrite load_store_other
    by (rewrite length_take; unfold ranges_disjoint in *; lia).
  rewrite load_store_same_n by apply length_encode_int64.
  rewrite decode_encode_int64. apply sint64_idem.
Qed.


(** The three fields of the struct after a successful fetch into a
    zeroed struct. *)
Lemma shim_world_zeroed_fields (w : World) (sciondAddr : string)
    (srcIA dstIA valTime : Z) (p : Z) (e2 : ExtState) (k : drkey.Lvl2Key.t) :
  load_bytes (mem w) p 32 = replicate 32 0 ->
  let m := mem (shim_world w sciondAddr srcIA dstIA valTime p (p + 8) (p + 16)
                  e2 k) in
  load_bytes m p 8 =
    encode_int64 byte_order
      (time.Time_Unix (drkey.NotBefore (drkey.Lvl2Key.Epoch k))) /\
  load_bytes m (p + 8) 8 =
    encode_int64 byte_order
      (time.Time_Unix (drkey.NotAfter (drkey.Lvl2Key.Epoch k))) /\
  load_bytes m (p + 16) 16 = zero_padded_key (drkey.Lvl2Key.Key k).
Proof.
  intros Hz m.
  pose proof (shim_world_layout w sciondAddr srcIA dstIA valTime p e2 k) as HL.
  fold m in HL. rewrite Hz in HL. unfold packed_layout in HL.
  rewrite take_min_length in HL.
  assert (Hn : Nat.min 16 (length (drkey.Lvl2Key.Key k)) =
               length (take 16 (drkey.Lvl2Key.Key k)))
    by (now rewrite length_take).
  rewrite Hn, drop_replicate in HL.
  replace (32 - (16 + length (take 16 (drkey.Lvl2Key.Key k))))%nat
    with (16 - length (take 16 (drkey.Lvl2Key.Key k)))%nat in HL by lia.
  fold (zero_padded_key (drkey.Lvl2Key.Key k)) in HL.
  change 32%nat with (8 + (8 + 16))%nat in HL.
  rewrite !load_bytes_app in HL. change (Z.of_nat 8) with 8 in HL.
  replace (p + 8 + 8) with (p + 16) in HL by lia.
  apply app_inj_1 in HL as [F1 HL];
    [|now rewrite length_load_bytes, length_encode_int64].
  apply app_inj_1 in HL as [F2 F3];
    [|now rewrite length_load_bytes, length_encode_int64].
  repeat split; assumption.
Qed.

(** X12: when hellolibdrkey.c runs to its end it returns 0; the clock
    gave it the second [t_now]; it made one connection to 127.0.0.1:30255
    and, over it, one request for the AS-to-AS "piskes" key between its
    two fixed IAs at [t_now]; and what it printed is made of the daemon's
    answer to that request: the key, cut to 16 bytes or padded with zero
    bytes, then the date of the start of the answer's epoch, then the date
    of its end. *)
Theorem hellolibdrkey_main_output (ds : Z) (w w' : World) (r : Z) :
  hellolibdrkey_main ds w = Returns r w' ->
  r = 0 /\
  exists (e0 e1 : ExtState) (t_now : Z) (c : Connector)
         (lvl2Key : drkey.Lvl2Key.t),
    gettimeofday (ext w) = (e0, (0, t_now)) /\
    sciond_Connect e0 "127.0.0.1:30255" = (e1, (Some c, None)) /\
    Connector_DRKeyGetLvl2Key e1 c (10 * time.Second)
      (drkey.Lvl2Meta.mk drkey.AS2AS "piskes"
         (IAInt_IA 0x0011ffaa00010d69) (IAInt_IA 0x0011ffaa00010e97)
         None None)
      (time.mkTime t_now 0 time.UTCLoc) = (ext w', (lvl2Key, None)) /\
    events w' =
      (events w ++
       [EvConnect "127.0.0.1:30255";
        EvDRKeyGetLvl2Key (10 * time.Second)
          (drkey.Lvl2Meta.mk drkey.AS2AS "piskes"
             (IAInt_IA 0x0011ffaa00010d69) (IAInt_IA 0x0011ffaa00010e97)
             None None)
          (time.mkTime t_now 0 time.UTCLoc)] ++
       printed_fields (zero_padded_key (drkey.Lvl2Key.Key lvl2Key))
         (time.Time_Unix (drkey.NotBefore (drkey.Lvl2Key.Epoch lvl2Key)))
         (time.Time_Unix (drkey.NotAfter (drkey.Lvl2Key.Epoch lvl2Key))))%list /\
    length (zero_padded_key (drkey.Lvl2Key.Key lvl2Key)) = 16%nat.
Proof.
  intros Hrun. rewrite hellolibdrkey_main_run, read_t_now_cases in Hrun.
  cbv zeta in Hrun.
  destruct (gettimeofday (ext w)) as [e' [r0 tv_sec]]. cbn [fst snd] in *.
  destruct (Z.eqb_spec r0 0) as [->|Hr]; cbn [negb] in Hrun.
  2:{ destruct (r0 =? -1); discriminate Hrun. }
  destruct ((INT64_MIN <=? tv_sec) && (tv_sec <=? INT64_MAX));
    [|discriminate Hrun].
  cbn [ext events mem] in Hrun.
  destruct (GetDelegationSecret _ _ _ _ _ _ _ _) as [u w1| |] eqn:Hshim;
    try discriminate Hrun.
  destruct (GetDelegationSecret_returns _ _ _ _ _ _ _ _ _ _ Hshim)
    as (e1 & c & e2 & k & Hconn & Hrpc & ->).
  cbn [ext] in Hconn.
  apply Returns_inj in Hrun as [<- <-]. split; [reflexivity|].
  exists e', e1, tv_sec, c, k. split; [reflexivity|].
  split; [exact Hconn|]. split; [exact Hrpc|].
  match goal with
  | |- context [shim_world ?w0 _ _ _ _ _ _ _ _ _] =>
      destruct (shim_world_zeroed_fields w0 "127.0.0.1:30255"
                  0x0011ffaa00010d69 0x0011ffaa00010e97 tv_sec ds e2 k)
        as (F1 & F2 & F3)
  end.
  { cbn [mem]. now apply load_store_same_n. }
  cbv zeta in F1, F2, F3. cbn [events]. rewrite F1, F2, F3.
  split.
  - cbn [shim_world events]. rewrite <- app_assoc.
    unfold printed_secret, printed_fields, gmtime_events, gmtime_line.
    rewrite !decode_encode_int64. unfold time.Time_Unix.
    rewrite !sint64_idem. reflexivity.
  - unfold zero_padded_key.
    rewrite length_app, length_replicate, length_take. lia.
Qed.

(** X13: hellolibdrkey.c writes nowhere but into its struct.  However the
    run ends, and however long a key the daemon returns, every byte
    outside the 32 bytes at [ds] keeps its value. *)
Theorem hellolibdrkey_main_writes_inside_struct (ds : Z) (w : World) (x : Z) :
  ~ (ds <= x < ds + 32) ->
  mem (final_world (hellolibdrkey_main ds w)) x = mem w x.
Proof.
  intros Hx. rewrite hellolibdrkey_main_run, read_t_now_cases. cbv zeta.
  destruct (gettimeofday (ext w)) as [e' [r0 tv_sec]]. cbn [fst snd].
  destruct (negb (r0 =? 0)); [destruct (r0 =? -1); reflexivity|].
  destruct ((INT64_MIN <=? tv_sec) && (tv_sec <=? INT64_MAX)); [|reflexivity].
  cbn [ext events mem].
  match goal with
  | |- context [GetDelegationSecret ?a ?s ?d ?v ?p1 ?p2 ?p3 ?w0] =>
      pose proof (GetDelegationSecret_cases a s d v p1 p2 p3 w0) as Hc
  end.
  cbn [ext events mem] in Hc.
  assert (Hz : store_bytes (mem w) ds (replicate 32 0) x = mem w x)
    by (apply store_bytes_outside; rewrite length_replicate; lia).
  destruct (sciond_Connect e' "127.0.0.1:30255") as [e1 [[c|] [e|]]];
    try (rewrite Hc; exact Hz).
  destruct (Connector_DRKeyGetLvl2Key e1 c 10000000000 _ _)
    as [e2 [k [e|]]]; rewrite Hc; [exact Hz|].
  cbn [final_world mem]. unfold copy_mem.
  rewrite store_bytes_outside by (rewrite length_take; lia).
  rewrite store_bytes_outside by (rewrite length_encode_int64; lia).
  rewrite store_bytes_outside by (rewrite length_encode_int64; lia).
  exact Hz.
Qed.

(** X14: both C programs stop before any network call when
    [gettimeofday] fails: on the result -1 they print one line and exit
    with EXIT_FAILURE, on any other non-zero result the assertion fails. *)
Theorem c_main_clock_failure (ds ds_buf : Z) (w : World) :
  forall (e' : ExtState) (r tv_sec : Z),
    gettimeofday (ext w) = (e', (r, tv_sec)) ->
    r <> 0 ->
    let failed :=
      if r =? -1 then
        Exits EXIT_FAILURE
          (mkWorld e'
             (events w ++ [EvPrintf "Syscall gettimeofday failed.\n" []])
             (mem w))
      else Panics (AssertionFailed "r == -1") (mkWorld e' (events w) (mem w)) in
    hellolibdrkey_main ds w = failed /\ packed_main ds ds_buf w = failed.
Proof.
  intros e' r tv_sec Hgt Hr. cbv zeta.
  rewrite hellolibdrkey_main_run, packed_main_run, read_t_now_cases.
  cbv zeta. rewrite Hgt. cbn [fst snd].
  destruct (Z.eqb_spec r 0) as [E|_]; [contradiction|]. cbn [negb].
  destruct (r =? -1); split; reflexivity.
Qed.

End MoreShimProperties.

Lemma GetDelegationSecret_same_pointer_witness :
  let w := demo.world true 16 in
  let w' :=
    @shim_world demo.addr_lib (demo.platform true 16) w "127.0.0.1:30255"
      0x0011ffaa00010d69 0x0011ffaa00010e97 1600000000 1000 1000 1016
      1600000000
      (demo.lvl2_key 16
         (@shim_meta demo.addr_lib 0x0011ffaa00010d69 0x0011ffaa00010e97)
         (shim_time 1600000000)) in
  ranges_disjoint 1000 8 1016 16 /\
  decode_int64 LittleEndian (load_bytes (mem w') 1000 8) = 1600041600.
Proof.
  intros w w'.
  assert (D : ranges_disjoint 1000 8 1016 16) by (left; lia).
  split; [exact D|].
  destruct (@GetDelegationSecret_same_pointer demo.addr_lib
              (demo.platform true 16) "127.0.0.1:30255" 0x0011ffaa00010d69
              0x0011ffaa00010e97 1600000000 1000 1016 w w' tt eq_refl D)
    as (e1 & c & k & _ & Hrpc & Hna).
  injection Hrpc as _ <-. exact Hna.
Defined.


Lemma hellolibdrkey_main_output_witness :
  let run :=
    @hellolibdrkey_main demo.addr_lib (demo.platform true 4) 1000
      (demo.world true 4) in
  returned run /\
  exists r w', run = Returns r w' /\ r = 0.
Proof.
  intros run.
  destruct run as [r w'| |] eqn:Hrun; try discriminate Hrun.
  split; [exact Logic.I|]. exists r, w'. split; [reflexivity|].
  exact (proj1 (@hellolibdrkey_main_output demo.addr_lib (demo.platform true 4)
                  1000 (demo.world true 4) w' r Hrun)).
Defined.

Lemma hellolibdrkey_main_writes_inside_struct_witness :
  ~ (1000 <= 1032 < 1000 + 32) /\
  mem (final_world
         (@hellolibdrkey_main demo.addr_lib (demo.platform true 40) 1000
            (demo.world true 40))) 1032 = 170.
Proof.
  assert (Hx : ~ (1000 <= 1032 < 1000 + 32)) by lia.
  split; [exact Hx|].
  exact (@hellolibdrkey_main_writes_inside_struct demo.addr_lib
           (demo.platform true 40) 1000 (demo.world true 40) 1032 Hx).
Defined.

Lemma c_main_clock_failure_witness :
  @hellolibdrkey_main demo.addr_lib demo_clock.platform 1000 demo_clock.world =
  Exits EXIT_FAILURE
    (mkWorld (ext demo_clock.world)
       [EvPrintf "Syscall gettimeofday failed.\n" []] (mem demo_clock.world)).
Proof.
  assert (Hr : -1 <> 0) by discriminate.
  exact (proj1 (@c_main_clock_failure demo.addr_lib demo_clock.platform
                  1000 2000 demo_clock.world (ext demo_clock.world) (-1) 0
                  eq_refl Hr)).
Defined.

(** ** What the driver says to the network *)

Section NetworkProperties.
Context {AL : AddrLib} {PF : Platform}.

Lemma emits_bind {A B : Type} (P : Event -> Prop) (m : Go A) (f : A -> Go B)
    (Q : A -> Prop) (R : B -> Prop) :
  emits P m Q -> (forall a, Q a -> emits P (f a) R) -> emits P (m ≫= f) R.
Proof.
  intros Hm Hf w. destruct (Hm w) as (l1 & E1 & F1 & Q1).
  unfold mbind, Go_bind. destruct (m w) as [a w1|v w1|c w1]; simpl in *.
  - destruct (Hf a Q1 w1) as (l2 & E2 & F2 & R2).
    exists (l1 ++ l2)%list. split; [|split].
    + rewrite E2, E1. now rewrite app_assoc.
    + now apply Forall_app.
    + exact R2.
  - exists l1. repeat split; assumption.
  - exists l1. repeat split; assumption.
Qed.

Lemma emits_weaken {A : Type} (P : Event -> Prop) (m : Go A)
    (Q Q' : A -> Prop) :
  emits P m Q -> (forall a, Q a -> Q' a) -> emits P m Q'.
Proof.
  intros Hm HQ w. destruct (Hm w) as (l & E & F & Hq).
  exists l. repeat split; try assumption.
  destruct (m w); [now apply HQ | exact Logic.I | exact Logic.I].
Qed.

Lemma emits_ret {A : Type} (P : Event -> Prop) (a : A) (Q : A -> Prop) :
  Q a -> emits P (mret a : Go A) Q.
Proof.
  intros Ha w. exists []. rewrite app_nil_r.
  repeat split; [constructor | exact Ha].
Qed.

Lemma emits_panic {A : Type} (P : Event -> Prop) (v : PanicValue)
    (Q : A -> Prop) :
  emits P (panic v : Go A) Q.
Proof.
  intros w. exists []. rewrite app_nil_r. repeat split. constructor.
Qed.

Lemma emits_check (P : Event -> Prop) (e : option error) :
  emits P (check e) (fun _ => True).
Proof. destruct e; [apply emits_panic | now apply emits_ret]. Qed.

Lemma emits_emit (P : Event -> Prop) (e : Event) :
  P e -> emits P (emit e) (fun _ => True).
Proof.
  intros He w. exists [e]. repeat split. now constructor.
Qed.

Lemma emits_Now (P : Event -> Prop) : emits P time_Now_ (fun _ => True).
Proof.
  intros w. exists []. unfold time_Now_.
  destruct (time_Now (ext w)). simpl. rewrite app_nil_r.
  repeat split. constructor.
Qed.

Lemma emits_Since (P : Event -> Prop) (t0 : time.Time) :
  emits P (time_Since t0) (fun _ => True).
Proof.
  eapply emits_bind; [apply emits_Now | intros; now apply emits_ret].
Qed.

Lemma emits_Connect (P : Event -> Prop) (a : string) :
  P (EvConnect a) -> emits P (Connect a) (fun _ => True).
Proof.
  intros Ha w. exists [EvConnect a]. unfold Connect.
  destruct (sciond_Connect (ext w) a). simpl.
  repeat split. now constructor.
Qed.

Lemma emits_DRKeyGetLvl2Key (P : Event -> Prop) sd timeout meta t :
  P (EvDRKeyGetLvl2Key timeout meta t) ->
  emits P (DRKeyGetLvl2Key sd timeout meta t) (fun _ => True).
Proof.
  intros Ha w. unfold DRKeyGetLvl2Key. destruct sd as [c|].
  - exists [EvDRKeyGetLvl2Key timeout meta t].
    destruct (Connector_DRKeyGetLvl2Key (ext w) c timeout meta t). simpl.
    repeat split. now constructor.
  - exists []. simpl. rewrite app_nil_r. repeat split. constructor.
Qed.

Lemma emits_HostKeyFromDS (P : Event -> Prop) s meta ds :
  emits P (Server_HostKeyFromDS s meta ds) (fun _ => True).
Proof.
  unfold Server_HostKeyFromDS.
  destruct (KnownDerivations !! "piskes") as [d|]; [|apply emits_panic].
  destruct (protocol.DeriveLvl2FromDS d) as [f|]; [|apply emits_panic].
  destruct (f meta ds) as [derived err].
  eapply emits_bind; [apply emits_check | intros; now apply emits_ret].
Qed.

(** One step through a block: a known step, or else the next bind. *)
Ltac emits_step :=
  first
    [ apply emits_ret; exact Logic.I
    | apply emits_Now
    | apply emits_Since
    | apply emits_check
    | apply emits_HostKeyFromDS
    | apply emits_emit; solve [auto]
    | apply emits_Connect; solve [auto]
    | apply emits_DRKeyGetLvl2Key; solve [auto]
    | apply (emits_bind _ _ _ (fun _ => True)); [|intros ? _]
    | match goal with p : _ * _ |- _ => destruct p end ].

Lemma emits_ThisClientAndMeta (P : Event -> Prop) sciondAddr srcIA srcHost
    dstIA dstHost :
  P (EvConnect sciondAddr) ->
  emits P (ThisClientAndMeta sciondAddr srcIA srcHost dstIA dstHost)
    (fun p =>
       p.2 = drkey.Lvl2Meta.mk drkey.Host2Host "piskes" srcIA dstIA srcHost
               dstHost).
Proof.
  intros Hc. unfold ThisClientAndMeta, NewClient.
  apply (emits_bind _ _ _ (fun _ => True)).
  - repeat emits_step.
  - intros c _. now apply emits_ret.
Qed.

Lemma emits_ThisServerAndMeta (P : Event -> Prop) sciondAddr srcIA srcHost
    dstIA dstHost :
  P (EvConnect sciondAddr) ->
  emits P (ThisServerAndMeta sciondAddr srcIA srcHost dstIA dstHost)
    (fun p =>
       p.2 = drkey.Lvl2Meta.mk drkey.Host2Host "piskes" srcIA dstIA srcHost
               dstHost).
Proof.
  intros Hc. unfold ThisServerAndMeta, NewServer.
  apply (emits_bind _ _ _ (fun _ => True)).
  - repeat emits_step.
  - intros c _. now apply emits_ret.
Qed.

Lemma emits_HostKey (P : Event -> Prop) c meta :
  (forall t, P (EvDRKeyGetLvl2Key (10 * time.Second) meta t)) ->
  emits P (Client_HostKey c meta) (fun _ => True).
Proof. intros Hr. unfold Client_HostKey. repeat emits_step. Qed.

Lemma emits_dsForServer (P : Event -> Prop) s meta :
  (forall t,
     P (EvDRKeyGetLvl2Key (10 * time.Second)
          (drkey.Lvl2Meta.mk drkey.AS2AS (drkey.Lvl2Meta.Protocol meta)
             (drkey.Lvl2Meta.SrcIA meta) (drkey.Lvl2Meta.DstIA meta) None None)
          t)) ->
  (forall format args, P (EvPrintf format args)) ->
  emits P (Server_dsForServer s meta) (fun _ => True).
Proof.
  intros Hr Hp. unfold Server_dsForServer, fmt_Printf. repeat emits_step.
Qed.

Lemma emits_exit_on_error (P : Event -> Prop) (err : option error) :
  (forall e, P (EvPrintln e)) -> P EvPrintDefaults ->
  emits P (exit_on_error err) (fun _ => True).
Proof.
  intros H1 H2. destruct err as [e|]; [|now apply emits_ret]. simpl.
  intros w. exists [EvPrintln e; EvPrintDefaults]. simpl.
  rewrite <- app_assoc. repeat split. repeat constructor; auto.
Qed.

(** X15: whatever the flags, the addresses and the daemon's answers, and
    however the run ends, [main] connects to no address but [sciondAddr]
    and requests nothing but "piskes" keys between the IAs of the two
    parsed endpoints, under the 10 second timeout: host-to-host keys for
    the two parsed hosts, or AS-to-AS keys with no host. *)
Theorem main_network_calls (clientRole serverRole : bool)
    (sciondAddr srcAddr dstAddr : string) (w : World) :
  exists added : list Event,
    events (final_world (main clientRole serverRole sciondAddr srcAddr dstAddr w))
      = (events w ++ added)%list /\
    Forall
      (allowed_event sciondAddr (addrFromString srcAddr).1
         (addrFromString dstAddr).1)
      added.
Proof.
  assert (Hm : emits
            (allowed_event sciondAddr (addrFromString srcAddr).1
               (addrFromString dstAddr).1)
            (main clientRole serverRole sciondAddr srcAddr dstAddr)
            (fun _ => True)).
  { unfold main. destruct (default_roles clientRole serverRole) as [c s].
    destruct (addrFromString srcAddr) as [src e1].
    destruct (addrFromString dstAddr) as [dst e2]. cbn [fst snd].
    assert (Hconn : allowed_event sciondAddr src dst (EvConnect sciondAddr))
      by reflexivity.
    assert (Hline : forall format args,
              allowed_event sciondAddr src dst (EvPrintf format args))
      by (intros; exact Logic.I).
    apply (emits_bind _ _ _ (fun _ => True));
      [apply emits_exit_on_error; intros; exact Logic.I | intros ? _].
    apply (emits_bind _ _ _ (fun _ => True));
      [apply emits_exit_on_error; intros; exact Logic.I | intros ? _].
    apply (emits_bind _ _ _ (fun _ => True)); [|intros ? _].
    - destruct c; [|now apply emits_ret].
      unfold main_client, fmt_Printf.
      eapply emits_bind; [now apply emits_ThisClientAndMeta|].
      intros [client metaClient] Hmeta. cbn [snd] in Hmeta. subst metaClient.
      apply (emits_bind _ _ _ (fun _ => True)); [apply emits_Now | intros t0 _].
      apply (emits_bind _ _ _ (fun _ => True)); [|intros ? _].
      + apply emits_HostKey. intros t. cbn. intuition reflexivity.
      + repeat emits_step.
    - destruct s; [|now apply emits_ret].
      unfold main_server, fmt_Printf.
      eapply emits_bind; [now apply emits_ThisServerAndMeta|].
      intros [server metaServer] Hmeta. cbn [snd] in Hmeta. subst metaServer.
      apply (emits_bind _ _ _ (fun _ => True)); [|intros ? _].
      + apply emits_dsForServer; [|exact Hline].
        intros t. cbn. intuition reflexivity.
      + repeat emits_step. }
  destruct (Hm w) as (l & E & F & _). now exists l.
Qed.

End NetworkProperties.

(** ** The result lines of the two roles *)

Section RoleLineProperties.
Context {AL : AddrLib} {PF : Platform}.

(** X16: when the server role reaches its end, its result line shows the
    key that the registered "piskes" derivation made from the
    host-to-host metadata and the delegation secret, together with the
    epoch of the delegation secret itself (not that of the derived key);
    the duration shown is the difference of two clock readings with
    nothing but the local derivation between them. *)
Theorem main_server_result_line (sciondAddr : string)
    (src dst : snet.SCIONAddress) (w w' : World) (u : unit) :
  main_server sciondAddr src dst w = Returns u w' ->
  exists (server : Server) (w1 w2 : World) (ds : drkey.DelegationSecret.t)
         (d : protocol.Derivation)
         (derive : drkey.Lvl2Meta.t -> drkey.DelegationSecret.t ->
                   drkey.Lvl2Key.t * option error)
         (derived : drkey.Lvl2Key.t) (e0 : ExtState) (t0 t1 : time.Time),
    let meta :=
      drkey.Lvl2Meta.mk drkey.Host2Host "piskes" (snet.IA src) (snet.IA dst)
        (snet.Host src) (snet.Host dst) in
    Server_dsForServer server meta w1 = Returns ds w2 /\
    KnownDerivations !! "piskes" = Some d /\
    protocol.DeriveLvl2FromDS d = Some derive /\
    derive meta ds = (derived, None) /\
    time_Now (ext w2) = (e0, t0) /\
    time_Now e0 = (ext w', t1) /\
    events w' =
      (events w2 ++
       [EvPrintf "Server: key = %s, epoch = %s, duration = %s\n"
          [ArgHex (drkey.Lvl2Key.Key derived);
           ArgEpoch (drkey.DelegationSecret.Epoch ds);
           ArgDuration (time.Time_Sub t1 t0)]])%list.
Proof.
  unfold main_server, ThisServerAndMeta, NewServer, Connect, check, panic,
    time_Since, time_Now_, fmt_Printf, emit, mbind, Go_bind, mret, Go_ret.
  destruct (sciond_Connect (ext w) sciondAddr) as [e1 [sd [e|]]];
    [discriminate|].
  destruct (Server_dsForServer _ _ _) as [ds w2| |] eqn:Hds;
    [|discriminate|discriminate].
  destruct (time_Now (ext w2)) as [e0 t0] eqn:Hn0.
  unfold Server_HostKeyFromDS, check, panic, mbind, Go_bind, mret, Go_ret.
  destruct (KnownDerivations !! "piskes") as [d|] eqn:Hreg; [|discriminate].
  destruct (protocol.DeriveLvl2FromDS d) as [derive|] eqn:Hdel; [|discriminate].
  destruct (derive _ ds) as [derived [e|]] eqn:Hder; [discriminate|].
  cbn [ext events mem].
  destruct (time_Now e0) as [e3 t1] eqn:Hn1. cbn [ext events mem].
  intros Hrun. apply Returns_inj in Hrun as [_ <-].
  eexists _, _, w2, ds, d, derive, derived, e0, t0, t1. cbv zeta.
  repeat split; try eassumption; reflexivity.
Qed.

(** X17: when the client role reaches its end, its result line shows the
    key and epoch the daemon answered to the one host-to-host request for
    the two endpoints, and a duration that spans that request: the clock
    is read before it for the start, once more for the time asked for,
    and after it for the end. *)
Theorem main_client_result_line (sciondAddr : string)
    (src dst : snet.SCIONAddress) (w w' : World) (u : unit) :
  main_client sciondAddr src dst w = Returns u w' ->
  exists (e1 e2 e3 e4 : ExtState) (c : Connector) (t0 t1 t2 : time.Time)
         (clientKey : drkey.Lvl2Key.t),
    let meta :=
      drkey.Lvl2Meta.mk drkey.Host2Host "piskes" (snet.IA src) (snet.IA dst)
        (snet.Host src) (snet.Host dst) in
    sciond_Connect (ext w) sciondAddr = (e1, (Some c, None)) /\
    time_Now e1 = (e2, t0) /\
    time_Now e2 = (e3, t1) /\
    Connector_DRKeyGetLvl2Key e3 c (10 * time.Second) meta (time.Time_UTC t1) =
      (e4, (clientKey, None)) /\
    time_Now e4 = (ext w', t2) /\
    events w' =
      (events w ++
       [EvConnect sciondAddr;
        EvDRKeyGetLvl2Key (10 * time.Second) meta (time.Time_UTC t1);
        EvPrintf "Client: key = %s, epoch = %s, duration = %s\n"
          [ArgHex (drkey.Lvl2Key.Key clientKey);
           ArgEpoch (drkey.Lvl2Key.Epoch clientKey);
           ArgDuration (time.Time_Sub t2 t0)]])%list /\
    mem w' = mem w.
Proof.
  unfold main_client, ThisClientAndMeta, NewClient, Client_HostKey, Connect,
    DRKeyGetLvl2Key, check, panic, time_Since, time_Now_, fmt_Printf, emit,
    mbind, Go_bind, mret, Go_ret.
  destruct (sciond_Connect (ext w) sciondAddr) as [e1 [sd [e|]]] eqn:Hc;
    [discriminate|]. cbn [ext events mem Client_sciond].
  destruct (time_Now e1) as [e2 t0] eqn:Hn0. cbn [ext events mem].
  destruct (time_Now e2) as [e3 t1] eqn:Hn1. cbn [ext events mem].
  destruct sd as [c|]; [|discriminate].
  destruct (Connector_DRKeyGetLvl2Key e3 c _ _ _) as [e4 [clientKey [e|]]]
    eqn:Hk; [discriminate|]. cbn [ext events mem].
  destruct (time_Now e4) as [e5 t2] eqn:Hn2. cbn [ext events mem].
  intros Hrun. apply Returns_inj in Hrun as [_ <-].
  exists e1, e2, e3, e4, c, t0, t1, t2, clientKey. cbv zeta. cbn [ext events mem].
  rewrite <- !app_assoc. repeat split; try assumption; reflexivity.
Qed.

End RoleLineProperties.

Lemma main_server_result_line_witness :
  let src := snet.mkSCIONAddress (addr.mkIA 1 0xff0000000111) None in
  let dst := snet.mkSCIONAddress (addr.mkIA 1 0xff0000000112) None in
  let run :=
    @main_server (demo.platform true 16) "127.0.0.1:30255" src dst
      (demo.world true 16) in
  returned run /\
  exists (before : list Event) (args : list Arg),
    events (final_world run) =
      (before ++
       [EvPrintf "Server: key = %s, epoch = %s, duration = %s\n" args])%list.
Proof.
  intros src dst run.
  destruct run as [u w'| |] eqn:Hrun; try discriminate Hrun.
  split; [exact Logic.I|].
  destruct (@main_server_result_line (demo.platform true 16) "127.0.0.1:30255"
              src dst (demo.world true 16) w' u Hrun)
    as (server & w1 & w2 & ds & d & derive & derived & e0 & t0 & t1 & Hds &
        _ & _ & _ & _ & _ & Hev).
  cbn [final_world]. rewrite Hev. eexists _, _. reflexivity.
Defined.

Lemma main_client_result_line_witness :
  let src := snet.mkSCIONAddress (addr.mkIA 1 0xff0000000111) None in
  let dst := snet.mkSCIONAddress (addr.mkIA 1 0xff0000000112) None in
  let run :=
    @main_client (demo.platform true 16) "127.0.0.1:30255" src dst
      (demo.world true 16) in
  returned run /\ length (events (final_world run)) = 3%nat.
Proof.
  intros src dst run.
  destruct run as [u w'| |] eqn:Hrun; try discriminate Hrun.
  split; [exact Logic.I|].
  destruct (@main_client_result_line (demo.platform true 16) "127.0.0.1:30255"
              src dst (demo.world true 16) w' u Hrun)
    as (e1 & e2 & e3 & e4 & c & t0 & t1 & t2 & k & _ & _ & _ & _ & _ & Hev & _).
  cbn [final_world]. rewrite Hev. reflexivity.
Defined.
